(** * ModelCheckpoint: the checkpoint retention callback

    A shallow embedding of [pytorch_lightning/callbacks/model_checkpoint.py].

    The Python object [self], the metric dictionaries held by the trainer,
    the storage backend and the log are threaded explicitly through a small
    state-and-exception monad.  Python builtins the callback relies on
    ([str.replace], [re.findall] on the one pattern the callback uses,
    [str.format] on the numeric fragment of the format mini-language,
    insertion-ordered [dict]) are embedded first. *)

From Stdlib Require Import ZArith List String Ascii Bool Lia Floats.
From Stdlib Require Import DecimalString.
From Stdlib Require DecimalZ DecimalPos FinFun.
Import ListNotations.

#[local] Set Warnings "-inexact-float".

Local Open Scope Z_scope.
Local Open Scope string_scope.

(* ================================================================== *)
(** ** Python strings *)

Module PyStr.

(** [s.startswith(p)] *)
Definition startswith (s p : string) : bool := String.prefix p s.

(** [sub in s] *)
Fixpoint contains (sub s : string) : bool :=
  String.prefix sub s ||
  match s with
  | EmptyString => false
  | String _ s' => contains sub s'
  end.

(** [bool(s)]: a string is truthy when it is not empty. *)
Definition truthy (s : string) : bool :=
  match s with EmptyString => false | _ => true end.

(** [s[1:]] *)
Definition tail (s : string) : string :=
  match s with EmptyString => EmptyString | String _ s' => s' end.

(** [s.replace(old, new)] for a non-empty [old]: every non-overlapping
    occurrence, leftmost first.  [skip] counts the characters of a matched
    occurrence that remain to be dropped. *)
Fixpoint replace_from (old new s : string) (skip : nat) : string :=
  match s with
  | EmptyString => EmptyString
  | String c s' =>
      match skip with
      | S k => replace_from old new s' k
      | O =>
          if String.prefix old s
          then new ++ replace_from old new s' (Nat.pred (String.length old))
          else String c (replace_from old new s' O)
      end
  end.

(** With an empty [old], Python inserts [new] before every character and
    at the end. *)
Fixpoint intersperse (new s : string) : string :=
  match s with
  | EmptyString => new
  | String c s' => new ++ String c (intersperse new s')
  end.

Definition replace (s old new : string) : string :=
  match old with
  | EmptyString => intersperse new s
  | _ => replace_from old new s O
  end.

(** [sep.join(parts)] *)
Fixpoint join (sep : string) (parts : list string) : string :=
  match parts with
  | [] => EmptyString
  | [p] => p
  | p :: rest => p ++ sep ++ join sep rest
  end.

(** [str(n)] for an [int] *)
Definition of_int (z : Z) : string := NilZero.string_of_int (Z.to_int z).

(** [s * n]: [n] copies of [s] *)
Fixpoint repeat (s : string) (n : nat) : string :=
  match n with O => EmptyString | S k => s ++ repeat s k end.

Definition newline : ascii := Ascii.ascii_of_nat 10.

(** [re.findall(r"(\{.*?)[:\}]", s)]: the list of captured groups.

    A match starts at an opening brace and extends lazily to the first
    colon or closing brace; the group is the text from the brace up to,
    but excluding, that terminator.  [.] does not match a newline, so a
    newline met before a terminator makes every start position since
    the brace fail, and scanning resumes after it.  Matches do not
    overlap: scanning resumes after the terminator.  [cur] is the group
    being accumulated, in reverse, when a brace is open. *)
Fixpoint findall_groups (s : string) (cur : option (list ascii)) : list string :=
  match s with
  | EmptyString => []
  | String c s' =>
      match cur with
      | None =>
          if Ascii.eqb c "{" then findall_groups s' (Some ["{"%char])
          else findall_groups s' None
      | Some g =>
          if Ascii.eqb c ":" || Ascii.eqb c "}"
          then string_of_list_ascii (List.rev g) :: findall_groups s' None
          else if Ascii.eqb c newline then findall_groups s' None
          else findall_groups s' (Some (c :: g))
      end
  end.

Definition findall (s : string) : list string := findall_groups s None.

(** [os.path.join(a, b)] (posixpath, two arguments) *)
Definition ends_with_slash (s : string) : bool :=
  match List.rev (list_ascii_of_string s) with
  | c :: _ => Ascii.eqb c "/"
  | [] => false
  end.

Definition path_join (a b : string) : string :=
  if startswith b "/" then b
  else if negb (truthy a) || ends_with_slash a then a ++ b
  else a ++ "/" ++ b.

(** [os.path.dirname(p)] (posixpath): the text before the last slash,
    with trailing slashes stripped unless it consists of slashes only. *)
Fixpoint strip_slashes_rev (l : list ascii) : list ascii :=
  match l with
  | c :: l' => if Ascii.eqb c "/" then strip_slashes_rev l' else l
  | [] => []
  end.

Fixpoint drop_to_slash_rev (l : list ascii) : list ascii :=
  match l with
  | c :: l' => if Ascii.eqb c "/" then l else drop_to_slash_rev l'
  | [] => []
  end.

Definition dirname (p : string) : string :=
  let head := drop_to_slash_rev (List.rev (list_ascii_of_string p)) in
  match strip_slashes_rev head with
  | [] => string_of_list_ascii (List.rev head)
  | stripped => string_of_list_ascii (List.rev stripped)
  end.

End PyStr.

(* ================================================================== *)
(** ** Python dictionaries

    A [dict] keeps its keys in insertion order, and [min]/[max] over a
    dictionary break ties by that order, so a dictionary is an association
    list without duplicate keys. *)

Module PyDict.

Definition dict (V : Type) : Type := list (string * V).

Section Ops.
Context {V : Type}.

(** [d.get(k)] *)
Fixpoint get (d : dict V) (k : string) : option V :=
  match d with
  | [] => None
  | (k', v) :: d' => if String.eqb k k' then Some v else get d' k
  end.

(** [k in d] *)
Definition mem (k : string) (d : dict V) : bool :=
  match get d k with Some _ => true | None => false end.

(** [d[k] = v]: an existing key keeps its position. *)
Fixpoint set (d : dict V) (k : string) (v : V) : dict V :=
  match d with
  | [] => [(k, v)]
  | (k', v') :: d' =>
      if String.eqb k k' then (k', v) :: d' else (k', v') :: set d' k v
  end.

(** [d.pop(k)]: the dictionary without [k]; [None] stands for the
    [KeyError] raised when [k] is missing. *)
Fixpoint pop (d : dict V) (k : string) : option (dict V) :=
  match d with
  | [] => None
  | (k', v') :: d' =>
      if String.eqb k k' then Some d'
      else option_map (cons (k', v')) (pop d' k)
  end.

(** [d.update(other)] *)
Definition update (d other : dict V) : dict V :=
  fold_left (fun acc kv => set acc (fst kv) (snd kv)) other d.

(** [len(d)] *)
Definition len (d : dict V) : Z := Z.of_nat (List.length d).

(** [list(d.keys())] *)
Definition keys (d : dict V) : list string := map fst d.

(** The scan behind [max(d, key=d.get)] and [min(d, key=d.get)]:
    the running best is replaced only when [better candidate best]
    holds, so the earliest of several optimal keys wins. *)
Fixpoint select (better : V -> V -> bool) (bk : string) (bv : V)
         (rest : dict V) : string :=
  match rest with
  | [] => bk
  | (k, v) :: rest' =>
      if better v bv then select better k v rest'
      else select better bk bv rest'
  end.

(** [None] stands for the [ValueError] raised on an empty dictionary. *)
Definition arg_best (better : V -> V -> bool) (d : dict V) : option string :=
  match d with
  | [] => None
  | (k, v) :: rest => Some (select better k v rest)
  end.

End Ops.

End PyDict.

(* ================================================================== *)
(** ** Python values, exceptions and results *)

Module Py.

(** The metric values the callback handles: Python integers, Python
    floats, and zero-dimensional floating-point tensors.  A tensor is
    modelled by the value it holds, written as a binary64 value whatever
    its dtype: every [float16], [bfloat16], [float32] or [float64] value
    is one, and two such tensors compare as their values do. *)
Inductive pyval : Type :=
| PyInt (z : Z)
| PyFloat (f : float)
| Tensor (f : float).

Inductive exn : Type :=
| KeyError
| ValueError
| IndexError
| TypeError
| AssertionError
| MisconfigurationException.

(** The outcome of a call.  [Unmodelled] marks an input that leaves the
    embedded fragment of a builtin (for instance the [repr] of a float);
    [OutOfFuel] marks a loop cut off by its iteration bound. *)
Inductive result (A : Type) : Type :=
| Ok (a : A)
| Raise (e : exn)
| Unmodelled
| OutOfFuel.

Arguments Ok {A} a.
Arguments Raise {A} e.
Arguments Unmodelled {A}.
Arguments OutOfFuel {A}.

Definition rbind {A B : Type} (r : result A) (k : A -> result B) : result B :=
  match r with
  | Ok a => k a
  | Raise e => Raise e
  | Unmodelled => Unmodelled
  | OutOfFuel => OutOfFuel
  end.

Definition float_of_Z (z : Z) : float :=
  match z with
  | Z0 => PrimFloat.zero
  | Zpos p => SF2Prim (binary_normalize prec emax (Zpos p) 0 false)
  | Zneg p => PrimFloat.opp (SF2Prim (binary_normalize prec emax (Zpos p) 0 false))
  end.

(** [isinstance(v, torch.Tensor)] *)
Definition is_tensor (v : pyval) : bool :=
  match v with Tensor _ => true | _ => false end.

(** The binary32 value nearest to [x] (ties to even, overflow to an
    infinity, underflow to a subnormal or a signed zero), written as the
    binary64 value equal to it. *)
Definition to_float32 (x : float) : float :=
  match Prim2SF x with
  | S754_finite s m e =>
      SF2Prim (binary_normalize 24 128 (if s then Zneg m else Zpos m) e s)
  | _ => x
  end.

(** The scalar held by the tensor [torch.tensor(v)].  A Python float
    becomes a tensor of the default dtype [float32], so its value is
    rounded to binary32; a tensor keeps its value.  A Python int becomes
    an [int64] tensor: how it compares with a floating-point tensor
    depends on the dtype of the latter, which a score of the embedding
    does not carry, and is left out. *)
Definition torch_tensor (v : pyval) : result float :=
  match v with
  | PyInt _ => Unmodelled
  | PyFloat f => Ok (to_float32 f)
  | Tensor f => Ok f
  end.

(** [torch.lt] and [torch.gt] on scalars; the same comparisons decide
    [a < b] and [a > b] inside [min] and [max]. *)
Definition torch_lt (a b : float) : bool := PrimFloat.ltb a b.
Definition torch_gt (a b : float) : bool := PrimFloat.ltb b a.

End Py.

(* ================================================================== *)
(** ** [str.format] on the numeric fragment of the format mini-language *)

Module PyFormat.
Import Py.

Record format_spec : Type := {
  zero_pad : bool;           (* the [0] flag *)
  width : nat;               (* minimum field width, 0 when absent *)
  precision : option nat;    (* [.N] *)
  ty : option ascii          (* presentation type *)
}.

Definition digit_of (c : ascii) : option nat :=
  let n := nat_of_ascii c in
  if (48 <=? n)%nat && (n <=? 57)%nat then Some (n - 48)%nat else None.

(** The leading decimal digits of [s], as a number, and what follows
    them; [None] when [s] does not start with a digit. *)
Fixpoint read_digits (s : string) (acc : option nat) : option nat * string :=
  match s with
  | EmptyString => (acc, s)
  | String c s' =>
      match digit_of c with
      | Some d =>
          read_digits s'
            (Some (10 * match acc with Some a => a | None => O end + d)%nat)
      | None => (acc, s)
      end
  end.

Fixpoint all_digits (s : string) : bool :=
  match s with
  | EmptyString => true
  | String c s' =>
      match digit_of c with Some _ => all_digits s' | None => false end
  end.

(** The format specifications [[0][width][.precision][d|f]]. *)
Definition parse_spec (s : string) : result format_spec :=
  let (zero, s1) :=
    match s with
    | String "0"%char r => (true, r)
    | _ => (false, s)
    end in
  let (w, s2) := read_digits s1 None in
  let after_precision :=
    match s2 with
    | String "."%char r =>
        match read_digits r None with
        | (Some p, s3) => Ok (Some p, s3)
        | (None, _) => Raise ValueError   (* missing precision *)
        end
    | _ => Ok (None, s2)
    end in
  rbind after_precision (fun ps =>
    let mk t := Ok {| zero_pad := zero;
                      width := match w with Some n => n | None => O end;
                      precision := fst ps; ty := t |} in
    match snd ps with
    | EmptyString => mk None
    | String c EmptyString =>
        if Ascii.eqb c "d" || Ascii.eqb c "f" then mk (Some c) else Unmodelled
    | _ => Unmodelled
    end).

(** Sign-aware padding to the field width: zeros after the sign with the
    [0] flag, spaces on the left otherwise (numbers are right-aligned). *)
Definition pad (spec : format_spec) (sign body : string) : string :=
  let missing := (width spec - (String.length sign + String.length body))%nat in
  if zero_pad spec then sign ++ PyStr.repeat "0" missing ++ body
  else PyStr.repeat " " missing ++ sign ++ body.

(** Rounding of [num / den] (with [0 <= num], [0 < den]) to the nearest
    integer, ties to even. *)
Definition round_half_even (num den : Z) : Z :=
  let q := num / den in
  let r := num mod den in
  if (2 * r <? den)%Z then q
  else if (den <? 2 * r)%Z then q + 1
  else if Z.even q then q else q + 1.

(** The digits of the non-negative value [num / den] in fixed-point
    notation with [p] digits after the point, correctly rounded. *)
Definition fixed_digits (p : nat) (num den : Z) : string :=
  let scaled := round_half_even (num * 10 ^ Z.of_nat p) den in
  let ds := PyStr.of_int scaled in
  let ds := PyStr.repeat "0" (S p - String.length ds) ++ ds in
  let n := (String.length ds - p)%nat in
  match p with
  | O => ds
  | _ => String.substring 0 n ds ++ "." ++ String.substring n p ds
  end.

(** [format(x, spec)] for a float [x] and presentation type [f]. *)
Definition format_float_f (spec : format_spec) (x : float) : string :=
  let p := match precision spec with Some p => p | None => 6%nat end in
  let sign (s : bool) : string := if s then "-" else "" in
  match Prim2SF x with
  | S754_zero s => pad spec (sign s) (fixed_digits p 0 1)
  | S754_infinity s => pad spec (sign s) "inf"
  | S754_nan => pad spec "" "nan"
  | S754_finite s m e =>
      pad spec (sign s)
        (if (0 <=? e)%Z then fixed_digits p (Zpos m * 2 ^ e) 1
         else fixed_digits p (Zpos m) (2 ^ (- e)))
  end.

Definition format_int_d (spec : format_spec) (z : Z) : string :=
  pad spec (if (z <? 0)%Z then "-" else "") (PyStr.of_int (Z.abs z)).

(** [format(v, spec)], the method [str.format] applies to each field. *)
Definition format_value (v : pyval) (spec : string) : result string :=
  rbind (parse_spec spec) (fun sp =>
    match v, ty sp with
    | PyInt z, None | PyInt z, Some "d"%char =>
        match precision sp with
        | Some _ => Raise ValueError   (* precision with an integer *)
        | None => Ok (format_int_d sp z)
        end
    | PyInt z, Some _ =>
        (* converted to a float first: exact below 2^53 *)
        if (Z.abs z <=? 2 ^ 53)%Z then Ok (format_float_f sp (float_of_Z z))
        else Unmodelled
    | PyFloat x, Some "f"%char | Tensor x, Some "f"%char =>
        Ok (format_float_f sp x)
    | PyFloat _, Some _ | Tensor _, Some _ =>
        Raise ValueError               (* code [d] with a float *)
    | PyFloat _, None | Tensor _, None =>
        Unmodelled                     (* [repr] of a float *)
    end).

(** A parsed format string: literal characters and replacement fields. *)
Inductive piece : Type :=
| Lit (c : ascii)
| Field (name spec : string).

Inductive scan_state : Type :=
| Text                                   (* outside any field *)
| AfterOpen                              (* just read an opening brace *)
| AfterClose                             (* just read a closing brace in text *)
| InName (acc : list ascii)              (* reading a field name *)
| InSpec (name : string) (acc : list ascii).

Definition str_of_rev (acc : list ascii) : string :=
  string_of_list_ascii (List.rev acc).

Fixpoint parse_template (s : string) (st : scan_state) : result (list piece) :=
  let emit (p : piece) (s' : string) : result (list piece) :=
    rbind (parse_template s' Text) (fun ps => Ok (p :: ps)) in
  match s with
  | EmptyString =>
      match st with
      | Text => Ok []
      | _ => Raise ValueError            (* a brace left open or single *)
      end
  | String c s' =>
      match st with
      | Text =>
          if Ascii.eqb c "{" then parse_template s' AfterOpen
          else if Ascii.eqb c "}" then parse_template s' AfterClose
          else emit (Lit c) s'
      | AfterOpen =>
          if Ascii.eqb c "{" then emit (Lit "{") s'
          else if Ascii.eqb c "}" then emit (Field "" "") s'
          else if Ascii.eqb c ":" then parse_template s' (InSpec "" [])
          else if Ascii.eqb c "!" || Ascii.eqb c "." || Ascii.eqb c "["
          then Unmodelled
          else parse_template s' (InName [c])
      | AfterClose =>
          if Ascii.eqb c "}" then emit (Lit "}") s'
          else Raise ValueError          (* single closing brace *)
      | InName acc =>
          if Ascii.eqb c "}" then emit (Field (str_of_rev acc) "") s'
          else if Ascii.eqb c ":"
          then parse_template s' (InSpec (str_of_rev acc) [])
          else if Ascii.eqb c "{" then Raise ValueError
          else if Ascii.eqb c "!" || Ascii.eqb c "." || Ascii.eqb c "["
          then Unmodelled                (* conversion, attribute, index *)
          else parse_template s' (InName (c :: acc))
      | InSpec name acc =>
          if Ascii.eqb c "}" then emit (Field name (str_of_rev acc)) s'
          else if Ascii.eqb c "{" then Unmodelled   (* nested field *)
          else parse_template s' (InSpec name (c :: acc))
      end
  end.

(** One field of [template.format( **kwargs )]: there are no positional
    arguments, so an empty or numeric field name raises [IndexError] and
    a name missing from [kwargs] raises [KeyError]. *)
Definition render_piece (kwargs : PyDict.dict pyval) (p : piece) : result string :=
  match p with
  | Lit c => Ok (String c EmptyString)
  | Field name spec =>
      if all_digits name then Raise IndexError
      else match PyDict.get kwargs name with
           | None => Raise KeyError
           | Some v => format_value v spec
           end
  end.

Fixpoint render (kwargs : PyDict.dict pyval) (ps : list piece) : result string :=
  match ps with
  | [] => Ok EmptyString
  | p :: ps' =>
      rbind (render_piece kwargs p) (fun a =>
      rbind (render kwargs ps') (fun b => Ok (a ++ b)))
  end.

(** [template.format( **kwargs )] *)
Definition format (template : string) (kwargs : PyDict.dict pyval) : result string :=
  rbind (parse_template template Text) (render kwargs).

End PyFormat.

(* ================================================================== *)
(** ** The storage backend *)

Module Storage.

(** Modelled from the spec: the storage backend returned by
    [get_filesystem] ([pytorch_lightning.utilities.cloud_io]) is not part
    of the sources.  Following the capability set of the specification
    ([exists(path) -> bool], [remove(path)], [makeDirs(path, existOk)]),
    a backend is the finite list of the paths that exist on it. *)
Definition filesystem : Type := list string.

(** Modelled from the spec: [exists(path) -> bool]. *)
Definition exists_ (fs : filesystem) (p : string) : bool :=
  existsb (String.eqb p) fs.

(** Modelled from the spec: [remove(path)]; afterwards the path does not
    exist. *)
Definition rm (fs : filesystem) (p : string) : filesystem :=
  filter (fun q => negb (String.eqb p q)) fs.

(** Modelled from the spec: [makeDirs(path, existOk)] with [existOk]
    set: the directory exists afterwards, pre-existence is tolerated. *)
Definition makedirs (fs : filesystem) (d : string) : filesystem :=
  if exists_ fs d then fs else d :: fs.

End Storage.

(* ================================================================== *)
(** ** The callback *)

Module ModelCheckpoint.
Import Py PyDict.

Definition CHECKPOINT_JOIN_CHAR : string := "-".
Definition CHECKPOINT_NAME_LAST : string := "last".

(** [self.mode], one of the strings ["min"] and ["max"]. *)
Inductive mode_t : Type := Min | Max.

(** The save delegate [save_function(filepath, save_weights_only)]: an
    external collaborator, any transformation of the backend. *)
Definition delegate : Type := string -> bool -> Storage.filesystem -> Storage.filesystem.

(** The attributes of [self]. *)
Record checkpoint : Type := {
  monitor : option string;
  verbose : bool;
  save_last : bool;
  save_top_k : Z;
  save_weights_only : bool;
  period : Z;
  epoch_last_check : option Z;
  prefix : string;
  best_k_models : dict float;
  kth_best_model_path : string;
  best_model_score : pyval;
  best_model_path : string;
  last_model_path : string;
  save_function : option delegate;
  warned_result_obj : bool;
  kth_value : float;
  mode : mode_t;
  dirpath : option string;
  filename : option string
}.

(** A reference to a dictionary object on the heap. *)
Definition loc : Type := nat.

(** The part of the trainer the callback reads;
    [trainer.logger_connector] holds the three metric dictionaries. *)
Record Trainer : Type := {
  global_rank : Z;
  running_sanity_check : bool;
  current_epoch : Z;
  logged_metrics : loc;
  callback_metrics : loc;
  progress_bar_metrics : loc
}.

Inductive event : Type :=
| WarnUnknownMode (mode : string)            (* fallback to auto mode *)
| WarnNotTensor (current : pyval)            (* in [check_monitor_top_k] *)
| WarnSkipping (monitor : option string)     (* "Can save best model only with ..." *)
| WarnNoCheckpointOn                         (* "No checkpoint_on found ..." *)
| InfoNotInTopK (epoch : Z)
| InfoSavingTopK (epoch : Z) (filepath : string)
| InfoSavingAll (epoch : Z) (filepath : string)
| TrackCheckpointing (filepath : string)     (* [dev_debugger] *)
| Saved (filepath : string) (weights_only : bool)
| Removed (filepath : string).

(** What a call can read and change: the callback object, the
    dictionary objects, the storage backend, and the messages and calls
    issued so far, oldest first. *)
Record World : Type := {
  obj : checkpoint;
  heap : list (dict pyval);
  fs : Storage.filesystem;
  log : list event
}.

(** *** The state-and-exception monad *)

Definition M (A : Type) : Type := World -> World * result A.

Definition ret {A : Type} (a : A) : M A := fun w => (w, Ok a).

Definition bind {A B : Type} (m : M A) (k : A -> M B) : M B :=
  fun w =>
    match m w with
    | (w', Ok a) => k a w'
    | (w', Raise e) => (w', Raise e)
    | (w', Unmodelled) => (w', Unmodelled)
    | (w', OutOfFuel) => (w', OutOfFuel)
    end.

Definition raise {A : Type} (e : exn) : M A := fun w => (w, Raise e).

(** Lifts the outcome of a pure builtin. *)
Definition lift {A : Type} (r : result A) : M A := fun w => (w, r).

(** [None] stands for the exception [e]. *)
Definition or_raise {A : Type} (o : option A) (e : exn) : M A :=
  match o with Some a => ret a | None => raise e end.

Definition get_self : M checkpoint := fun w => (w, Ok (obj w)).

Definition modify_self (f : checkpoint -> checkpoint) : M unit :=
  fun w => ({| obj := f (obj w); heap := heap w; fs := fs w; log := log w |}, Ok tt).

Definition get_fs : M Storage.filesystem := fun w => (w, Ok (fs w)).

Definition modify_fs (f : Storage.filesystem -> Storage.filesystem) : M unit :=
  fun w => ({| obj := obj w; heap := heap w; fs := f (fs w); log := log w |}, Ok tt).

Definition emit (e : event) : M unit :=
  fun w => ({| obj := obj w; heap := heap w; fs := fs w; log := log w ++ [e] |}, Ok tt).

(** Dereferences a dictionary; a dangling reference cannot occur in
    Python and is outside the embedding. *)
Definition read (l : loc) : M (dict pyval) :=
  fun w => (w, match nth_error (heap w) l with Some d => Ok d | None => Unmodelled end).

Fixpoint list_set {A : Type} (xs : list A) (n : nat) (a : A) : list A :=
  match xs, n with
  | [], _ => []
  | _ :: xs', O => a :: xs'
  | x :: xs', S n' => x :: list_set xs' n' a
  end.

Definition write (l : loc) (d : dict pyval) : M unit :=
  fun w => ({| obj := obj w; heap := list_set (heap w) l d; fs := fs w; log := log w |}, Ok tt).

(** Allocates a new dictionary object. *)
Definition alloc (d : dict pyval) : M loc :=
  fun w => ({| obj := obj w; heap := heap w ++ [d]; fs := fs w; log := log w |},
            Ok (List.length (heap w))).

Declare Scope py_scope.
Delimit Scope py_scope with py.
Notation "x <- c1 ;; c2" := (bind c1 (fun x => c2))
  (at level 100, c1 at next level, right associativity) : py_scope.
Notation "c1 ;; c2" := (bind c1 (fun _ => c2))
  (at level 100, right associativity) : py_scope.
Local Open Scope py_scope.

(** [if c: body] *)
Definition when (c : bool) (body : M unit) : M unit :=
  if c then body else ret tt.

(** *** Attribute assignment: [self.x = v] *)

Definition with_monitor (v : option string) (self : checkpoint) : checkpoint :=
  {| monitor := v;
     verbose := verbose self;
     save_last := save_last self;
     save_top_k := save_top_k self;
     save_weights_only := save_weights_only self;
     period := period self;
     epoch_last_check := epoch_last_check self;
     prefix := prefix self;
     best_k_models := best_k_models self;
     kth_best_model_path := kth_best_model_path self;
     best_model_score := best_model_score self;
     best_model_path := best_model_path self;
     last_model_path := last_model_path self;
     save_function := save_function self;
     warned_result_obj := warned_result_obj self;
     kth_value := kth_value self;
     mode := mode self;
     dirpath := dirpath self;
     filename := filename self |}.

Definition with_epoch_last_check (v : option Z) (self : checkpoint) : checkpoint :=
  {| monitor := monitor self;
     verbose := verbose self;
     save_last := save_last self;
     save_top_k := save_top_k self;
     save_weights_only := save_weights_only self;
     period := period self;
     epoch_last_check := v;
     prefix := prefix self;
     best_k_models := best_k_models self;
     kth_best_model_path := kth_best_model_path self;
     best_model_score := best_model_score self;
     best_model_path := best_model_path self;
     last_model_path := last_model_path self;
     save_function := save_function self;
     warned_result_obj := warned_result_obj self;
     kth_value := kth_value self;
     mode := mode self;
     dirpath := dirpath self;
     filename := filename self |}.

Definition with_best_k_models (v : dict float) (self : checkpoint) : checkpoint :=
  {| monitor := monitor self;
     verbose := verbose self;
     save_last := save_last self;
     save_top_k := save_top_k self;
     save_weights_only := save_weights_only self;
     period := period self;
     epoch_last_check := epoch_last_check self;
     prefix := prefix self;
     best_k_models := v;
     kth_best_model_path := kth_best_model_path self;
     best_model_score := best_model_score self;
     best_model_path := best_model_path self;
     last_model_path := last_model_path self;
     save_function := save_function self;
     warned_result_obj := warned_result_obj self;
     kth_value := kth_value self;
     mode := mode self;
     dirpath := dirpath self;
     filename := filename self |}.

Definition with_kth_best_model_path (v : string) (self : checkpoint) : checkpoint :=
  {| monitor := monitor self;
     verbose := verbose self;
     save_last := save_last self;
     save_top_k := save_top_k self;
     save_weights_only := save_weights_only self;
     period := period self;
     epoch_last_check := epoch_last_check self;
     prefix := prefix self;
     best_k_models := best_k_models self;
     kth_best_model_path := v;
     best_model_score := best_model_score self;
     best_model_path := best_model_path self;
     last_model_path := last_model_path self;
     save_function := save_function self;
     warned_result_obj := warned_result_obj self;
     kth_value := kth_value self;
     mode := mode self;
     dirpath := dirpath self;
     filename := filename self |}.

Definition with_best_model_score (v : pyval) (self : checkpoint) : checkpoint :=
  {| monitor := monitor self;
     verbose := verbose self;
     save_last := save_last self;
     save_top_k := save_top_k self;
     save_weights_only := save_weights_only self;
     period := period self;
     epoch_last_check := epoch_last_check self;
     prefix := prefix self;
     best_k_models := best_k_models self;
     kth_best_model_path := kth_best_model_path self;
     best_model_score := v;
     best_model_path := best_model_path self;
     last_model_path := last_model_path self;
     save_function := save_function self;
     warned_result_obj := warned_result_obj self;
     kth_value := kth_value self;
     mode := mode self;
     dirpath := dirpath self;
     filename := filename self |}.

Definition with_best_model_path (v : string) (self : checkpoint) : checkpoint :=
  {| monitor := monitor self;
     verbose := verbose self;
     save_last := save_last self;
     save_top_k := save_top_k self;
     save_weights_only := save_weights_only self;
     period := period self;
     epoch_last_check := epoch_last_check self;
     prefix := prefix self;
     best_k_models := best_k_models self;
     kth_best_model_path := kth_best_model_path self;
     best_model_score := best_model_score self;
     best_model_path := v;
     last_model_path := last_model_path self;
     save_function := save_function self;
     warned_result_obj := warned_result_obj self;
     kth_value := kth_value self;
     mode := mode self;
     dirpath := dirpath self;
     filename := filename self |}.

Definition with_last_model_path (v : string) (self : checkpoint) : checkpoint :=
  {| monitor := monitor self;
     verbose := verbose self;
     save_last := save_last self;
     save_top_k := save_top_k self;
     save_weights_only := save_weights_only self;
     period := period self;
     epoch_last_check := epoch_last_check self;
     prefix := prefix self;
     best_k_models := best_k_models self;
     kth_best_model_path := kth_best_model_path self;
     best_model_score := best_model_score self;
     best_model_path := best_model_path self;
     last_model_path := v;
     save_function := save_function self;
     warned_result_obj := warned_result_obj self;
     kth_value := kth_value self;
     mode := mode self;
     dirpath := dirpath self;
     filename := filename self |}.

Definition with_save_function (v : option delegate) (self : checkpoint) : checkpoint :=
  {| monitor := monitor self;
     verbose := verbose self;
     save_last := save_last self;
     save_top_k := save_top_k self;
     save_weights_only := save_weights_only self;
     period := period self;
     epoch_last_check := epoch_last_check self;
     prefix := prefix self;
     best_k_models := best_k_models self;
     kth_best_model_path := kth_best_model_path self;
     best_model_score := best_model_score self;
     best_model_path := best_model_path self;
     last_model_path := last_model_path self;
     save_function := v;
     warned_result_obj := warned_result_obj self;
     kth_value := kth_value self;
     mode := mode self;
     dirpath := dirpath self;
     filename := filename self |}.

Definition with_kth_value (v : float) (self : checkpoint) : checkpoint :=
  {| monitor := monitor self;
     verbose := verbose self;
     save_last := save_last self;
     save_top_k := save_top_k self;
     save_weights_only := save_weights_only self;
     period := period self;
     epoch_last_check := epoch_last_check self;
     prefix := prefix self;
     best_k_models := best_k_models self;
     kth_best_model_path := kth_best_model_path self;
     best_model_score := best_model_score self;
     best_model_path := best_model_path self;
     last_model_path := last_model_path self;
     save_function := save_function self;
     warned_result_obj := warned_result_obj self;
     kth_value := v;
     mode := mode self;
     dirpath := dirpath self;
     filename := filename self |}.

Definition with_mode (v : mode_t) (self : checkpoint) : checkpoint :=
  {| monitor := monitor self;
     verbose := verbose self;
     save_last := save_last self;
     save_top_k := save_top_k self;
     save_weights_only := save_weights_only self;
     period := period self;
     epoch_last_check := epoch_last_check self;
     prefix := prefix self;
     best_k_models := best_k_models self;
     kth_best_model_path := kth_best_model_path self;
     best_model_score := best_model_score self;
     best_model_path := best_model_path self;
     last_model_path := last_model_path self;
     save_function := save_function self;
     warned_result_obj := warned_result_obj self;
     kth_value := kth_value self;
     mode := v;
     dirpath := dirpath self;
     filename := filename self |}.

Definition with_dirpath (v : option string) (self : checkpoint) : checkpoint :=
  {| monitor := monitor self;
     verbose := verbose self;
     save_last := save_last self;
     save_top_k := save_top_k self;
     save_weights_only := save_weights_only self;
     period := period self;
     epoch_last_check := epoch_last_check self;
     prefix := prefix self;
     best_k_models := best_k_models self;
     kth_best_model_path := kth_best_model_path self;
     best_model_score := best_model_score self;
     best_model_path := best_model_path self;
     last_model_path := last_model_path self;
     save_function := save_function self;
     warned_result_obj := warned_result_obj self;
     kth_value := kth_value self;
     mode := mode self;
     dirpath := v;
     filename := filename self |}.

Definition with_filename (v : option string) (self : checkpoint) : checkpoint :=
  {| monitor := monitor self;
     verbose := verbose self;
     save_last := save_last self;
     save_top_k := save_top_k self;
     save_weights_only := save_weights_only self;
     period := period self;
     epoch_last_check := epoch_last_check self;
     prefix := prefix self;
     best_k_models := best_k_models self;
     kth_best_model_path := kth_best_model_path self;
     best_model_score := best_model_score self;
     best_model_path := best_model_path self;
     last_model_path := last_model_path self;
     save_function := save_function self;
     warned_result_obj := warned_result_obj self;
     kth_value := kth_value self;
     mode := mode self;
     dirpath := dirpath self;
     filename := v |}.

Definition set_monitor v := modify_self (with_monitor v).
Definition set_epoch_last_check v := modify_self (with_epoch_last_check v).
Definition set_best_k_models v := modify_self (with_best_k_models v).
Definition set_kth_best_model_path v := modify_self (with_kth_best_model_path v).
Definition set_best_model_score v := modify_self (with_best_model_score v).
Definition set_best_model_path v := modify_self (with_best_model_path v).
Definition set_last_model_path v := modify_self (with_last_model_path v).
Definition set_save_function v := modify_self (with_save_function v).
Definition set_kth_value v := modify_self (with_kth_value v).
Definition set_mode v := modify_self (with_mode v).
Definition set_dirpath v := modify_self (with_dirpath v).
Definition set_filename v := modify_self (with_filename v).

(** *** Construction *)

(** [__validate_init_configuration] *)
Definition __validate_init_configuration : M unit :=
  self <- get_self ;;
  match monitor self with
  | None => if negb (save_top_k self =? 1)%Z then raise MisconfigurationException else ret tt
  | Some _ => ret tt
  end.

(** [__init_ckpt_dir]: how [filepath] splits into a directory and a file
    name template depends on the backend's [isdir] and on
    [os.path.realpath]; the embedding takes the outcome of that split,
    [None] for both when no [filepath] is given.  The warning about a
    directory that is not empty, which reads the backend's [isdir] and
    [ls] and which nothing later depends on, is left out. *)
Definition __init_ckpt_dir (dir name : option string) : M unit :=
  set_dirpath dir ;;
  set_filename name ;;
  match dir with
  | Some d => modify_fs (fun fs => Storage.makedirs fs d)
  | None => ret tt
  end.

(** The entry ["auto"] of [mode_dict]. *)
Definition auto_mode (monitor : option string) : float * mode_t :=
  match monitor with
  | Some m =>
      if PyStr.contains "acc" m || PyStr.startswith m "fmeasure"
      then (neg_infinity, Max)
      else (infinity, Min)
  | None => (infinity, Min)
  end.

(** [mode_dict[mode]]; [None] when [mode] is not a key. *)
Definition mode_dict (monitor : option string) (mode : string) : option (float * mode_t) :=
  if String.eqb mode "min" then Some (infinity, Min)
  else if String.eqb mode "max" then Some (neg_infinity, Max)
  else if String.eqb mode "auto" then Some (auto_mode monitor)
  else None.

(** [__init_monitor_mode] *)
Definition __init_monitor_mode (monitor : option string) (mode : string) : M unit :=
  mode <- match mode_dict monitor mode with
          | None => emit (WarnUnknownMode mode) ;; ret "auto"
          | Some _ => ret mode
          end ;;
  entry <- or_raise (mode_dict monitor mode) KeyError ;;
  set_kth_value (fst entry) ;;
  set_mode (snd entry).

(** The attribute assignments that open [__init__]; [kth_value],
    [mode], [dirpath] and [filename] are assigned by the helpers called
    next and hold placeholders until then. *)
Definition fresh (monitor : option string) (verbose save_last : bool)
           (save_top_k : Z) (save_weights_only : bool) (period : Z)
           (prefix : string) : checkpoint :=
  {| monitor := monitor; verbose := verbose; save_last := save_last;
     save_top_k := save_top_k; save_weights_only := save_weights_only;
     period := period; epoch_last_check := None; prefix := prefix;
     best_k_models := []; kth_best_model_path := "";
     best_model_score := PyInt 0; best_model_path := "";
     last_model_path := ""; save_function := None;
     warned_result_obj := false;
     kth_value := infinity; mode := Min; dirpath := None; filename := None |}.

(** [__init__], run against the dictionaries and the backend that exist
    when the callback is built. *)
Definition __init__ (dir name : option string) (monitor : option string)
           (verbose save_last : bool) (save_top_k : Z) (save_weights_only : bool)
           (mode : string) (period : Z) (prefix : string)
           (heap : list (dict pyval)) (fs : Storage.filesystem) : World * result unit :=
  (__init_monitor_mode monitor mode ;;
   __init_ckpt_dir dir name ;;
   __validate_init_configuration)
    {| obj := fresh monitor verbose save_last save_top_k save_weights_only period prefix;
       heap := heap; fs := fs; log := [] |}.

(** [on_load_checkpoint] *)
Definition on_load_checkpoint (score : pyval) (path : string) : M unit :=
  set_best_model_score score ;;
  set_best_model_path path.

(** *** Storage helpers *)

(** [_del_model] *)
Definition _del_model (filepath : string) : M unit :=
  fs <- get_fs ;;
  when (Storage.exists_ fs filepath)
    (emit (Removed filepath) ;; modify_fs (fun fs => Storage.rm fs filepath)).

(** [_save_model] *)
Definition _save_model (filepath : string) (trainer : Trainer) : M unit :=
  emit (TrackCheckpointing filepath) ;;
  modify_fs (fun fs => Storage.makedirs fs (PyStr.dirname filepath)) ;;
  self <- get_self ;;
  match save_function self with
  | Some save =>
      emit (Saved filepath (save_weights_only self)) ;;
      modify_fs (save filepath (save_weights_only self))
  | None => raise ValueError
  end.

(** *** The top-k decision *)

Definition monitor_op (m : mode_t) : float -> float -> bool :=
  match m with Min => torch_lt | Max => torch_gt end.

(** [check_monitor_top_k] *)
Definition check_monitor_top_k (current : pyval) : M bool :=
  self <- get_self ;;
  let less_than_k_models := (len (best_k_models self) <? save_top_k self)%Z in
  if less_than_k_models then ret true
  else
    when (negb (is_tensor current)) (emit (WarnNotTensor current)) ;;
    current <- lift (torch_tensor current) ;;
    kth <- or_raise (get (best_k_models self) (kth_best_model_path self)) KeyError ;;
    ret (monitor_op (mode self) current kth).

(** *** File names *)

(** The body of the loop over [groups] in [_format_checkpoint_name]. *)
Definition format_group (st : string * dict pyval) (group : string) : string * dict pyval :=
  let name := PyStr.tail group in
  let filename := PyStr.replace (fst st) group (name ++ "={" ++ name) in
  let metrics := if mem name (snd st) then snd st else set (snd st) name (PyInt 0) in
  (filename, metrics).

(** [_format_checkpoint_name], a class method; [metrics] refers to the
    caller's dictionary, which the method assigns into. *)
Definition _format_checkpoint_name (filename : option string) (epoch : Z)
           (metrics : loc) (prefix : string) : M string :=
  let filename :=
    match filename with
    | Some f => if PyStr.truthy f then f else "{epoch}"
    | None => "{epoch}"
    end in
  let groups := PyStr.findall filename in
  filename <-
    match groups with
    | [] => ret filename
    | _ =>
        d <- read metrics ;;
        let st := fold_left format_group groups (filename, set d "epoch" (PyInt epoch)) in
        write metrics (snd st) ;;
        lift (PyFormat.format (fst st) (snd st))
    end ;;
  ret (PyStr.join CHECKPOINT_JOIN_CHAR (filter PyStr.truthy [prefix; filename])).

(** [format_checkpoint_name] *)
Definition format_checkpoint_name (epoch : Z) (metrics : loc) (ver : option Z) : M string :=
  self <- get_self ;;
  filename <- _format_checkpoint_name (filename self) epoch metrics (prefix self) ;;
  let filename :=
    match ver with
    | Some v => PyStr.join CHECKPOINT_JOIN_CHAR [filename; "v" ++ PyStr.of_int v]
    | None => filename
    end in
  let ckpt_name := filename ++ ".ckpt" in
  self <- get_self ;;
  match dirpath self with
  | Some d => ret (if PyStr.truthy d then PyStr.path_join d ckpt_name else ckpt_name)
  | None => ret ckpt_name
  end.

(** The [while] loop of [_get_metric_interpolated_filepath_name], cut
    off after [fuel] iterations. *)
Fixpoint probe (fuel : nat) (epoch : Z) (ckpt_name_metrics : loc)
         (version_cnt : Z) (filepath : string) : M string :=
  fs <- get_fs ;;
  if Storage.exists_ fs filepath then
    match fuel with
    | O => lift OutOfFuel
    | S fuel' =>
        filepath <- format_checkpoint_name epoch ckpt_name_metrics (Some version_cnt) ;;
        (* this epoch called before *)
        probe fuel' epoch ckpt_name_metrics (version_cnt + 1) filepath
    end
  else ret filepath.

(** [_get_metric_interpolated_filepath_name].  The candidates differ
    pairwise, so the loop leaves within as many iterations as there are
    paths on the backend; [probe_fuel] is that bound. *)
Definition probe_fuel (fs : Storage.filesystem) : nat := S (List.length fs).

Definition _get_metric_interpolated_filepath_name (epoch : Z)
           (ckpt_name_metrics : loc) : M string :=
  filepath <- format_checkpoint_name epoch ckpt_name_metrics None ;;
  fs <- get_fs ;;
  probe (probe_fuel fs) epoch ckpt_name_metrics 0 filepath.

(** *** Monitoring *)

(** [_add_backward_monitor_support] *)
Definition _add_backward_monitor_support (trainer : Trainer) : M unit :=
  metrics <- read (callback_metrics trainer) ;;
  (* backward compatibility... need to deprecate *)
  self <- get_self ;;
  when (match monitor self with None => mem "val_loss" metrics | Some _ => false end)
    (set_monitor (Some "val_loss")) ;;
  self <- get_self ;;
  when (match monitor self with None => mem "checkpoint_on" metrics | Some _ => false end)
    (set_monitor (Some "checkpoint_on")).

(** [_is_valid_monitor_key] *)
Definition _is_valid_monitor_key (self : checkpoint) (metrics : dict pyval) : bool :=
  match monitor self with
  | Some m => mem m metrics || (len metrics =? 0)%Z
  | None => (len metrics =? 0)%Z      (* [None] is never a key *)
  end.

(** [_validate_monitor_key] *)
Definition _validate_monitor_key (trainer : Trainer) : M unit :=
  metrics <- read (callback_metrics trainer) ;;
  self <- get_self ;;
  match monitor self with
  | Some _ =>
      if negb (_is_valid_monitor_key self metrics)
      then raise MisconfigurationException
      else ret tt
  | None => ret tt
  end.

(** [_should_skip_epoch] *)
Definition _should_skip_epoch (self : checkpoint) (trainer : Trainer) : bool :=
  let epoch := current_epoch trainer in
  match epoch_last_check self with
  | Some last => (epoch - last <? period self)%Z
  | None => false
  end.

(** [_monitor_candidates]: [deepcopy] allocates a new dictionary. *)
Definition _monitor_candidates (trainer : Trainer) : M loc :=
  logged <- read (logged_metrics trainer) ;;
  ckpt_name_metrics <- alloc logged ;;
  d <- read ckpt_name_metrics ;;
  callback <- read (callback_metrics trainer) ;;
  write ckpt_name_metrics (update d callback) ;;
  d <- read ckpt_name_metrics ;;
  progress_bar <- read (progress_bar_metrics trainer) ;;
  write ckpt_name_metrics (update d progress_bar) ;;
  ret ckpt_name_metrics.

(** *** The two saving modes *)

(** [_save_last_checkpoint] *)
Definition _save_last_checkpoint (trainer : Trainer) (epoch : Z)
           (ckpt_name_metrics : loc) (filepath : string) : M unit :=
  self <- get_self ;;
  let should_save_last :=
    match monitor self with None => true | Some _ => save_last self end in
  if negb should_save_last then ret tt
  else
    last_filepath <-
      (* when user ALSO asked for the 'last.ckpt' change the name *)
      (if save_last self then
         filename <- _format_checkpoint_name (Some CHECKPOINT_NAME_LAST) epoch
                       ckpt_name_metrics (prefix self) ;;
         self <- get_self ;;
         d <- or_raise (dirpath self) TypeError ;;
         ret (PyStr.path_join d (filename ++ ".ckpt"))
       else ret filepath) ;;
    _save_model last_filepath trainer ;;
    self <- get_self ;;
    when (PyStr.truthy (last_model_path self)
          && negb (String.eqb (last_model_path self) last_filepath))
      (_del_model (last_model_path self)) ;;
    set_last_model_path last_filepath ;;
    self <- get_self ;;
    match monitor self with
    | None => set_best_model_path (last_model_path self)
    | Some _ => ret tt
    end.

(** [_save_all_checkpoints] *)
Definition _save_all_checkpoints (trainer : Trainer) (epoch : Z) (filepath : string) : M unit :=
  self <- get_self ;;
  when (verbose self) (emit (InfoSavingAll epoch filepath)) ;;
  (if (global_rank trainer =? 0)%Z then ret tt else raise AssertionError) ;;
  _save_model filepath trainer.

(** [max(d, key=d.get)] and [min(d, key=d.get)] over the scores. *)
Definition py_max (d : dict float) : option string := arg_best torch_gt d.
Definition py_min (d : dict float) : option string := arg_best torch_lt d.

(** The loop [for cur_path in del_list] that ends [_do_check_save]. *)
Fixpoint del_listed (filepath : string) (del_list : list string) : M unit :=
  match del_list with
  | [] => ret tt
  | cur_path :: rest =>
      when (negb (String.eqb cur_path filepath)) (_del_model cur_path) ;;
      del_listed filepath rest
  end.

(** [_do_check_save] *)
Definition _do_check_save (filepath : string) (current : float) (epoch : Z)
           (trainer : Trainer) : M unit :=
  (* remove kth *)
  self <- get_self ;;
  del_list <-
    (if (len (best_k_models self) =? save_top_k self)%Z && (save_top_k self >? 0)%Z
     then
       let delpath := kth_best_model_path self in
       popped <- or_raise (pop (best_k_models self) (kth_best_model_path self)) KeyError ;;
       set_best_k_models popped ;;
       ret [delpath]
     else ret []) ;;
  self <- get_self ;;
  set_best_k_models (set (best_k_models self) filepath current) ;;
  self <- get_self ;;
  when (len (best_k_models self) =? save_top_k self)%Z
    ((* monitor dict has reached k elements *)
     let _op := match mode self with Min => py_max | Max => py_min end in
     kth <- or_raise (_op (best_k_models self)) ValueError ;;
     set_kth_best_model_path kth ;;
     self <- get_self ;;
     value <- or_raise (get (best_k_models self) (kth_best_model_path self)) KeyError ;;
     set_kth_value value) ;;
  self <- get_self ;;
  let _op := match mode self with Min => py_min | Max => py_max end in
  best <- or_raise (_op (best_k_models self)) ValueError ;;
  set_best_model_path best ;;
  self <- get_self ;;
  score <- or_raise (get (best_k_models self) (best_model_path self)) KeyError ;;
  set_best_model_score (Tensor score) ;;
  self <- get_self ;;
  when (verbose self) (emit (InfoSavingTopK epoch filepath)) ;;
  _save_model filepath trainer ;;
  del_listed filepath del_list.

(** [_save_top_k_checkpoints]; [metrics] refers to the dictionary the
    file name was formatted from. *)
Definition _save_top_k_checkpoints (metrics : loc) (trainer : Trainer) (epoch : Z)
           (filepath : string) : M unit :=
  self <- get_self ;;
  d <- read metrics ;;
  let current :=
    match monitor self with
    | Some m => get d m
    | None => None
    end in
  match current with
  | None =>
      emit (if match monitor self with
               | Some m => String.eqb m "checkpoint_on"
               | None => false
               end
            then WarnNoCheckpointOn
            else WarnSkipping (monitor self))
  | Some v =>
      (* a value that is no tensor is made one, a tensor is kept *)
      current <- lift (torch_tensor v) ;;
      top_k <- check_monitor_top_k (Tensor current) ;;
      if top_k then _do_check_save filepath current epoch trainer
      else
        self <- get_self ;;
        when (verbose self) (emit (InfoNotInTopK epoch))
  end.

(** Modelled from the spec: the decorator [rank_zero_only]
    ([pytorch_lightning.utilities]) is not part of the sources.  The
    specification has exactly one coordinator act and every other
    process do nothing; the coordinator is the process of global rank
    zero. *)
Definition rank_zero_only (trainer : Trainer) (body : M unit) : M unit :=
  if (global_rank trainer =? 0)%Z then body else ret tt.

(** [save_checkpoint]: one cycle. *)
Definition save_checkpoint (trainer : Trainer) : M unit :=
  rank_zero_only trainer (
    (* only run on main process *)
    if negb (global_rank trainer =? 0)%Z then ret tt else
    self <- get_self ;;
    (* no models are saved *)
    if (save_top_k self =? 0)%Z then ret tt else
    (* don't save anything during sanity check *)
    if running_sanity_check trainer then ret tt else
    (* skip this epoch *)
    if _should_skip_epoch self trainer then ret tt else
    _add_backward_monitor_support trainer ;;
    _validate_monitor_key trainer ;;
    let epoch := current_epoch trainer in
    (* track epoch when ckpt was last checked *)
    set_epoch_last_check (Some (current_epoch trainer)) ;;
    (* what can be monitored *)
    monitor_candidates <- _monitor_candidates trainer ;;
    filepath <- _get_metric_interpolated_filepath_name epoch monitor_candidates ;;
    (* Mode 1: save the last checkpoint *)
    _save_last_checkpoint trainer epoch monitor_candidates filepath ;;
    (* Mode 2: save all checkpoints OR only the top k *)
    self <- get_self ;;
    match monitor self with
    | Some _ =>
        if (save_top_k self =? -1)%Z then _save_all_checkpoints trainer epoch filepath
        else _save_top_k_checkpoints monitor_candidates trainer epoch filepath
    | None => ret tt
    end).

(** [on_validation_end] *)
Definition on_validation_end (trainer : Trainer) : M unit := save_checkpoint trainer.

(** *** Runs

    What happens to the callback between construction and the end of
    training: the trainer assigns the save delegate, refreshes the
    content of its metric dictionaries, restores the persisted best
    score and path, and calls the callback at the end of each
    validation loop. *)
Inductive action : Type :=
| Cycle (trainer : Trainer)
| LogMetrics (l : loc) (d : dict pyval)
| SetSaveFunction (f : option delegate)
| LoadCheckpoint (score : pyval) (path : string).

Definition perform (a : action) : M unit :=
  match a with
  | Cycle trainer => on_validation_end trainer
  | LogMetrics l d => write l d
  | SetSaveFunction f => set_save_function f
  | LoadCheckpoint score path => on_load_checkpoint score path
  end.

(** The world after a sequence of actions.  The world an action leaves
    is kept whatever its outcome, so that a run aborted by an exception
    is a run of the actions up to the one that raised. *)
Fixpoint run (acts : list action) (w : World) : World :=
  match acts with
  | [] => w
  | a :: rest => run rest (fst (perform a w))
  end.

End ModelCheckpoint.

(* ================================================================== *)
(** ** Example runs *)

Module Scenario.
Import Py PyDict ModelCheckpoint.
Local Open Scope py_scope.

(** The trainer's [logged_metrics], [callback_metrics] and
    [progress_bar_metrics], empty at first. *)
Definition dictionaries : list (dict pyval) := [[]; []; []].

Definition trainer_at (epoch : Z) : Trainer :=
  {| global_rank := 0; running_sanity_check := false; current_epoch := epoch;
     logged_metrics := 0%nat; callback_metrics := 1%nat;
     progress_bar_metrics := 2%nat |}.

(** A delegate that creates the file it is asked to write. *)
Definition to_disk : delegate := fun filepath _ fs => filepath :: fs.

(** [ModelCheckpoint(filepath="ckpts/", monitor=..., save_top_k=...,
    mode=...)] on an empty backend. *)
Definition callback (monitor : option string) (save_top_k : Z) (mode : string) : World :=
  fst (__init__ (Some "ckpts") None monitor false false save_top_k false mode 1 ""
         dictionaries []).

(** One validation loop: the trainer logs [value] under [key], then
    calls the callback. *)
Definition validation (epoch : Z) (key : string) (value : float) : list action :=
  [LogMetrics 1%nat [(key, Tensor value)]; Cycle (trainer_at epoch)].

(** Top-1 retention of the lowest ["loss"], after one cycle. *)
Definition top1_after_one_cycle : World :=
  run (SetSaveFunction (Some to_disk) :: validation 0 "loss" 0.5)
      (callback (Some "loss") 1 "min").

(** Three validation loops with losses 0.9, 0.5 and 0.7. *)
Definition three_cycles : list action :=
  SetSaveFunction (Some to_disk)
    :: validation 0 "loss" 0.9 ++ validation 1 "loss" 0.5 ++ validation 2 "loss" 0.7.

(** No monitor key is configured, and the trainer logs ["val_loss"]. *)
Definition unmonitored : World := callback None 1 "auto".

Definition logs_val_loss : list action := validation 0 "val_loss" 0.5.

(** [ModelCheckpoint(filepath=template, prefix="run")] while the metrics
    hold a score of 0.1234; the directory is left to the trainer. *)
Definition scored : dict pyval := [("score", PyFloat 0.1234)].

Definition templated (template : string) : World :=
  fst (__init__ None (Some template) None false false 1 false "auto" 1 "run"
         [scored] []).

(** The monitored key ["loss"] is missing from the callback metrics,
    which hold another key. *)
Definition loss_not_logged : World :=
  run [SetSaveFunction (Some to_disk); LogMetrics 1%nat [("other", Tensor 0.9)]]
      (callback (Some "loss") 1 "min").

(** The monitored key is missing and the callback metrics are empty. *)
Definition nothing_logged : World :=
  run [SetSaveFunction (Some to_disk)] (callback (Some "loss") 1 "min").

(** A backend on which the name of epoch 0 and its version 0 are taken. *)
Definition crowded : World :=
  fst (__init__ (Some "ckpts") None (Some "loss") false false 3 false "min" 1 ""
         dictionaries ["ckpts/epoch=0.ckpt"; "ckpts/epoch=0-v0.ckpt"]).

(** No monitor key, a delegate in place, and a last checkpoint already
    written at epoch 0. *)
Definition last_written : World :=
  run [SetSaveFunction (Some to_disk); Cycle (trainer_at 0)] unmonitored.

(** The monitored key ["val_loss"] is also a placeholder of the template,
    and nothing has been logged. *)
Definition monitored_placeholder : World :=
  run [SetSaveFunction (Some to_disk)]
      (fst (__init__ (Some "ckpts") (Some "{epoch}-{val_loss:.2f}") (Some "val_loss")
              false false 1 false "min" 1 "" dictionaries [])).

End Scenario.

(* ================================================================== *)
(** ** Vocabulary of the properties *)

Module Spec.
Import Py PyDict ModelCheckpoint.

(** [m] maintains [I]: whatever the outcome of the call, the world it
    leaves satisfies [I] when the world it started from did. *)
Definition preserves {A : Type} (I : World -> Prop) (m : M A) : Prop :=
  forall w, I w -> I (fst (m w)).

(** From a world satisfying [P], the call [m] either returns a value [a]
    in a world satisfying [Q a], or ends otherwise in a world satisfying
    [E]. *)
Definition triple {A : Type} (P : World -> Prop) (m : M A)
           (Q : A -> World -> Prop) (E : World -> Prop) : Prop :=
  forall w, P w ->
    match snd (m w) with
    | Ok a => Q a (fst (m w))
    | _ => E (fst (m w))
    end.

(** At least one model is to be kept, and the dictionary of the best
    models holds at most [save_top_k] entries. *)
Definition bounded (w : World) : Prop :=
  1 <= save_top_k (obj w) /\
  len (best_k_models (obj w)) <= save_top_k (obj w).

(** The configuration of [self] is the one of [c0], up to a monitor key
    adopted for backward compatibility when none was configured. *)
Definition config_kept (c0 : checkpoint) (w : World) : Prop :=
  mode (obj w) = mode c0 /\
  save_top_k (obj w) = save_top_k c0 /\
  period (obj w) = period c0 /\
  save_last (obj w) = save_last c0 /\
  save_weights_only (obj w) = save_weights_only c0 /\
  prefix (obj w) = prefix c0 /\
  verbose (obj w) = verbose c0 /\
  match monitor c0 with
  | Some m => monitor (obj w) = Some m
  | None => monitor (obj w) = None \/
            monitor (obj w) = Some "val_loss" \/
            monitor (obj w) = Some "checkpoint_on"
  end.

(** The part of [save_checkpoint] that follows the assignment to
    [epoch_last_check]: the candidates, the file name and the two saving
    modes. *)
Definition after_tracking (trainer : Trainer) : M unit :=
  (let epoch := current_epoch trainer in
   monitor_candidates <- _monitor_candidates trainer ;;
   filepath <- _get_metric_interpolated_filepath_name epoch monitor_candidates ;;
   _save_last_checkpoint trainer epoch monitor_candidates filepath ;;
   self <- get_self ;;
   match monitor self with
   | Some _ =>
       if (save_top_k self =? -1)%Z then _save_all_checkpoints trainer epoch filepath
       else _save_top_k_checkpoints monitor_candidates trainer epoch filepath
   | None => ret tt
   end)%py.

(** The four conditions under which a cycle acts. *)
Definition passes_gate (trainer : Trainer) (w : World) : Prop :=
  global_rank trainer = 0 /\
  save_top_k (obj w) <> 0 /\
  running_sanity_check trainer = false /\
  _should_skip_epoch (obj w) trainer = false.

(** What the loop of [_format_checkpoint_name] does to the dictionary for
    one placeholder name. *)
Definition add_default (d : dict pyval) (name : string) : dict pyval :=
  if mem name d then d else set d name (PyInt 0).

(** The template [_format_checkpoint_name] works on. *)
Definition template_of (filename : option string) : string :=
  match filename with
  | Some f => if PyStr.truthy f then f else "{epoch}"
  | None => "{epoch}"
  end.

(** The dictionary [_format_checkpoint_name] leaves in place of [d]. *)
Definition formatted_metrics (filename : option string) (epoch : Z)
           (d : dict pyval) : dict pyval :=
  match PyStr.findall (template_of filename) with
  | [] => d
  | groups => fold_left add_default (map PyStr.tail groups) (set d "epoch" (PyInt epoch))
  end.

(** The file name [_format_checkpoint_name] returns when the dictionary
    it is given holds [d]. *)
Definition base_name (filename : option string) (epoch : Z) (d : dict pyval)
           (prefix : string) : result string :=
  let template := template_of filename in
  rbind
    (match PyStr.findall template with
     | [] => Ok template
     | groups =>
         PyFormat.format
           (fst (fold_left format_group groups (template, set d "epoch" (PyInt epoch))))
           (formatted_metrics filename epoch d)
     end)
    (fun name => Ok (PyStr.join CHECKPOINT_JOIN_CHAR (filter PyStr.truthy [prefix; name]))).

(** The path [format_checkpoint_name] builds around the file name
    [base]. *)
Definition candidate (self : checkpoint) (base : string) (ver : option Z) : string :=
  let versioned :=
    match ver with
    | Some v => PyStr.join CHECKPOINT_JOIN_CHAR [base; "v" ++ PyStr.of_int v]
    | None => base
    end in
  let ckpt_name := versioned ++ ".ckpt" in
  match dirpath self with
  | Some d => if PyStr.truthy d then PyStr.path_join d ckpt_name else ckpt_name
  | None => ckpt_name
  end.

End Spec.

(* ================================================================== *)
(** ** The remaining hooks of the callback *)

Module Hooks.
Import Py PyDict ModelCheckpoint.
Local Open Scope py_scope.

(** [trainer.logger.version]: a string, or a number. *)
Inductive version_t : Type :=
| VersionStr (s : string)
| VersionInt (n : Z).

(** The attributes of [trainer.logger] the callback reads. *)
Record Logger : Type := {
  logger_save_dir : option string;
  logger_name : string;
  logger_version : version_t
}.

(** The attributes of the trainer [__resolve_ckpt_dir] reads besides
    [global_rank]. *)
Record TrainerPaths : Type := {
  weights_save_path : string;
  default_root_dir : string;
  logger : option Logger
}.

(** The path [__resolve_ckpt_dir] computes; [os.path.join] of several
    parts joins them from the left. *)
Definition ckpt_path (paths : TrainerPaths) : string :=
  match logger paths with
  | Some lg =>
      let save_dir :=
        if negb (String.eqb (weights_save_path paths) (default_root_dir paths))
        then (* the user has changed weights_save_path, it overrides anything *)
          weights_save_path paths
        else
          match logger_save_dir lg with
          | Some d => if PyStr.truthy d then d else default_root_dir paths
          | None => default_root_dir paths
          end in
      let version :=
        match logger_version lg with
        | VersionStr v => v
        | VersionInt n => "version_" ++ PyStr.of_int n
        end in
      PyStr.path_join
        (PyStr.path_join (PyStr.path_join save_dir (logger_name lg)) version)
        "checkpoints"
  | None => PyStr.path_join (weights_save_path paths) "checkpoints"
  end.

(** [__resolve_ckpt_dir] *)
Definition __resolve_ckpt_dir (trainer : Trainer) (paths : TrainerPaths) : M unit :=
  rank_zero_only trainer (
    self <- get_self ;;
    match dirpath self with
    | Some _ => ret tt   (* short circuit *)
    | None =>
        set_filename None ;;
        set_dirpath (Some (ckpt_path paths)) ;;
        (if (global_rank trainer =? 0)%Z then ret tt else raise AssertionError) ;;
        self <- get_self ;;
        match dirpath self with
        | Some d => modify_fs (fun fs => Storage.makedirs fs d)
        | None => raise TypeError
        end
    end).

(** [on_pretrain_routine_start] *)
Definition on_pretrain_routine_start (trainer : Trainer) (paths : TrainerPaths) : M unit :=
  __resolve_ckpt_dir trainer paths.

(** [on_save_checkpoint]: the dictionary with the keys
    ["best_model_score"] and ["best_model_path"], as the pair of its
    values. *)
Definition on_save_checkpoint : M (pyval * string) :=
  self <- get_self ;;
  ret (best_model_score self, best_model_path self).

End Hooks.

(* ================================================================== *)
(** ** Vocabulary of the further properties *)

Module Terms.
Import Py PyDict ModelCheckpoint.
Local Open Scope py_scope.

(** The keys of a dictionary are pairwise distinct, as they are in
    every Python dictionary. *)
Definition well_formed {V : Type} (d : dict V) : Prop := NoDup (keys d).

(** The key [_do_check_save] records in [best_model_path]. *)
Definition best_key (m : mode_t) (d : dict float) : option string :=
  (match m with Min => py_min | Max => py_max end) d.

(** The key [_do_check_save] records in [kth_best_model_path]. *)
Definition worst_key (m : mode_t) (d : dict float) : option string :=
  (match m with Min => py_max | Max => py_min end) d.

(** The end of [_do_check_save]: the file is written and the paths of
    [del_list] are removed. *)
Definition persist_and_evict (filepath : string) (epoch : Z) (trainer : Trainer)
           (del_list : list string) : M unit :=
  self <- get_self ;;
  when (verbose self) (emit (InfoSavingTopK epoch filepath)) ;;
  _save_model filepath trainer ;;
  del_listed filepath del_list.

(** [_do_check_save] is entered with a full dictionary. *)
Definition at_capacity (self : checkpoint) : bool :=
  (len (best_k_models self) =? save_top_k self)%Z && (save_top_k self >? 0)%Z.

(** The dictionary [_do_check_save] leaves in [best_k_models]. *)
Definition recorded (self : checkpoint) (filepath : string) (current : float)
  : option (dict float) :=
  if at_capacity self
  then option_map (fun popped => set popped filepath current)
                  (pop (best_k_models self) (kth_best_model_path self))
  else Some (set (best_k_models self) filepath current).

(** The bookkeeping of the retention policy is consistent: the
    dictionary is well formed and within its bound, and when it is full
    [kth_best_model_path] is one of its keys. *)
Definition consistent (w : World) : Prop :=
  1 <= save_top_k (obj w) /\
  well_formed (best_k_models (obj w)) /\
  len (best_k_models (obj w)) <= save_top_k (obj w) /\
  (len (best_k_models (obj w)) = save_top_k (obj w) ->
   mem (kth_best_model_path (obj w)) (best_k_models (obj w)) = true).

(** When the dictionary is full, [kth_best_model_path] is an entry that
    is better than none. *)
Definition ranked (w : World) : Prop :=
  consistent w /\
  (len (best_k_models (obj w)) = save_top_k (obj w) ->
   exists s : float,
     get (best_k_models (obj w)) (kth_best_model_path (obj w)) = Some s /\
     forall key v, get (best_k_models (obj w)) key = Some v ->
                   monitor_op (mode (obj w)) s v = false).

(** No file has been removed so far. *)
Definition nothing_removed (events : list event) : Prop :=
  forall p, ~ In (Removed p) events.

(** [m] takes a world satisfying [I] to one satisfying [J], whatever
    its outcome. *)
Definition leads {A : Type} (I : World -> Prop) (m : M A) (J : World -> Prop) : Prop :=
  forall w, I w -> J (fst (m w)).

(** The path has been handed to [_save_model]. *)
Definition tracked (events : list event) (p : string) : Prop :=
  In (TrackCheckpointing p) events.

(** Every removal comes after a call of [_save_model] on the same
    path. *)
Definition removes_only_tracked (events : list event) : Prop :=
  forall before after p, events = (before ++ Removed p :: after)%list -> tracked before p.

(** The paths the callback may remove later on have been handed to
    [_save_model]: the keys of [best_k_models], but for the key
    [pending] that [_do_check_save] has recorded and not handed over
    yet, [last_model_path] when it is set, and the paths [ps] at hand. *)
Definition owned_but (pending : option string) (ps : list string) (w : World) : Prop :=
  removes_only_tracked (log w) /\
  (forall p, mem p (best_k_models (obj w)) = true ->
             Some p = pending \/ tracked (log w) p) /\
  (PyStr.truthy (last_model_path (obj w)) = true ->
   tracked (log w) (last_model_path (obj w))) /\
  (forall p, In p ps -> tracked (log w) p).

Definition owned : World -> Prop := owned_but None [].

End Terms.

(* ================================================================== *)
(** ** Further example runs *)

Module Cases.
Import Py PyDict ModelCheckpoint Hooks.
Local Open Scope py_scope.

(** Save-all mode on ["loss"], with a delegate and a logged value. *)
Definition keeps_all : World :=
  run [SetSaveFunction (Some Scenario.to_disk); LogMetrics 1%nat [("loss", Tensor 0.5)]]
      (Scenario.callback (Some "loss") (-1) "min").

(** The three dictionaries of the trainer disagree on ["loss"]. *)
Definition layered : World :=
  run [LogMetrics 0%nat [("loss", Tensor 0.9); ("lr", PyFloat 0.1)];
       LogMetrics 1%nat [("loss", Tensor 0.5)];
       LogMetrics 2%nat [("loss", Tensor 0.7); ("step", PyInt 3)]]
      (Scenario.callback (Some "loss") 1 "min").

(** A trainer whose logger saves under [logs], as version 3 of the
    experiment [default]. *)
Definition with_logger : TrainerPaths :=
  {| weights_save_path := "runs"; default_root_dir := "runs";
     logger := Some {| logger_save_dir := Some "logs"; logger_name := "default";
                       logger_version := VersionInt 3 |} |}.


(** Top-1 retention of the lowest ["loss"]: the [float64] tensor
    0.100000001 has been saved at epoch 0, and the trainer then logs the
    Python float 0.1. *)
Definition float_logged : World :=
  run (SetSaveFunction (Some Scenario.to_disk)
         :: Scenario.validation 0 "loss" 0.100000001
         ++ [LogMetrics 1%nat [("loss", PyFloat 0.1)]])
      (Scenario.callback (Some "loss") 1 "min").

(** A callback built without a directory. *)
Definition undirected : World :=
  fst (__init__ None None (Some "loss") false false 1 false "min" 1 ""
         Scenario.dictionaries []).

End Cases.

(* ================================================================== *)
(** * Properties *)

Import Py PyDict ModelCheckpoint Spec.
Local Open Scope py_scope.

(** ** Strings *)

Section StringFacts.

Lemma prefix_app (p s : string) :
  String.prefix p s = true <-> exists post, s = p ++ post.
Proof.
  revert s; induction p as [|a p IH]; intros s; simpl.
  - destruct s; split; intros _; eauto.
  - destruct s as [|b s]; simpl.
    + split; [discriminate | intros [post H]; discriminate].
    + destruct (ascii_dec a b) as [->|Hab].
      * rewrite IH. split; intros [post H]; exists post.
        -- now rewrite H.
        -- now injection H.
      * split; [discriminate | intros [post H]; injection H; congruence].
Qed.

Lemma contains_app (sub s : string) :
  PyStr.contains sub s = true <-> exists pre post, s = pre ++ sub ++ post.
Proof.
  induction s as [|c s IH]; cbn [PyStr.contains].
  - rewrite orb_false_r, prefix_app. split.
    + intros [post H]. exists "", post. exact H.
    + intros [pre [post H]]. destruct pre; simpl in H; [eauto | discriminate].
  - rewrite orb_true_iff, prefix_app, IH. split.
    + intros [[post H] | [pre [post H]]].
      * exists "", post. exact H.
      * exists (String c pre), post. simpl. now rewrite H.
    + intros [pre [post H]]. destruct pre as [|c' pre]; simpl in H.
      * left. eauto.
      * right. injection H as _ H. eauto.
Qed.

End StringFacts.

(** ** Scalars *)

Section FloatFacts.

Lemma SFcompare_refl_not_lt (x : spec_float) : SFltb x x = false.
Proof.
  unfold SFltb. destruct x as [s|s| |s m e]; simpl; try reflexivity;
    destruct s; try reflexivity;
    now rewrite Z.compare_refl, Pos.compare_cont_refl.
Qed.


Lemma torch_lt_irrefl (x : float) : torch_lt x x = false.
Proof. unfold torch_lt. rewrite ltb_spec. apply SFcompare_refl_not_lt. Qed.


End FloatFacts.

(** ** The top-k decision *)

(** Known roundings to binary32: 0.1 and 0.7 are not binary32 values,
    0.5 is one; 2^24 + 1 is a tie and goes to the even neighbour; beyond
    the largest binary32 value the rounding gives an infinity, and below
    the smallest subnormal a zero of the same sign. *)
Example to_float32_values :
  to_float32 0.1 = 0.10000000149011612%float /\
  to_float32 0.7 = 0.69999998807907104%float /\
  to_float32 0.5 = 0.5%float /\
  to_float32 16777217 = 16777216%float /\
  to_float32 1e39 = infinity /\
  to_float32 (-1e39) = neg_infinity /\
  Prim2SF (to_float32 (-1e-50)) = S754_zero true /\
  to_float32 nan = nan /\
  to_float32 (to_float32 0.1) = to_float32 0.1.
Proof. vm_compute. repeat split; reflexivity. Qed.



(** ** Mode resolution *)

Lemma auto_mode_max (monitor : option string) :
  snd (auto_mode monitor) = Max <->
  exists m, monitor = Some m /\
            ((exists pre post, m = pre ++ "acc" ++ post) \/
             (exists post, m = "fmeasure" ++ post)).
Proof.
  unfold auto_mode. destruct monitor as [m|].
  - destruct (PyStr.contains "acc" m || PyStr.startswith m "fmeasure") eqn:E; cbn [snd].
    + split; [intros _ | reflexivity]. exists m. split; [reflexivity|].
      apply orb_true_iff in E as [E|E].
      * left. exact (proj1 (contains_app _ _) E).
      * right. exact (proj1 (prefix_app _ _) E).
    + split; [discriminate|]. intros [m' [[= <-] H]].
      apply orb_false_iff in E as [E1 E2].
      destruct H as [H|H].
      * apply contains_app in H. congruence.
      * apply prefix_app in H. unfold PyStr.startswith in E2. congruence.
  - split; [discriminate|]. intros [m [H _]]. discriminate.
Qed.

Lemma init_monitor_mode_auto (monitor : option string) (w : World) :
  mode (obj (fst (__init_monitor_mode monitor "auto" w))) = snd (auto_mode monitor) /\
  kth_value (obj (fst (__init_monitor_mode monitor "auto" w))) = fst (auto_mode monitor) /\
  log (fst (__init_monitor_mode monitor "auto" w)) = log w.
Proof. repeat split. Qed.

(** C5.  With the mode string ["auto"] the direction assigned by
    [__init_monitor_mode] is max exactly when a monitor key is given that
    contains ["acc"] or starts with ["fmeasure"], and min otherwise; so
    ["val_acc"] and ["fmeasure_score"] resolve to max and ["val_loss"] to
    min.  A mode string other than ["min"], ["max"] and ["auto"] emits the
    unknown-mode warning and is then resolved as ["auto"]. *)
Theorem monitor_mode_resolution :
  (forall (monitor : option string) (w : World),
      let accuracy_like :=
        exists m, monitor = Some m /\
                  ((exists pre post, m = pre ++ "acc" ++ post) \/
                   (exists post, m = "fmeasure" ++ post)) in
      let resolved := mode (obj (fst (__init_monitor_mode monitor "auto" w))) in
      (resolved = Max <-> accuracy_like) /\ (resolved = Min <-> ~ accuracy_like)) /\
  (forall w, mode (obj (fst (__init_monitor_mode (Some "val_acc") "auto" w))) = Max) /\
  (forall w, mode (obj (fst (__init_monitor_mode (Some "val_loss") "auto" w))) = Min) /\
  (forall w, mode (obj (fst (__init_monitor_mode (Some "fmeasure_score") "auto" w))) = Max) /\
  (forall (monitor : option string) (mode : string) (w : World),
      mode <> "min" -> mode <> "max" -> mode <> "auto" ->
      __init_monitor_mode monitor mode w =
      __init_monitor_mode monitor "auto" (fst (emit (WarnUnknownMode mode) w))).
Proof.
  split; [|repeat split].
  - intros monitor w accuracy_like resolved. subst resolved accuracy_like.
    destruct (init_monitor_mode_auto monitor w) as [-> _].
    pose proof (auto_mode_max monitor) as Hmax.
    split; [exact Hmax|].
    destruct (snd (auto_mode monitor)); split; try reflexivity; try discriminate.
    + intros _ H. apply Hmax in H. discriminate.
    + intros H. exfalso. apply H, Hmax. reflexivity.
  - intros monitor mode w Hmin Hmax Hauto.
    unfold __init_monitor_mode, mode_dict.
    apply String.eqb_neq in Hmin, Hmax, Hauto. rewrite Hmin, Hmax, Hauto.
    reflexivity.
Qed.

Lemma monitor_mode_resolution_witness :
  __init_monitor_mode (Some "val_acc") "best" (Scenario.callback None 1 "min") =
  __init_monitor_mode (Some "val_acc") "auto"
    (fst (emit (WarnUnknownMode "best") (Scenario.callback None 1 "min"))).
Proof.
  apply (proj2 (proj2 (proj2 (proj2 monitor_mode_resolution)))); discriminate.
Defined.

(** ** Maintained properties *)

Section Preservation.
Context {A B : Type} (I : World -> Prop).

Lemma preserves_ret (a : A) : preserves I (ret a).
Proof. intros w H. exact H. Qed.

Lemma preserves_raise (e : exn) : preserves I (@raise A e).
Proof. intros w H. exact H. Qed.

Lemma preserves_lift (r : result A) : preserves I (lift r).
Proof. intros w H. exact H. Qed.

Lemma preserves_or_raise (o : option A) (e : exn) : preserves I (or_raise o e).
Proof. destruct o; intros w H; exact H. Qed.

Lemma preserves_bind (m : M A) (k : A -> M B) :
  preserves I m -> (forall a, preserves I (k a)) -> preserves I (bind m k).
Proof.
  intros Hm Hk w H. unfold bind. specialize (Hm w H).
  destruct (m w) as [w' [a| | |]]; cbn [fst] in *; auto. now apply Hk.
Qed.

Lemma preserves_get_self : preserves I get_self.
Proof. intros w H. exact H. Qed.

Lemma preserves_get_fs : preserves I get_fs.
Proof. intros w H. exact H. Qed.

Lemma preserves_read (l : loc) : preserves I (read l).
Proof. intros w H. exact H. Qed.

End Preservation.

Lemma preserves_when (I : World -> Prop) (c : bool) (body : M unit) :
  preserves I body -> preserves I (when c body).
Proof. intros H. destruct c; [exact H | apply preserves_ret]. Qed.

Create HintDb inv.

#[local] Hint Resolve preserves_ret preserves_raise preserves_lift preserves_or_raise
  preserves_get_self preserves_get_fs preserves_read : inv.

(** Decomposes a call along its binds and branches; [prim] closes the
    assignments, and the methods already dealt with are taken from the
    hint database. *)
Ltac head_of t := lazymatch t with ?f _ => head_of f | _ => t end.

Ltac step_with special prim :=
  repeat first
    [ solve [auto with inv]
    | special
    | apply preserves_bind; [| intros ?]
    | apply preserves_when
    | progress cbv zeta
    | match goal with
      | |- preserves _ (if ?c then _ else _) => destruct c
      | |- preserves _ (match ?x with _ => _ end) => destruct x
      end
    | solve [prim]
    | match goal with
      | |- preserves _ ?m => let h := head_of m in progress unfold h
      end ].

Ltac step_preserves prim := step_with fail prim.

(** An assignment to an attribute the property does not read. *)
Ltac frame := intros ? ?; assumption.

(** The two loops maintain what the storage calls, the log and the
    assignments into the dictionary being formatted maintain. *)
Lemma preserves_del_listed (I : World -> Prop) (filepath : string) (l : list string) :
  (forall f, preserves I (modify_fs f)) ->
  (forall e, preserves I (emit e)) ->
  preserves I (del_listed filepath l).
Proof.
  intros Hfs Hemit. induction l; cbn [del_listed]; step_preserves fail.
Qed.

Lemma preserves_probe (I : World -> Prop) (fuel : nat) (epoch : Z) (m : loc)
      (v : Z) (p : string) :
  (forall d, preserves I (write m d)) ->
  preserves I (probe fuel epoch m v p).
Proof.
  intros Hwrite. revert v p. induction fuel as [|fuel IH]; intros v p; cbn [probe];
    step_preserves fail.
Qed.

Ltac step_all_with special prim :=
  step_with special prim;
  repeat first
    [ apply preserves_del_listed; intros ?
    | apply preserves_probe; intros ?
    | progress step_with special prim ].

Ltac step_all prim := step_all_with fail prim.

(** ** The configuration *)

Section ConfigKept.
Variable c0 : checkpoint.

Lemma config_kept_backward_support (trainer : Trainer) :
  preserves (config_kept c0) (_add_backward_monitor_support trainer).
Proof.
  intros w H. unfold _add_backward_monitor_support, bind, read, get_self, when.
  destruct (nth_error (heap w) (callback_metrics trainer)) as [d|]; [|exact H].
  unfold config_kept in *. destruct H as (H1 & H2 & H3 & H4 & H5 & H6 & H7 & H8).
  destruct (monitor (obj w)) as [m|] eqn:Hm; cbn; rewrite ?Hm; cbn.
  - repeat split; try assumption. now rewrite Hm.
  - destruct (monitor c0); [discriminate|].
    destruct (mem "val_loss" d); cbn.
    + repeat split; auto.
    + rewrite Hm. destruct (mem "checkpoint_on" d); cbn; repeat split; auto.
Qed.

#[local] Hint Resolve config_kept_backward_support : inv.

Lemma config_kept_perform (a : action) : preserves (config_kept c0) (perform a).
Proof.
  destruct a; cbn [perform]; step_all frame.
Qed.

Lemma config_kept_run (acts : list action) (w : World) :
  config_kept c0 w -> config_kept c0 (run acts w).
Proof.
  revert w. induction acts as [|a acts IH]; intros w H; cbn [run]; [exact H|].
  apply IH, config_kept_perform, H.
Qed.

End ConfigKept.

(** ** The size of the dictionary of best models *)

Section DictFacts.
Context {V : Type}.

Lemma pop_length (d d' : dict V) (k : string) :
  pop d k = Some d' -> List.length d = S (List.length d').
Proof.
  revert d'. induction d as [|[k' v'] d IH]; intros d'; cbn [pop]; [discriminate|].
  destruct (String.eqb k k').
  - intros [= <-]. reflexivity.
  - destruct (pop d k) as [d''|]; cbn [option_map]; [|discriminate].
    intros [= <-]. cbn [List.length]. f_equal. now apply IH.
Qed.

Lemma set_length (d : dict V) (k : string) (v : V) :
  (List.length (set d k v) <= S (List.length d))%nat.
Proof.
  induction d as [|[k' v'] d IH]; cbn [set List.length]; [lia|].
  destruct (String.eqb k k'); cbn [List.length]; lia.
Qed.

End DictFacts.

Section Triples.
Context {A B : Type}.

Lemma triple_bind (P : World -> Prop) (m : M A) (Q : A -> World -> Prop)
      (k : A -> M B) (R : B -> World -> Prop) (E : World -> Prop) :
  triple P m Q E -> (forall a, triple (Q a) (k a) R E) -> triple P (bind m k) R E.
Proof.
  intros Hm Hk w H. specialize (Hm w H). unfold bind.
  destruct (m w) as [w' [a| | |]]; cbn [fst snd] in *; auto.
  apply (Hk a w' Hm).
Qed.

Lemma triple_get_self (P E : World -> Prop) :
  triple P get_self (fun self w => P w /\ self = obj w) E.
Proof. intros w H. cbn. auto. Qed.

Lemma triple_of_preserves (I : World -> Prop) (m : M A) :
  preserves I m -> triple I m (fun _ => I) I.
Proof. intros Hm w H. specialize (Hm w H). now destruct (snd (m w)). Qed.

Lemma preserves_of_triple (I : World -> Prop) (m : M A) :
  triple I m (fun _ => I) I -> preserves I m.
Proof. intros Hm w H. specialize (Hm w H). now destruct (snd (m w)). Qed.

End Triples.

Section Bounded.

(** [_do_check_save] makes room before it inserts: at capacity the entry
    of [kth_best_model_path] is popped first. *)
Lemma bounded_do_check_save (filepath : string) (current : float) (epoch : Z)
      (trainer : Trainer) :
  preserves bounded (_do_check_save filepath current epoch trainer).
Proof.
  apply preserves_of_triple. unfold _do_check_save.
  eapply triple_bind; [apply triple_get_self|]. intros self.
  eapply triple_bind with
    (Q := fun _ w => 1 <= save_top_k (obj w) /\
                     len (best_k_models (obj w)) < save_top_k (obj w)).
  - (* remove kth *)
    intros w [[Hk Hb] ->].
    destruct (len (best_k_models (obj w)) =? save_top_k (obj w))%Z eqn:Elen; cbn [andb].
    + rewrite Z.gtb_ltb. destruct (Z.ltb_spec 0 (save_top_k (obj w))); [|lia].
      unfold bind, or_raise.
      destruct (pop (best_k_models (obj w)) (kth_best_model_path (obj w))) as [d|] eqn:E;
        cbn; [|now split].
      apply pop_length in E. unfold len in *. lia.
    + apply Z.eqb_neq in Elen. cbn. lia.
  - intros del_list.
    eapply triple_bind; [apply triple_get_self|]. intros self'.
    eapply triple_bind with (Q := fun _ => bounded).
    + intros w [[Hk Hlt] ->]. split; [exact Hk|].
      pose proof (set_length (best_k_models (obj w)) filepath current).
      unfold set_best_k_models, modify_self, with_best_k_models, len in *.
      cbn [fst obj best_k_models save_top_k]. lia.
    + intros _. apply triple_of_preserves. step_all frame.
Qed.

#[local] Hint Resolve bounded_do_check_save : inv.

Lemma bounded_perform (a : action) : preserves bounded (perform a).
Proof.
  destruct a; cbn [perform]; step_all frame.
Qed.

Lemma bounded_run (acts : list action) (w : World) :
  bounded w -> bounded (run acts w).
Proof.
  revert w. induction acts as [|a acts IH]; intros w H; cbn [run]; [exact H|].
  apply IH, bounded_perform, H.
Qed.

End Bounded.

(** ** Construction *)

Section Construction.
Variables (dir name monitor0 : option string) (verbose0 save_last0 : bool)
          (k : Z) (weights_only0 : bool) (mode0 : string) (period0 : Z)
          (prefix0 : string) (heap0 : list (dict pyval)) (fs0 : Storage.filesystem).

Let built : World :=
  fst (__init__ dir name monitor0 verbose0 save_last0 k weights_only0 mode0
         period0 prefix0 heap0 fs0).

(** What [__init__] leaves in the attributes it takes from its arguments
    and in the bookkeeping of the retention policy. *)
Lemma init_attributes :
  monitor (obj built) = monitor0 /\
  verbose (obj built) = verbose0 /\
  save_last (obj built) = save_last0 /\
  save_top_k (obj built) = k /\
  save_weights_only (obj built) = weights_only0 /\
  period (obj built) = period0 /\
  prefix (obj built) = prefix0 /\
  best_k_models (obj built) = [] /\
  epoch_last_check (obj built) = None /\
  heap built = heap0.
Proof.
  subst built. unfold __init__.
  match goal with
  | |- context [fst (?m ?w)] =>
      pattern (fst (m w));
      match goal with
      | |- ?I _ => assert (P : preserves I m) by step_preserves frame; apply P
      end
  end.
  repeat split.
Qed.

End Construction.

(** C1.  Whatever the arguments of the constructor with
    [save_top_k = k >= 1], and whatever happens afterwards (cycles, fresh
    metrics, a new delegate, a restored state), the dictionary
    [best_k_models] never holds more than [k] entries.  The reason lies in
    [_do_check_save]: entered at capacity, with the entry of
    [kth_best_model_path] in the dictionary, it pops that entry before it
    assigns the new one. *)
Theorem best_k_models_at_most_k
        (dir name monitor0 : option string) (verbose0 save_last0 : bool)
        (k : Z) (weights_only0 : bool) (mode0 : string) (period0 : Z)
        (prefix0 : string) (heap0 : list (dict pyval)) (fs0 : Storage.filesystem)
        (acts : list action) :
  1 <= k ->
  let built := fst (__init__ dir name monitor0 verbose0 save_last0 k weights_only0
                      mode0 period0 prefix0 heap0 fs0) in
  len (best_k_models (obj (run acts built))) <= k /\
  (forall (w : World) (filepath : string) (current : float) (epoch : Z)
          (trainer : Trainer) (popped : dict float),
      save_top_k (obj w) = k ->
      len (best_k_models (obj w)) = k ->
      pop (best_k_models (obj w)) (kth_best_model_path (obj w)) = Some popped ->
      best_k_models (obj (fst (_do_check_save filepath current epoch trainer w)))
      = set popped filepath current).
Proof.
  intros Hk built. split.
  - pose proof (init_attributes dir name monitor0 verbose0 save_last0 k weights_only0
                  mode0 period0 prefix0 heap0 fs0) as (_ & _ & _ & Hsave & _ & _ & _ & Hnil & _).
    fold built in Hsave, Hnil.
    assert (Hb : bounded built).
    { unfold bounded. rewrite Hsave, Hnil. cbn. lia. }
    apply (bounded_run acts) in Hb. destruct Hb as [_ Hb].
    pose proof (config_kept_run (obj built) acts built) as Hc.
    assert (H0 : config_kept (obj built) built).
    { unfold config_kept. repeat split. destruct (monitor (obj built)); auto. }
    destruct (Hc H0) as (_ & Hsame & _). rewrite Hsame, Hsave in Hb. exact Hb.
  - intros w filepath current epoch trainer popped Hsave Hlen Hpop.
    assert (T : triple (fun w' => w' = w) (_do_check_save filepath current epoch trainer)
                  (fun _ w' => best_k_models (obj w') = set popped filepath current)
                  (fun w' => best_k_models (obj w') = set popped filepath current)).
    { unfold _do_check_save.
      eapply triple_bind; [apply triple_get_self|]. intros self.
      eapply triple_bind with
        (Q := fun _ w' => best_k_models (obj w') = popped).
      - intros w' [-> ->]. rewrite Hlen, Hsave, Z.eqb_refl, Z.gtb_ltb.
        destruct (Z.ltb_spec 0 k); [|lia]. cbn [andb].
        unfold bind, or_raise. rewrite Hpop. reflexivity.
      - intros del_list.
        eapply triple_bind; [apply triple_get_self|]. intros self'.
        eapply triple_bind with
          (Q := fun _ w' => best_k_models (obj w') = set popped filepath current).
        + intros w' [Hw' ->]. cbn. now rewrite Hw'.
        + intros _. apply triple_of_preserves. step_all frame. }
    specialize (T w eq_refl).
    destruct (snd (_do_check_save filepath current epoch trainer w)); exact T.
Qed.

Lemma best_k_models_at_most_k_witness :
  1 <= 2 /\
  len (best_k_models
         (obj (run Scenario.three_cycles (Scenario.callback (Some "loss") 2 "min")))) <= 2.
Proof.
  assert (H : 1 <= 2) by lia.
  split; [exact H|].
  exact (proj1 (best_k_models_at_most_k (Some "ckpts") None (Some "loss") false false 2
                  false "min" 1 "" Scenario.dictionaries [] Scenario.three_cycles H)).
Defined.

(** ** The configuration after construction *)

(** C7, as the code has it.  The mode, the top-k count, the period, the
    save-last flag, the weights-only flag, the prefix and the verbosity
    are never assigned after construction, and a monitor key given to the
    constructor is kept.  When no monitor key was given, the key can
    become ["val_loss"] or ["checkpoint_on"]: [save_checkpoint] adopts
    one of them, for backward compatibility, when the callback metrics
    hold it. *)
Theorem configuration_kept
        (dir name monitor0 : option string) (verbose0 save_last0 : bool)
        (k : Z) (weights_only0 : bool) (mode0 : string) (period0 : Z)
        (prefix0 : string) (heap0 : list (dict pyval)) (fs0 : Storage.filesystem)
        (acts : list action) :
  let built := fst (__init__ dir name monitor0 verbose0 save_last0 k weights_only0
                      mode0 period0 prefix0 heap0 fs0) in
  let after := obj (run acts built) in
  mode after = mode (obj built) /\
  save_top_k after = k /\
  period after = period0 /\
  save_last after = save_last0 /\
  save_weights_only after = weights_only0 /\
  prefix after = prefix0 /\
  verbose after = verbose0 /\
  match monitor0 with
  | Some m => monitor after = Some m
  | None => monitor after = None \/
            monitor after = Some "val_loss" \/
            monitor after = Some "checkpoint_on"
  end.
Proof.
  intros built after.
  pose proof (init_attributes dir name monitor0 verbose0 save_last0 k weights_only0
                mode0 period0 prefix0 heap0 fs0)
    as (Hmon & Hverb & Hlast & Hsave & Hwo & Hper & Hpre & _).
  fold built in Hmon, Hverb, Hlast, Hsave, Hwo, Hper, Hpre.
  assert (H0 : config_kept (obj built) built).
  { unfold config_kept. repeat split. destruct (monitor (obj built)); auto. }
  apply (config_kept_run (obj built) acts) in H0.
  destruct H0 as (H1 & H2 & H3 & H4 & H5 & H6 & H7 & H8).
  fold after in H1, H2, H3, H4, H5, H6, H7, H8.
  rewrite Hmon in H8.
  repeat split; congruence.
Qed.

(** The claim C7 as stated fails on the monitor key: the callback built
    without one holds ["val_loss"] after its first cycle. *)
Lemma monitor_key_adopted :
  monitor (obj Scenario.unmonitored) = None /\
  monitor (obj (run Scenario.logs_val_loss Scenario.unmonitored)) = Some "val_loss" /\
  monitor (obj (run Scenario.logs_val_loss Scenario.unmonitored))
  <> monitor (obj Scenario.unmonitored).
Proof. repeat split; try (vm_compute; reflexivity). vm_compute. discriminate. Qed.

(** ** The metric dictionaries *)

Section HeapFacts.
Context {T : Type}.

Lemma nth_error_list_set_other (xs : list T) (n l : nat) (a : T) :
  n <> l -> nth_error (list_set xs n a) l = nth_error xs l.
Proof.
  revert n l. induction xs as [|x xs IH]; intros n l Hne; [now destruct n|].
  destruct n, l; cbn; try reflexivity; try congruence.
  apply IH. congruence.
Qed.

Lemma nth_error_list_set_same (xs : list T) (n : nat) (a b : T) :
  nth_error xs n = Some b -> nth_error (list_set xs n a) n = Some a.
Proof.
  revert n. induction xs as [|x xs IH]; intros n; destruct n; cbn; try discriminate; auto.
Qed.

End HeapFacts.

Section UntouchedDictionary.
Variables (l : loc) (d : dict pyval).

(** The dictionary at [l] is [d]. *)
Let holds (w : World) : Prop := nth_error (heap w) l = Some d.

Lemma holds_write (m : loc) (d' : dict pyval) : m <> l -> preserves holds (write m d').
Proof.
  intros Hne w H. unfold holds in *. cbn. now rewrite nth_error_list_set_other.
Qed.

#[local] Hint Resolve holds_write : inv.

(** [deepcopy] hands [_monitor_candidates] a dictionary of its own. *)
Lemma holds_monitor_candidates (trainer : Trainer) :
  triple holds (_monitor_candidates trainer) (fun m w => holds w /\ m <> l) holds.
Proof.
  unfold _monitor_candidates.
  eapply triple_bind; [apply triple_of_preserves; auto with inv | intros logged].
  eapply triple_bind with (Q := fun m w => holds w /\ m <> l).
  - intros w H. unfold holds in *. cbn.
    assert (l < List.length (heap w))%nat by (apply nth_error_Some; congruence).
    split; [|lia]. rewrite nth_error_app1; assumption.
  - intros m w [H Hne].
    match goal with
    | |- match snd (?c w) with _ => _ end =>
        assert (Hp : preserves holds c) by step_preserves frame;
        assert (Hv : forall a, snd (c w) = Ok a -> a = m)
    end.
    { intros a. unfold bind, read, write, ret.
      repeat match goal with
             | |- context [nth_error ?h ?n] => destruct (nth_error h n); cbn
             end; congruence. }
    specialize (Hp w H).
    destruct (snd _) eqn:E; try exact Hp.
    split; [exact Hp|]. now rewrite (Hv _ eq_refl).
Qed.

Lemma holds_bind_candidates {B : Type} (trainer : Trainer) (k : loc -> M B) :
  (forall m, m <> l -> preserves holds (k m)) ->
  preserves holds (bind (_monitor_candidates trainer) k).
Proof.
  intros Hk. apply preserves_of_triple.
  eapply triple_bind; [apply holds_monitor_candidates|].
  intros m w [H Hne]. apply (triple_of_preserves _ _ (Hk m Hne) w H).
Qed.

Lemma holds_save_checkpoint (trainer : Trainer) :
  preserves holds (save_checkpoint trainer).
Proof.
  step_all_with ltac:(apply holds_bind_candidates; intros ? ?) frame.
Qed.

End UntouchedDictionary.

(** ** What the formatter assigns *)

Section DictLookup.
Context {V : Type}.

Lemma get_set_same (d : dict V) (k : string) (v : V) : get (set d k v) k = Some v.
Proof.
  induction d as [|[k' v'] d IH]; cbn [set get].
  - now rewrite String.eqb_refl.
  - destruct (String.eqb k k') eqn:E; cbn [get]; rewrite E; auto.
Qed.

Lemma get_set_other (d : dict V) (k k' : string) (v : V) :
  k <> k' -> get (set d k v) k' = get d k'.
Proof.
  intros Hne. induction d as [|[k0 v0] d IH]; cbn [set get].
  - apply String.eqb_neq in Hne. rewrite String.eqb_sym in Hne. now rewrite Hne.
  - destruct (String.eqb k k0) eqn:E; cbn [get].
    + apply String.eqb_eq in E. subst k0.
      apply String.eqb_neq in Hne. rewrite String.eqb_sym in Hne. now rewrite Hne.
    + destruct (String.eqb k' k0); auto.
Qed.

(** Assigning the value a key already has changes nothing. *)
Lemma set_same_value (d : dict V) (k : string) (v : V) :
  get d k = Some v -> set d k v = d.
Proof.
  induction d as [|[k' v'] d IH]; cbn [set get]; [discriminate|].
  destruct (String.eqb k k') eqn:E.
  - now intros [= ->].
  - intros H. now rewrite IH.
Qed.

End DictLookup.

Section Defaults.

Lemma add_default_keeps (d : dict pyval) (name k : string) (v : pyval) :
  get d k = Some v -> get (add_default d name) k = Some v.
Proof.
  intros H. unfold add_default, mem.
  destruct (get d name) eqn:E; [exact H|].
  rewrite get_set_other; [exact H|]. intros ->. congruence.
Qed.

Lemma add_defaults_keep (names : list string) (d : dict pyval) (k : string) (v : pyval) :
  get d k = Some v -> get (fold_left add_default names d) k = Some v.
Proof.
  revert d. induction names as [|n names IH]; intros d H; cbn [fold_left]; [exact H|].
  apply IH, add_default_keeps, H.
Qed.

(** A placeholder name missing from the metrics is given the value 0. *)
Lemma add_defaults_absent (names : list string) (d : dict pyval) (k : string) :
  In k names -> get d k = None ->
  get (fold_left add_default names d) k = Some (PyInt 0).
Proof.
  revert d. induction names as [|n names IH]; intros d Hin Hget; [destruct Hin|].
  cbn [fold_left]. destruct (String.eqb_spec n k) as [->|Hne].
  - apply add_defaults_keep. unfold add_default, mem. rewrite Hget. apply get_set_same.
  - destruct Hin as [->|Hin]; [congruence|].
    apply IH; [exact Hin|]. unfold add_default, mem.
    destruct (get d n); [exact Hget|]. now rewrite get_set_other.
Qed.

Lemma add_defaults_present (names : list string) (d : dict pyval) (k : string) :
  In k names -> mem k (fold_left add_default names d) = true.
Proof.
  intros Hin. unfold mem. destruct (get d k) as [v|] eqn:E.
  - now rewrite (add_defaults_keep names d k v E).
  - now rewrite (add_defaults_absent names d k Hin E).
Qed.

(** Once every name is a key, the loop leaves the dictionary alone. *)
Lemma add_defaults_idle (names : list string) (d : dict pyval) :
  (forall k, In k names -> mem k d = true) -> fold_left add_default names d = d.
Proof.
  induction names as [|n names IH]; intros H; cbn [fold_left]; [reflexivity|].
  unfold add_default at 2. rewrite (H n (or_introl eq_refl)).
  apply IH. intros k Hk. apply H. now right.
Qed.

Lemma fold_format_group (groups : list string) (f : string) (d : dict pyval) :
  snd (fold_left format_group groups (f, d)) = fold_left add_default (map PyStr.tail groups) d.
Proof.
  revert f d. induction groups as [|g groups IH]; intros f d; [reflexivity|].
  cbn [fold_left map]. unfold format_group at 2. cbn [fst snd]. apply IH.
Qed.

(** The file name, before substitution, does not depend on the metrics. *)
Lemma fold_format_group_name (groups : list string) (f : string) (d d' : dict pyval) :
  fst (fold_left format_group groups (f, d)) = fst (fold_left format_group groups (f, d')).
Proof.
  revert f d d'. induction groups as [|g groups IH]; intros f d d'; [reflexivity|].
  cbn [fold_left]. unfold format_group at 2 4. cbn [fst snd]. apply IH.
Qed.

(** The effect of [_format_checkpoint_name] on the dictionary it is given,
    and on nothing else. *)
Lemma format_checkpoint_name_world (filename : option string) (epoch : Z) (m : loc)
      (prefix : string) (w : World) (d : dict pyval) :
  nth_error (heap w) m = Some d ->
  fst (_format_checkpoint_name filename epoch m prefix w) =
  {| obj := obj w;
     heap := list_set (heap w) m (formatted_metrics filename epoch d);
     fs := fs w; log := log w |}.
Proof.
  intros Hd. unfold _format_checkpoint_name, formatted_metrics.
  fold (template_of filename).
  assert (Hsame : list_set (heap w) m d = heap w).
  { clear -Hd. revert m Hd. induction (heap w) as [|x xs IH]; intros [|m]; cbn;
      try discriminate; [now intros [= ->]|]. intros H. now rewrite IH. }
  destruct (PyStr.findall (template_of filename)) as [|g groups] eqn:E.
  - rewrite Hsame. unfold bind, ret. cbn. now destruct w.
  - rewrite <- fold_format_group with (f := template_of filename).
    unfold bind, read, write, lift, ret. rewrite Hd. cbn [fst snd].
    destruct (PyFormat.format _ _); reflexivity.
Qed.

End Defaults.

(** C8, as the code has it.  A cycle leaves every dictionary that exists
    when it starts, the three metric dictionaries of the trainer among
    them, with the content it had: the file name is formatted from a deep
    copy.  [_format_checkpoint_name] itself assigns into the dictionary it
    is given: unless the template has no placeholder, it sets ["epoch"] to
    the epoch and gives every placeholder name missing from the
    dictionary the value 0. *)
Theorem metrics_copied_before_formatting :
  (forall (trainer : Trainer) (w : World) (l : loc) (d : dict pyval),
      nth_error (heap w) l = Some d ->
      nth_error (heap (fst (save_checkpoint trainer w))) l = Some d) /\
  (forall (filename : option string) (epoch : Z) (m : loc) (prefix : string)
          (w : World) (d : dict pyval),
      nth_error (heap w) m = Some d ->
      let groups := PyStr.findall (template_of filename) in
      let d' := formatted_metrics filename epoch d in
      nth_error (heap (fst (_format_checkpoint_name filename epoch m prefix w))) m = Some d' /\
      (groups = [] -> d' = d) /\
      (groups <> [] ->
       get d' "epoch" = Some (PyInt epoch) /\
       forall g, In g groups -> PyStr.tail g <> "epoch" ->
                 get d (PyStr.tail g) = None ->
                 get d' (PyStr.tail g) = Some (PyInt 0))).
Proof.
  split.
  - intros trainer w l d H. exact (holds_save_checkpoint l d trainer w H).
  - intros filename epoch m prefix w d Hd groups d'. subst groups d'.
    rewrite (format_checkpoint_name_world filename epoch m prefix w d Hd). cbn [heap].
    split; [now apply nth_error_list_set_same with (b := d)|].
    unfold formatted_metrics.
    destruct (PyStr.findall (template_of filename)) as [|g0 groups]; split;
      try congruence; intros _.
    split.
    + apply add_defaults_keep, get_set_same.
    + intros g Hin Hne Hget. apply add_defaults_absent.
      * now apply in_map.
      * rewrite get_set_other; [exact Hget|]. congruence.
Qed.

Lemma metrics_copied_before_formatting_witness :
  let w := run Scenario.three_cycles (Scenario.callback (Some "loss") 2 "min") in
  nth_error (heap w) 1 = Some [("loss", Tensor 0.7)] /\
  nth_error (heap (fst (save_checkpoint (Scenario.trainer_at 3) w))) 1
  = Some [("loss", Tensor 0.7)].
Proof.
  assert (H : nth_error
                (heap (run Scenario.three_cycles (Scenario.callback (Some "loss") 2 "min"))) 1
              = Some [("loss", Tensor 0.7)]) by (vm_compute; reflexivity).
  split; [exact H|].
  exact (proj1 metrics_copied_before_formatting (Scenario.trainer_at 3) _ 1%nat _ H).
Defined.

(** The claim C8 as stated fails for [_format_checkpoint_name]: the
    dictionary passed in holds one more key when the call returns. *)
Lemma formatter_assigns_into_metrics :
  let w := Scenario.templated "{epoch}-{score:.2f}" in
  nth_error (heap w) 0 = Some [("score", PyFloat 0.1234)] /\
  nth_error (heap (fst (_format_checkpoint_name (filename (obj w)) 3 0%nat (prefix (obj w)) w))) 0
  = Some [("score", PyFloat 0.1234); ("epoch", PyInt 3)].
Proof. vm_compute. split; reflexivity. Qed.

(** ** Templating *)

(** C9.  The per-cycle index of the claim is the epoch, which the
    formatter injects under the key ["epoch"].  For the template
    ["{epoch}-{score:.2f}"], the metrics [{score: 0.1234}], index 3 and
    prefix ["run"], each placeholder [{name...}] is rewritten to
    [name={name...}], the index is assigned into the metrics, the format
    specification is applied, the prefix is joined with ["-"] and
    [".ckpt"] is appended: the name is ["run-epoch=3-score=0.12.ckpt"].
    Whatever the template and the metrics, a placeholder name absent from
    the metrics is given the value 0. *)
Theorem templating_scenario :
  fst (fold_left format_group (PyStr.findall "{epoch}-{score:.2f}")
         ("{epoch}-{score:.2f}", Scenario.scored))
  = "epoch={epoch}-score={score:.2f}" /\
  snd (format_checkpoint_name 3 0%nat None (Scenario.templated "{epoch}-{score:.2f}"))
  = Ok "run-epoch=3-score=0.12.ckpt" /\
  nth_error (heap (fst (format_checkpoint_name 3 0%nat None
                          (Scenario.templated "{epoch}-{score:.2f}")))) 0
  = Some [("score", PyFloat 0.1234); ("epoch", PyInt 3)] /\
  (forall (groups : list string) (filename group : string) (metrics : dict pyval),
      In group groups ->
      get metrics (PyStr.tail group) = None ->
      get (snd (fold_left format_group groups (filename, metrics))) (PyStr.tail group)
      = Some (PyInt 0)).
Proof.
  split; [vm_compute; reflexivity|]. split; [vm_compute; reflexivity|].
  split; [vm_compute; reflexivity|].
  intros groups filename group metrics Hin Hget.
  rewrite fold_format_group. apply add_defaults_absent; [|exact Hget].
  now apply in_map.
Qed.

(** ** The epoch of the last check *)

Lemma bind_ok {A B : Type} (m : M A) (k : A -> M B) (w : World) (b : B) :
  snd (bind m k w) = Ok b ->
  exists a, snd (m w) = Ok a /\ bind m k w = k a (fst (m w)).
Proof.
  unfold bind. destruct (m w) as [w' [a| | |]]; cbn [fst snd];
    try discriminate. intros _. now exists a.
Qed.

Lemma validate_monitor_key_world (trainer : Trainer) (w : World) :
  fst (_validate_monitor_key trainer w) = w.
Proof.
  unfold _validate_monitor_key, bind, read, get_self.
  destruct (nth_error (heap w) (callback_metrics trainer)); [|reflexivity].
  cbn [fst snd]. destruct (monitor (obj w)); [|reflexivity].
  destruct (negb _); reflexivity.
Qed.

(** [_add_backward_monitor_support] assigns to [self.monitor] only. *)
Lemma backward_support_frame (trainer : Trainer) (w : World) :
  let w' := fst (_add_backward_monitor_support trainer w) in
  heap w' = heap w /\ fs w' = fs w /\ log w' = log w /\
  save_top_k (obj w') = save_top_k (obj w) /\
  period (obj w') = period (obj w) /\
  best_k_models (obj w') = best_k_models (obj w) /\
  (forall m, monitor (obj w) = Some m -> w' = w).
Proof.
  unfold _add_backward_monitor_support, bind, read, get_self, when.
  destruct (nth_error (heap w) (callback_metrics trainer)) as [d|]; [|now repeat split].
  cbn [fst snd]. destruct (monitor (obj w)) as [m|] eqn:Hm.
  - cbn. rewrite Hm. cbn. now repeat split.
  - destruct (mem "val_loss" d); cbn.
    + repeat split. discriminate.
    + rewrite Hm. destruct (mem "checkpoint_on" d); cbn; repeat split; discriminate.
Qed.

Section LastCheck.
Variable e : Z.

Let tracked (w : World) : Prop := epoch_last_check (obj w) = Some e.

Lemma tracked_after_tracking (trainer : Trainer) :
  preserves tracked (after_tracking trainer).
Proof. step_all frame. Qed.

End LastCheck.

(** A cycle that passes the gate and the validation of the monitor key is
    [after_tracking], run from the world in which [epoch_last_check] has
    been assigned and nothing has been stored or logged yet. *)
Lemma save_checkpoint_tracks_first (trainer : Trainer) (w : World) :
  passes_gate trainer w ->
  snd ((_add_backward_monitor_support trainer ;; _validate_monitor_key trainer) w) = Ok tt ->
  save_checkpoint trainer w =
  after_tracking trainer
    (fst (set_epoch_last_check (Some (current_epoch trainer))
            (fst (_add_backward_monitor_support trainer w)))).
Proof.
  intros (Hrank & Hk & Hsanity & Hskip) Hval.
  unfold save_checkpoint, rank_zero_only.
  apply Z.eqb_eq in Hrank. rewrite Hrank. cbn [negb].
  change (bind get_self ?k w) with (k (obj w) w). cbv beta.
  apply Z.eqb_neq in Hk. rewrite Hk, Hsanity, Hskip.
  pose proof Hval as Hv.
  apply bind_ok in Hv as [[] [Hb Heq]]. rewrite Heq in Hval. clear Heq.
  pose proof (validate_monitor_key_world trainer
                (fst (_add_backward_monitor_support trainer w))) as Hw.
  unfold bind at 1.
  destruct (_add_backward_monitor_support trainer w) as [wb [[]| | |]];
    cbn [fst snd] in *; try discriminate.
  unfold bind at 1.
  destruct (_validate_monitor_key trainer wb) as [wv [[]| | |]];
    cbn [fst snd] in *; try discriminate.
  subst wv. reflexivity.
Qed.

(** C10, as the code has it.  On a cycle that passes the gate and whose
    monitor key passes [_validate_monitor_key], [epoch_last_check] is
    assigned the current epoch before anything is stored, deleted or
    logged: the rest of the cycle starts from that world.  The assignment
    stands however the cycle ends, so the next cycle is skipped unless a
    full period has elapsed.  (A cycle whose validation raises leaves
    [epoch_last_check] as it was.) *)
Theorem epoch_last_check_tracked_first (trainer : Trainer) (w : World) :
  passes_gate trainer w ->
  snd ((_add_backward_monitor_support trainer ;; _validate_monitor_key trainer) w) = Ok tt ->
  let e := current_epoch trainer in
  let w1 := fst (set_epoch_last_check (Some e)
                   (fst (_add_backward_monitor_support trainer w))) in
  let w' := fst (save_checkpoint trainer w) in
  (epoch_last_check (obj w1) = Some e /\
   fs w1 = fs w /\ log w1 = log w /\
   best_k_models (obj w1) = best_k_models (obj w) /\
   save_checkpoint trainer w = after_tracking trainer w1) /\
  epoch_last_check (obj w') = Some e /\
  (forall next : Trainer,
      current_epoch next - e < period (obj w) ->
      save_checkpoint next w' = (w', Ok tt)).
Proof.
  intros Hgate Hval e w1 w'.
  pose proof (save_checkpoint_tracks_first trainer w Hgate Hval) as Heq.
  fold e in Heq. fold w1 in Heq.
  pose proof (backward_support_frame trainer w) as (Hheap & Hfs & Hlog & _ & _ & Hbest & _).
  assert (Hw1 : epoch_last_check (obj w1) = Some e) by reflexivity.
  assert (Hw' : epoch_last_check (obj w') = Some e).
  { subst w'. rewrite Heq. now apply (tracked_after_tracking e trainer). }
  split; [|split].
  - repeat split; assumption.
  - exact Hw'.
  - intros next Hnext.
    pose proof (config_kept_perform (obj w) (Cycle trainer) w) as Hc.
    assert (H0 : config_kept (obj w) w).
    { unfold config_kept. repeat split. destruct (monitor (obj w)); auto. }
    destruct (Hc H0) as (_ & _ & Hperiod & _).
    change (fst (perform (Cycle trainer) w)) with w' in Hperiod.
    unfold save_checkpoint, rank_zero_only.
    destruct (global_rank next =? 0)%Z; [|reflexivity]. cbn [negb].
    change (bind get_self ?k w') with (k (obj w') w'). cbv beta.
    destruct (save_top_k (obj w') =? 0)%Z; [reflexivity|].
    destruct (running_sanity_check next); [reflexivity|].
    unfold _should_skip_epoch. rewrite Hw', Hperiod.
    apply Z.ltb_lt in Hnext. now rewrite Hnext.
Qed.

Lemma epoch_last_check_tracked_first_witness :
  let w := Scenario.nothing_logged in
  let t := Scenario.trainer_at 4 in
  passes_gate t w /\
  fs (fst (save_checkpoint t w)) = fs w /\
  epoch_last_check (obj (fst (save_checkpoint t w))) = Some 4.
Proof.
  assert (Hgate : passes_gate (Scenario.trainer_at 4) Scenario.nothing_logged).
  { repeat split. vm_compute. discriminate. }
  assert (Hval : snd ((_add_backward_monitor_support (Scenario.trainer_at 4) ;;
                       _validate_monitor_key (Scenario.trainer_at 4))
                        Scenario.nothing_logged) = Ok tt) by (vm_compute; reflexivity).
  refine (conj Hgate (conj _ _)).
  - vm_compute. reflexivity.
  - exact (proj1 (proj2 (epoch_last_check_tracked_first
                           (Scenario.trainer_at 4) Scenario.nothing_logged Hgate Hval))).
Defined.

(** The claim C10 as stated fails on a cycle that passes the gate while
    the monitored key is missing from non-empty callback metrics: the
    cycle raises before [epoch_last_check] is assigned. *)
Lemma epoch_not_tracked_when_validation_raises :
  let w := Scenario.loss_not_logged in
  let t := Scenario.trainer_at 4 in
  passes_gate t w /\
  snd (save_checkpoint t w) = Raise MisconfigurationException /\
  epoch_last_check (obj (fst (save_checkpoint t w))) = None.
Proof.
  repeat split; try (vm_compute; reflexivity). vm_compute. discriminate.
Qed.

(** ** A missing monitored metric *)

(** C3, as the code has it.  When the monitor key is missing from
    callback metrics that are not empty, a cycle that passes the gate
    raises [MisconfigurationException] out of [_validate_monitor_key]
    and leaves the world untouched: nothing is saved, the dictionary of
    best models is unchanged, but the condition is fatal.  The warning is
    what [_save_top_k_checkpoints] does when the key is missing from the
    dictionary it reads the score from, which the validation lets through
    only for empty callback metrics: it then emits the warning, saves
    nothing, changes neither [self] nor the backend, and returns. *)
Theorem missing_metric_raises_or_warns :
  (forall (trainer : Trainer) (w : World) (m : string) (d : dict pyval),
      passes_gate trainer w ->
      monitor (obj w) = Some m ->
      nth_error (heap w) (callback_metrics trainer) = Some d ->
      d <> [] ->
      get d m = None ->
      save_checkpoint trainer w = (w, Raise MisconfigurationException)) /\
  (forall (metrics : loc) (trainer : Trainer) (epoch : Z) (filepath : string)
          (w : World) (m : string) (d : dict pyval),
      monitor (obj w) = Some m ->
      nth_error (heap w) metrics = Some d ->
      get d m = None ->
      _save_top_k_checkpoints metrics trainer epoch filepath w =
      ({| obj := obj w; heap := heap w; fs := fs w;
          log := log w ++ [if String.eqb m "checkpoint_on" then WarnNoCheckpointOn
                           else WarnSkipping (Some m)] |},
       Ok tt)).
Proof.
  split.
  - intros trainer w m d (Hrank & Hk & Hsanity & Hskip) Hm Hd Hne Hget.
    unfold save_checkpoint, rank_zero_only.
    apply Z.eqb_eq in Hrank. rewrite Hrank. cbn [negb].
    change (bind get_self ?k w) with (k (obj w) w). cbv beta.
    apply Z.eqb_neq in Hk. rewrite Hk, Hsanity, Hskip.
    assert (Hb : _add_backward_monitor_support trainer w = (w, Ok tt)).
    { unfold _add_backward_monitor_support, bind, read, get_self, when.
      rewrite Hd. cbn [fst snd]. rewrite Hm. cbn. rewrite Hm. reflexivity. }
    unfold bind at 1. rewrite Hb.
    unfold bind at 1.
    assert (Hv : _validate_monitor_key trainer w = (w, Raise MisconfigurationException)).
    { unfold _validate_monitor_key, bind, read, get_self.
      rewrite Hd. cbn [fst snd]. rewrite Hm.
      unfold _is_valid_monitor_key, mem, len. rewrite Hm, Hget.
      destruct d; [congruence|reflexivity]. }
    now rewrite Hv.
  - intros metrics trainer epoch filepath w m d Hm Hd Hget.
    unfold _save_top_k_checkpoints, bind, read, get_self. rewrite Hd. cbn [fst snd].
    rewrite Hm, Hget. reflexivity.
Qed.

Lemma missing_metric_raises_or_warns_witness :
  let w := Scenario.loss_not_logged in
  let t := Scenario.trainer_at 0 in
  passes_gate t w /\
  monitor (obj w) = Some "loss" /\
  nth_error (heap w) (callback_metrics t) = Some [("other", Tensor 0.9)] /\
  save_checkpoint t w = (w, Raise MisconfigurationException).
Proof.
  assert (Hgate : passes_gate (Scenario.trainer_at 0) Scenario.loss_not_logged).
  { repeat split. vm_compute. discriminate. }
  assert (Hm : monitor (obj Scenario.loss_not_logged) = Some "loss")
    by (vm_compute; reflexivity).
  assert (Hd : nth_error (heap Scenario.loss_not_logged)
                 (callback_metrics (Scenario.trainer_at 0))
               = Some [("other", Tensor 0.9)]) by (vm_compute; reflexivity).
  refine (conj Hgate (conj Hm (conj Hd _))).
  apply (proj1 missing_metric_raises_or_warns _ _ "loss" [("other", Tensor 0.9)]
               Hgate Hm Hd); [discriminate | vm_compute; reflexivity].
Defined.

(** The claim C3 as stated fails: the monitored key ["loss"] is missing
    from the snapshot of a cycle that passes the gate, and the cycle ends
    with an exception. *)
Lemma missing_metric_is_fatal :
  let w := Scenario.loss_not_logged in
  let t := Scenario.trainer_at 0 in
  passes_gate t w /\
  monitor (obj w) = Some "loss" /\
  snd (_monitor_candidates t w) = Ok 3%nat /\
  nth_error (heap (fst (_monitor_candidates t w))) 3 = Some [("other", Tensor 0.9)] /\
  snd (save_checkpoint t w) = Raise MisconfigurationException.
Proof.
  repeat split; try (vm_compute; reflexivity). vm_compute. discriminate.
Qed.

(** ** The last checkpoint *)

Lemma rm_absent (fs : Storage.filesystem) (p : string) :
  Storage.exists_ fs p = false -> Storage.rm fs p = fs.
Proof.
  unfold Storage.exists_, Storage.rm. induction fs as [|q fs IH]; cbn; [reflexivity|].
  intros H. apply orb_false_iff in H as [H1 H2]. rewrite H1. cbn. now rewrite IH.
Qed.

Lemma bind_eq {A B : Type} (m : M A) (k : A -> M B) (w w1 : World) (a : A) :
  m w = (w1, Ok a) -> bind m k w = k a w1.
Proof. intros H. unfold bind. now rewrite H. Qed.

(** The world [_save_model] leaves when a delegate is in place. *)
Lemma save_model_world (filepath : string) (trainer : Trainer) (w : World)
      (save : delegate) :
  save_function (obj w) = Some save ->
  _save_model filepath trainer w =
  ({| obj := obj w; heap := heap w;
      fs := save filepath (save_weights_only (obj w))
              (Storage.makedirs (fs w) (PyStr.dirname filepath));
      log := (log w ++ [TrackCheckpointing filepath;
                        Saved filepath (save_weights_only (obj w))])%list |},
   Ok tt).
Proof.
  intros Hsave. unfold _save_model, bind, emit, modify_fs, get_self.
  cbn [fst snd obj heap fs log]. rewrite Hsave. cbn [fst snd obj heap fs log].
  now rewrite <- app_assoc.
Qed.

(** The world [_del_model] leaves. *)
Lemma del_model_world (filepath : string) (w : World) :
  _del_model filepath w =
  ({| obj := obj w; heap := heap w; fs := Storage.rm (fs w) filepath;
      log := (log w ++ (if Storage.exists_ (fs w) filepath
                        then [Removed filepath] else []))%list |},
   Ok tt).
Proof.
  unfold _del_model, bind, get_fs, when, emit, modify_fs, ret.
  cbn [fst snd]. destruct (Storage.exists_ (fs w) filepath) eqn:E.
  - reflexivity.
  - rewrite (rm_absent _ _ E), app_nil_r. now destruct w.
Qed.

(** The name ["last"] has no placeholder: formatting it reads no
    metrics and changes nothing. *)
Lemma format_last_name (epoch : Z) (metrics : loc) (prefix : string) (w : World) :
  _format_checkpoint_name (Some CHECKPOINT_NAME_LAST) epoch metrics prefix w
  = (w, Ok (PyStr.join "-" (filter PyStr.truthy [prefix; "last"]))).
Proof. reflexivity. Qed.

(** The path [_save_last_checkpoint] writes to. *)
Lemma last_filepath_chosen (epoch : Z) (metrics : loc) (filepath : string)
      (w : World) (dir : string) :
  (save_last (obj w) = true -> dirpath (obj w) = Some dir) ->
  (if save_last (obj w)
   then filename <- _format_checkpoint_name (Some CHECKPOINT_NAME_LAST) epoch metrics
                      (prefix (obj w)) ;;
        self <- get_self ;;
        d <- or_raise (dirpath self) TypeError ;;
        ret (PyStr.path_join d (filename ++ ".ckpt"))
   else ret filepath) w
  = (w, Ok (if save_last (obj w)
            then PyStr.path_join dir
                   (PyStr.join "-" (filter PyStr.truthy [prefix (obj w); "last"]) ++ ".ckpt")
            else filepath)).
Proof.
  intros Hdir. destruct (save_last (obj w)); [|reflexivity].
  unfold bind at 1. rewrite format_last_name.
  unfold bind, get_self, or_raise, ret. cbn [fst snd].
  rewrite (Hdir eq_refl). reflexivity.
Qed.

(** C6.  In last mode (no monitor key, or [save_last] set) with a
    delegate in place, [_save_last_checkpoint] has the delegate write the
    last path (the candidate file name, or [<dirpath>/<prefix>-last.ckpt]
    when [save_last] is set), then removes the path recorded in
    [last_model_path] exactly when that path is not empty and differs
    from the one just written, and records the new path in
    [last_model_path]; without a monitor key it also records it in
    [best_model_path]. *)
Theorem save_last_checkpoint_effect
        (trainer : Trainer) (epoch : Z) (metrics : loc) (filepath : string)
        (w : World) (save : delegate) (dir : string) :
  monitor (obj w) = None \/ save_last (obj w) = true ->
  save_function (obj w) = Some save ->
  (save_last (obj w) = true -> dirpath (obj w) = Some dir) ->
  let last_filepath :=
    if save_last (obj w)
    then PyStr.path_join dir
           (PyStr.join "-" (filter PyStr.truthy [prefix (obj w); "last"]) ++ ".ckpt")
    else filepath in
  let previous := last_model_path (obj w) in
  let weights_only := save_weights_only (obj w) in
  let written :=
    save last_filepath weights_only
         (Storage.makedirs (fs w) (PyStr.dirname last_filepath)) in
  let superseded := PyStr.truthy previous && negb (String.eqb previous last_filepath) in
  let w' := fst (_save_last_checkpoint trainer epoch metrics filepath w) in
  snd (_save_last_checkpoint trainer epoch metrics filepath w) = Ok tt /\
  fs w' = (if superseded then Storage.rm written previous else written) /\
  log w' = (log w ++ [TrackCheckpointing last_filepath; Saved last_filepath weights_only]
                  ++ (if superseded && Storage.exists_ written previous
                      then [Removed previous] else []))%list /\
  last_model_path (obj w') = last_filepath /\
  best_model_path (obj w') =
    match monitor (obj w) with
    | None => last_filepath
    | Some _ => best_model_path (obj w)
    end /\
  heap w' = heap w.
Proof.
  intros Hmode Hsave Hdir last_filepath previous weights_only written superseded w'.
  assert (Hshould : match monitor (obj w) with None => true | Some _ => save_last (obj w) end
                    = true).
  { destruct Hmode as [-> | H]; [reflexivity|]. rewrite H. now destruct (monitor (obj w)). }
  pose proof (last_filepath_chosen epoch metrics filepath w dir Hdir) as Hpath.
  fold last_filepath in Hpath.
  assert (Hrun : exists w2,
             _save_last_checkpoint trainer epoch metrics filepath w = (w2, Ok tt) /\
             w2 = {| obj := (match monitor (obj w) with
                             | None => with_best_model_path last_filepath
                             | Some _ => fun c => c
                             end) (with_last_model_path last_filepath (obj w));
                     heap := heap w;
                     fs := if superseded then Storage.rm written previous else written;
                     log := (log w ++ [TrackCheckpointing last_filepath;
                                       Saved last_filepath weights_only]
                                   ++ (if superseded && Storage.exists_ written previous
                                       then [Removed previous] else []))%list |}).
  { eexists. split; [|reflexivity].
    unfold _save_last_checkpoint.
    change (bind get_self ?k w) with (k (obj w) w). cbv beta zeta.
    rewrite Hshould. cbn [negb].
    rewrite (bind_eq _ _ _ _ _ Hpath).
    rewrite (bind_eq _ _ _ _ _ (save_model_world last_filepath trainer w save Hsave)).
    fold weights_only. fold written.
    match goal with |- bind get_self ?k ?w1 = _ => change (bind get_self k w1) with (k (obj w1) w1) end.
    cbv beta. cbn [obj]. fold previous. fold superseded.
    destruct superseded; cbn [when andb].
    - rewrite (bind_eq _ _ _ _ _ (del_model_world previous _)).
      cbn [obj heap fs log].
      unfold bind, set_last_model_path, set_best_model_path, modify_self, get_self, ret.
      cbn [fst snd obj heap fs log]. unfold with_last_model_path at 1. cbn [monitor].
      destruct (monitor (obj w)); cbn [fst snd obj last_model_path with_last_model_path];
        rewrite <- ?app_assoc; reflexivity.
    - unfold bind, set_last_model_path, set_best_model_path, modify_self, get_self, ret.
      cbn [fst snd obj heap fs log]. unfold with_last_model_path at 1. cbn [monitor].
      destruct (monitor (obj w)); cbn [fst snd obj last_model_path with_last_model_path];
        rewrite ?app_nil_r; reflexivity. }
  destruct Hrun as (w2 & Hrun & Hw2). subst w'. rewrite Hrun. cbn [fst snd].
  subst w2. cbn [obj heap fs log].
  repeat split.
  - now destruct (monitor (obj w)).
  - now destruct (monitor (obj w)).
Qed.

Lemma save_last_checkpoint_effect_witness :
  let w := Scenario.last_written in
  let w' := fst (_save_last_checkpoint (Scenario.trainer_at 1) 1 3%nat
                   "ckpts/epoch=1.ckpt" w) in
  monitor (obj w) = None /\
  last_model_path (obj w) = "ckpts/epoch=0.ckpt" /\
  last_model_path (obj w') = "ckpts/epoch=1.ckpt" /\
  best_model_path (obj w') = "ckpts/epoch=1.ckpt" /\
  fs w' = ["ckpts/epoch=1.ckpt"; "ckpts"].
Proof.
  assert (Hmon : monitor (obj Scenario.last_written) = None) by (vm_compute; reflexivity).
  assert (Hsave : save_function (obj Scenario.last_written) = Some Scenario.to_disk)
    by (vm_compute; reflexivity).
  assert (Hdir : save_last (obj Scenario.last_written) = true ->
                 dirpath (obj Scenario.last_written) = Some "ckpts")
    by (intros _; vm_compute; reflexivity).
  pose proof (save_last_checkpoint_effect (Scenario.trainer_at 1) 1 3%nat
                "ckpts/epoch=1.ckpt" Scenario.last_written Scenario.to_disk "ckpts"
                (or_introl Hmon) Hsave Hdir) as (_ & Hfs & _ & Hlast & Hbest & _).
  refine (conj Hmon (conj _ (conj _ (conj _ _)))).
  - vm_compute. reflexivity.
  - rewrite Hlast. vm_compute. reflexivity.
  - rewrite Hbest. vm_compute. reflexivity.
  - rewrite Hfs. vm_compute. reflexivity.
Defined.

(** ** Collision probing *)

Section StringAppend.

Lemma append_assoc (a b c : string) : (a ++ b) ++ c = a ++ (b ++ c).
Proof. induction a as [|x a IH]; cbn; [reflexivity | now rewrite IH]. Qed.

Lemma append_inv_head (p a b : string) : p ++ a = p ++ b -> a = b.
Proof. induction p as [|x p IH]; cbn; [auto | intros [= H]; auto]. Qed.

Lemma list_of_append (a b : string) :
  list_ascii_of_string (a ++ b) = (list_ascii_of_string a ++ list_ascii_of_string b)%list.
Proof. induction a as [|x a IH]; cbn; [reflexivity | now rewrite IH]. Qed.

Lemma append_inv_tail (a b s : string) : a ++ s = b ++ s -> a = b.
Proof.
  intros H. apply (f_equal list_ascii_of_string) in H.
  rewrite !list_of_append in H. apply app_inv_tail in H.
  apply (f_equal string_of_list_ascii) in H.
  now rewrite !string_of_list_ascii_of_string in H.
Qed.

(** Distinct integers print differently. *)
Lemma of_int_inj (x y : Z) : PyStr.of_int x = PyStr.of_int y -> x = y.
Proof.
  unfold PyStr.of_int. intros H.
  assert (N : forall z, Z.to_int z <> Decimal.Pos Decimal.Nil /\
                        Z.to_int z <> Decimal.Neg Decimal.Nil).
  { intros [|p|p]; cbn; split; try discriminate; intros [= E];
      now apply DecimalPos.Unsigned.to_uint_nonnil in E. }
  apply DecimalZ.to_int_inj.
  destruct (N x) as [Hx1 Hx2], (N y) as [Hy1 Hy2].
  pose proof (NilZero.isi _ Hx1 Hx2) as Ex.
  pose proof (NilZero.isi _ Hy1 Hy2) as Ey.
  rewrite H in Ex. congruence.
Qed.

End StringAppend.

Section Candidates.
Variables (self : checkpoint) (base : string).

(** The versioned candidates differ in the version number only. *)
Lemma candidate_shape :
  exists before : string,
    forall v : Z, candidate self base (Some v) = before ++ PyStr.of_int v ++ ".ckpt".
Proof.
  unfold candidate, CHECKPOINT_JOIN_CHAR. cbn [PyStr.join].
  assert (Hname : forall v, (base ++ "-" ++ "v" ++ PyStr.of_int v) ++ ".ckpt"
                            = (base ++ "-v") ++ PyStr.of_int v ++ ".ckpt").
  { intros v. now rewrite !append_assoc. }
  assert (Hslash : forall v, PyStr.startswith ((base ++ "-v") ++ PyStr.of_int v ++ ".ckpt") "/"
                             = PyStr.startswith (base ++ "-v") "/").
  { intros v. unfold PyStr.startswith. clear Hname.
    assert (Hnil : forall s, String.prefix "" s = true) by (now intros [|? ?]).
    destruct base as [|c b]; [reflexivity|]. cbn [String.append String.prefix].
    destruct (ascii_dec "/" c); [now rewrite !Hnil | reflexivity]. }
  destruct (dirpath self) as [d|].
  - destruct (PyStr.truthy d) eqn:Ed.
    + unfold PyStr.path_join. rewrite Ed. cbn [negb orb].
      destruct (PyStr.startswith (base ++ "-v") "/") eqn:Es.
      * exists (base ++ "-v"). intros v. now rewrite Hname, Hslash.
      * destruct (PyStr.ends_with_slash d).
        -- exists (d ++ base ++ "-v"). intros v.
           now rewrite Hname, Hslash, !append_assoc.
        -- exists (d ++ "/" ++ base ++ "-v"). intros v.
           now rewrite Hname, Hslash, !append_assoc.
    + exists (base ++ "-v"). intros v. apply Hname.
  - exists (base ++ "-v"). intros v. apply Hname.
Qed.

Lemma candidate_inj (x y : Z) :
  candidate self base (Some x) = candidate self base (Some y) -> x = y.
Proof.
  destruct candidate_shape as [before H]. rewrite !H. intros E.
  apply append_inv_head, append_inv_tail in E. now apply of_int_inj.
Qed.

End Candidates.

Section FormatterRuns.
Variables (filename : option string) (epoch : Z) (m : loc) (prefix : string).

Lemma list_set_same {T : Type} (xs : list T) (n : nat) (a : T) :
  nth_error xs n = Some a -> list_set xs n a = xs.
Proof.
  revert n. induction xs as [|x xs IH]; intros [|n]; cbn; try discriminate.
  - now intros [= ->].
  - intros H. now rewrite IH.
Qed.

Lemma list_set_twice {T : Type} (xs : list T) (n : nat) (a b : T) :
  list_set (list_set xs n a) n b = list_set xs n b.
Proof.
  revert n. induction xs as [|x xs IH]; intros [|n]; cbn; try reflexivity.
  now rewrite IH.
Qed.

(** A call of [_format_checkpoint_name] on a dictionary holding [d]. *)
Lemma format_name_with (w : World) (d : dict pyval) :
  nth_error (heap w) m = Some d ->
  _format_checkpoint_name filename epoch m prefix w =
  ({| obj := obj w;
      heap := list_set (heap w) m (formatted_metrics filename epoch d);
      fs := fs w; log := log w |},
   base_name filename epoch d prefix).
Proof.
  intros Hd. unfold _format_checkpoint_name, base_name, formatted_metrics.
  fold (template_of filename).
  destruct (PyStr.findall (template_of filename)) as [|g groups] eqn:E.
  - rewrite (list_set_same _ _ _ Hd). unfold bind, ret. cbn. now destruct w.
  - rewrite <- fold_format_group with (f := template_of filename).
    unfold bind, read, write, lift, ret. rewrite Hd. cbn [fst snd].
    destruct (PyFormat.format _ _); reflexivity.
Qed.

(** Without a placeholder the dictionary is not even read. *)
Lemma format_name_plain (w : World) (d : dict pyval) :
  PyStr.findall (template_of filename) = [] ->
  _format_checkpoint_name filename epoch m prefix w =
  (w, base_name filename epoch d prefix).
Proof.
  intros E. unfold _format_checkpoint_name, base_name.
  fold (template_of filename). rewrite E. reflexivity.
Qed.

Lemma format_name_dangling (w : World) :
  nth_error (heap w) m = None ->
  PyStr.findall (template_of filename) <> [] ->
  _format_checkpoint_name filename epoch m prefix w = (w, Unmodelled).
Proof.
  intros Hd E. unfold _format_checkpoint_name.
  fold (template_of filename).
  destruct (PyStr.findall (template_of filename)); [congruence|].
  unfold bind, read. now rewrite Hd.
Qed.

(** Formatting a second time assigns nothing new. *)
Lemma formatted_metrics_idem (d : dict pyval) :
  formatted_metrics filename epoch (formatted_metrics filename epoch d)
  = formatted_metrics filename epoch d.
Proof.
  unfold formatted_metrics.
  destruct (PyStr.findall (template_of filename)) as [|g groups]; [reflexivity|].
  set (names := map PyStr.tail (g :: groups)).
  set (d1 := fold_left add_default names (set d "epoch" (PyInt epoch))).
  assert (He : set d1 "epoch" (PyInt epoch) = d1).
  { apply set_same_value. apply add_defaults_keep, get_set_same. }
  rewrite He. apply add_defaults_idle.
  intros k Hk. now apply add_defaults_present.
Qed.

Lemma base_name_stable (d : dict pyval) :
  base_name filename epoch (formatted_metrics filename epoch d) prefix
  = base_name filename epoch d prefix.
Proof.
  unfold base_name. rewrite formatted_metrics_idem.
  destruct (PyStr.findall (template_of filename)) as [|g groups]; [reflexivity|].
  now rewrite (fold_format_group_name (g :: groups) (template_of filename)
                 (set (formatted_metrics filename epoch d) "epoch" (PyInt epoch))
                 (set d "epoch" (PyInt epoch))).
Qed.

End FormatterRuns.

Lemma format_checkpoint_name_bind (epoch : Z) (m : loc) (ver : option Z)
      (w w1 : World) (r : result string) :
  _format_checkpoint_name (filename (obj w)) epoch m (prefix (obj w)) w = (w1, r) ->
  obj w1 = obj w ->
  format_checkpoint_name epoch m ver w =
  (w1, rbind r (fun base => Ok (candidate (obj w) base ver))).
Proof.
  intros H Hobj. unfold format_checkpoint_name.
  change (bind get_self ?k w) with (k (obj w) w). cbv beta.
  unfold bind at 1. rewrite H. destruct r as [base| | |]; try reflexivity.
  change (bind get_self ?k w1) with (k (obj w1) w1). cbv beta.
  rewrite Hobj. unfold candidate, rbind. now destruct (dirpath (obj w)).
Qed.

(** Once a name has been formatted, formatting again, with any version,
    succeeds and leaves the world as it is. *)
Lemma format_checkpoint_name_settles (epoch : Z) (m : loc) (w w1 : World) (first : string) :
  format_checkpoint_name epoch m None w = (w1, Ok first) ->
  exists base : string,
    first = candidate (obj w) base None /\
    obj w1 = obj w /\ fs w1 = fs w /\
    forall ver, format_checkpoint_name epoch m ver w1
                = (w1, Ok (candidate (obj w) base ver)).
Proof.
  intros H.
  destruct (nth_error (heap w) m) as [d|] eqn:Hd.
  - pose proof (format_name_with (filename (obj w)) epoch m (prefix (obj w)) w d Hd) as Hrun.
    rewrite (format_checkpoint_name_bind _ _ _ _ _ _ Hrun eq_refl) in H.
    destruct (base_name (filename (obj w)) epoch d (prefix (obj w))) as [base| | |] eqn:Eb;
      try discriminate.
    cbn [rbind] in H. injection H as <- <-.
    exists base. repeat split. intros ver.
    set (d' := formatted_metrics (filename (obj w)) epoch d).
    set (w1 := {| obj := obj w; heap := list_set (heap w) m d'; fs := fs w; log := log w |}).
    assert (Hd' : nth_error (heap w1) m = Some d')
      by (cbn; now apply nth_error_list_set_same with (b := d)).
    pose proof (format_name_with (filename (obj w1)) epoch m (prefix (obj w1)) w1 d' Hd')
      as Hrun'.
    cbn [obj heap fs log w1] in Hrun'.
    unfold d' in Hrun' at 2 3.
    rewrite formatted_metrics_idem, base_name_stable, list_set_twice, Eb in Hrun'.
    fold d' in Hrun'. fold w1 in Hrun'.
    now rewrite (format_checkpoint_name_bind _ _ ver _ _ _ Hrun' eq_refl).
  - destruct (PyStr.findall (template_of (filename (obj w)))) as [|g groups] eqn:E.
    + pose proof (format_name_plain (filename (obj w)) epoch m (prefix (obj w)) w [] E)
        as Hrun.
      rewrite (format_checkpoint_name_bind _ _ _ _ _ _ Hrun eq_refl) in H.
      destruct (base_name (filename (obj w)) epoch [] (prefix (obj w))) as [base| | |] eqn:Eb;
        try discriminate.
      cbn [rbind] in H. injection H as <- <-.
      exists base. repeat split. intros ver.
      now rewrite (format_checkpoint_name_bind _ _ ver _ _ _ Hrun eq_refl).
    + assert (Hne : PyStr.findall (template_of (filename (obj w))) <> []) by congruence.
      pose proof (format_name_dangling (filename (obj w)) epoch m (prefix (obj w)) w Hd Hne)
        as Hrun.
      rewrite (format_checkpoint_name_bind _ _ _ _ _ _ Hrun eq_refl) in H. discriminate.
Qed.

Section Probe.
Variables (epoch : Z) (m : loc) (w1 : World) (cand : Z -> string).
Hypothesis Hfmt :
  forall v, format_checkpoint_name epoch m (Some v) w1 = (w1, Ok (cand v)).

Let taken (p : string) : bool := Storage.exists_ (fs w1) p.

Lemma probe_free (fuel : nat) (v : Z) (p : string) :
  taken p = false -> probe fuel epoch m v p w1 = (w1, Ok p).
Proof.
  intros H. destruct fuel; cbn [probe];
    change (bind get_fs ?k w1) with (k (fs w1) w1); cbv beta;
    fold (taken p); now rewrite H.
Qed.

Lemma probe_step (fuel : nat) (v : Z) (p : string) :
  taken p = true ->
  probe (S fuel) epoch m v p w1 = probe fuel epoch m (v + 1) (cand v) w1.
Proof.
  intros H. cbn [probe].
  change (bind get_fs ?k w1) with (k (fs w1) w1). cbv beta.
  fold (taken p). rewrite H. now rewrite (bind_eq _ _ _ _ _ (Hfmt v)).
Qed.

(** The loop runs through the taken candidates and stops at the first
    free one. *)
Lemma probe_run (n : nat) :
  forall (fuel : nat) (v : Z) (p : string),
    taken p = true ->
    (forall i, 0 <= i < Z.of_nat n -> taken (cand (v + i)) = true) ->
    taken (cand (v + Z.of_nat n)) = false ->
    (n < fuel)%nat ->
    probe fuel epoch m v p w1 = (w1, Ok (cand (v + Z.of_nat n))).
Proof.
  induction n as [|n IH]; intros fuel v p Hp Hbelow Hfree Hfuel;
    (destruct fuel as [|fuel]; [lia|]); rewrite (probe_step _ _ _ Hp).
  - rewrite Z.add_0_r in Hfree. rewrite Z.add_0_r. now apply probe_free.
  - replace (v + Z.of_nat (S n)) with ((v + 1) + Z.of_nat n) in * by lia.
    apply IH; try assumption; try lia.
    + specialize (Hbelow 0). rewrite Z.add_0_r in Hbelow. apply Hbelow. lia.
    + intros i Hi. replace (v + 1 + i) with (v + (i + 1)) by lia. apply Hbelow. lia.
Qed.

Hypothesis Hinj : forall x y, cand x = cand y -> x = y.

Lemma taken_In (p : string) : taken p = true <-> In p (fs w1).
Proof.
  unfold taken, Storage.exists_. rewrite existsb_exists. split.
  - intros [q [Hq E]]. apply String.eqb_eq in E. now subst.
  - intros H. exists p. split; [exact H | apply String.eqb_refl].
Qed.

(** Among the first [length fs + 1] versions one is free: the candidates
    differ pairwise and the backend holds [length fs] paths. *)
Lemma first_free :
  exists n : nat,
    (n <= List.length (fs w1))%nat /\
    taken (cand (Z.of_nat n)) = false /\
    forall i, 0 <= i < Z.of_nat n -> taken (cand i) = true.
Proof.
  assert (Scan : forall k : nat,
             (forall i, (i < k)%nat -> taken (cand (Z.of_nat i)) = true) \/
             exists n, (n < k)%nat /\ taken (cand (Z.of_nat n)) = false /\
                       forall i, 0 <= i < Z.of_nat n -> taken (cand i) = true).
  { induction k as [|k [IH|[n (Hn & Hfree & Hbelow)]]].
    - left. intros i Hi. lia.
    - destruct (taken (cand (Z.of_nat k))) eqn:E.
      + left. intros i Hi. destruct (Nat.eq_dec i k) as [->|]; [exact E | apply IH; lia].
      + right. exists k. repeat split; [lia | exact E |].
        intros i Hi. rewrite <- (Z2Nat.id i) by lia. apply IH. lia.
    - right. exists n. repeat split; [lia | exact Hfree | exact Hbelow]. }
  destruct (Scan (S (List.length (fs w1)))) as [All | [n (Hn & Hfree & Hbelow)]].
  - exfalso.
    set (l := map (fun i => cand (Z.of_nat i)) (seq 0 (S (List.length (fs w1))))).
    assert (Hnd : NoDup l).
    { apply Finite.Injective_map_NoDup; [|apply seq_NoDup].
      intros x y E. apply Hinj in E. lia. }
    assert (Hincl : incl l (fs w1)).
    { intros p Hp. apply in_map_iff in Hp as [i [<- Hi]]. apply taken_In, All.
      apply in_seq in Hi. lia. }
    pose proof (NoDup_incl_length Hnd Hincl) as Hlen.
    unfold l in Hlen. rewrite length_map, length_seq in Hlen. lia.
  - exists n. repeat split; [lia | exact Hfree | exact Hbelow].
Qed.

End Probe.

(** C4.  When the name without version formats, say to [first] in the
    world [w1], [_get_metric_interpolated_filepath_name] returns, in that
    same world, a path that does not exist on the backend: [first] itself
    when it is free, and otherwise the name with the least version
    [n >= 0] that is free, every version below [n] being taken.  The loop
    always ends: the bound on its iterations is never reached. *)
Theorem probing_returns_first_free
        (epoch : Z) (ckpt_name_metrics : loc) (w w1 : World) (first : string) :
  format_checkpoint_name epoch ckpt_name_metrics None w = (w1, Ok first) ->
  exists filepath : string,
    _get_metric_interpolated_filepath_name epoch ckpt_name_metrics w = (w1, Ok filepath) /\
    fs w1 = fs w /\
    Storage.exists_ (fs w) filepath = false /\
    ((Storage.exists_ (fs w) first = false /\ filepath = first) \/
     (Storage.exists_ (fs w) first = true /\
      exists n : Z,
        0 <= n /\
        format_checkpoint_name epoch ckpt_name_metrics (Some n) w1 = (w1, Ok filepath) /\
        forall i, 0 <= i < n ->
                  exists taken : string,
                    format_checkpoint_name epoch ckpt_name_metrics (Some i) w1
                    = (w1, Ok taken) /\
                    Storage.exists_ (fs w) taken = true)).
Proof.
  intros H.
  destruct (format_checkpoint_name_settles _ _ _ _ _ H) as (base & Hfirst & Hobj & Hfs & Hall).
  set (cand := fun v : Z => candidate (obj w) base (Some v)).
  assert (Hfmt : forall v, format_checkpoint_name epoch ckpt_name_metrics (Some v) w1
                           = (w1, Ok (cand v))) by (intros v; apply Hall).
  assert (Hrun : _get_metric_interpolated_filepath_name epoch ckpt_name_metrics w
                 = probe (probe_fuel (fs w1)) epoch ckpt_name_metrics 0 first w1).
  { unfold _get_metric_interpolated_filepath_name. now rewrite (bind_eq _ _ _ _ _ H). }
  rewrite Hrun, <- Hfs.
  destruct (Storage.exists_ (fs w1) first) eqn:Efirst.
  - destruct (first_free w1 cand (candidate_inj (obj w) base))
      as (n & Hn & Hfree & Hbelow).
    exists (cand (Z.of_nat n)). split; [|split; [|split]].
    + replace (Z.of_nat n) with (0 + Z.of_nat n) by lia.
      apply (probe_run epoch ckpt_name_metrics w1 cand Hfmt n); unfold probe_fuel;
        try assumption; try lia.
    + reflexivity.
    + exact Hfree.
    + right. split; [reflexivity|]. exists (Z.of_nat n).
      split; [lia|]. split; [apply Hfmt|].
      intros i Hi. exists (cand i). split; [apply Hfmt | now apply Hbelow].
  - exists first. split; [|split; [|split]].
    + now apply probe_free.
    + reflexivity.
    + exact Efirst.
    + now left.
Qed.

Lemma probing_returns_first_free_witness :
  format_checkpoint_name 0 0%nat None Scenario.crowded
  = (fst (format_checkpoint_name 0 0%nat None Scenario.crowded), Ok "ckpts/epoch=0.ckpt") /\
  exists filepath : string,
    snd (_get_metric_interpolated_filepath_name 0 0%nat Scenario.crowded) = Ok filepath /\
    Storage.exists_ (fs Scenario.crowded) filepath = false.
Proof.
  assert (H : format_checkpoint_name 0 0%nat None Scenario.crowded
              = (fst (format_checkpoint_name 0 0%nat None Scenario.crowded),
                 Ok "ckpts/epoch=0.ckpt")) by (vm_compute; reflexivity).
  split; [exact H|].
  destruct (probing_returns_first_free 0 0%nat Scenario.crowded _ _ H)
    as (filepath & Hrun & _ & Hfree & _).
  exists filepath. rewrite Hrun. split; [reflexivity | exact Hfree].
Defined.

(** On the backend of the example the two first names are taken and the
    loop settles on version 1. *)
Example probing_skips_taken_names :
  snd (_get_metric_interpolated_filepath_name 0 0%nat Scenario.crowded)
  = Ok "ckpts/epoch=0-v1.ckpt".
Proof. vm_compute. reflexivity. Qed.

(** ** Worked examples *)

(** Top-1 retention of the lowest loss over the losses 0.9, 0.5 and 0.7:
    the second checkpoint replaces the first, the third is not saved. *)
Example top1_keeps_the_lowest_loss :
  let w := run Scenario.three_cycles (Scenario.callback (Some "loss") 1 "min") in
  best_k_models (obj w) = [("ckpts/epoch=1.ckpt", 0.5%float)] /\
  best_model_path (obj w) = "ckpts/epoch=1.ckpt" /\
  fs w = ["ckpts/epoch=1.ckpt"; "ckpts"] /\
  log w = [TrackCheckpointing "ckpts/epoch=0.ckpt"; Saved "ckpts/epoch=0.ckpt" false;
           TrackCheckpointing "ckpts/epoch=1.ckpt"; Saved "ckpts/epoch=1.ckpt" false;
           Removed "ckpts/epoch=0.ckpt"].
Proof. vm_compute. repeat split; reflexivity. Qed.

(** With empty callback metrics the validation passes and a missing
    monitored key ends the cycle with the warning alone. *)
Example missing_metric_warned_on_empty_metrics :
  let w := Scenario.nothing_logged in
  let r := save_checkpoint (Scenario.trainer_at 0) w in
  snd r = Ok tt /\
  log (fst r) = [WarnSkipping (Some "loss")] /\
  fs (fst r) = fs w /\
  best_k_models (obj (fst r)) = best_k_models (obj w).
Proof. vm_compute. repeat split; reflexivity. Qed.

(** The dictionary the score is read from is the one the file name was
    formatted from: a monitored key that is a placeholder of the template
    has been given the integer 0 by then, so the key is not found
    missing and no warning is logged. *)
Example formatter_default_read_as_score :
  let r := save_checkpoint (Scenario.trainer_at 0) Scenario.monitored_placeholder in
  nth_error (heap (fst r)) 3 = Some [("epoch", PyInt 0); ("val_loss", PyInt 0)] /\
  log (fst r) = [].
Proof. vm_compute. repeat split; reflexivity. Qed.

(* ================================================================== *)
(** * Further properties *)

Import Hooks Terms.

(** ** The order on scores *)

Section ScoreOrder.

Lemma SFltb_trans (x y z : spec_float) :
  SFltb x y = true -> SFltb y z = true -> SFltb x z = true.
Proof.
  unfold SFltb.
  destruct x as [s1|s1| |s1 m1 e1], y as [s2|s2| |s2 m2 e2], z as [s3|s3| |s3 m3 e3];
    cbn [SFcompare]; try discriminate;
    try (destruct s1; try discriminate; destruct s2; try discriminate;
         destruct s3; try discriminate; reflexivity);
    try (destruct s1, s2; discriminate);
    try (destruct s2, s3; discriminate);
    try (destruct s1, s3; try discriminate; reflexivity).
  all: try (destruct s1, s2; try discriminate; try reflexivity;
            destruct s3; try discriminate; try reflexivity).
  all: change (PosDef.Pos.compare_cont Eq) with Pos.compare.
  all: destruct (Z.compare_spec e1 e2), (Z.compare_spec e2 e3), (Z.compare_spec e1 e3);
       try discriminate; try reflexivity; try lia; subst.
  all: destruct (Pos.compare_spec m1 m2), (Pos.compare_spec m2 m3), (Pos.compare_spec m1 m3);
       cbn [CompOpp]; try discriminate; try reflexivity; try lia.
Qed.

Lemma monitor_op_irrefl (m : mode_t) (x : float) : monitor_op m x x = false.
Proof. destruct m; apply torch_lt_irrefl. Qed.

Lemma monitor_op_trans (m : mode_t) (x y z : float) :
  monitor_op m x y = true -> monitor_op m y z = true -> monitor_op m x z = true.
Proof.
  destruct m; unfold monitor_op, torch_lt, torch_gt; rewrite !ltb_spec; intros H1 H2.
  - exact (SFltb_trans _ _ _ H1 H2).
  - exact (SFltb_trans _ _ _ H2 H1).
Qed.

End ScoreOrder.

(** ** Selection of the best and of the worst entry *)

Section Selection.
Context {V : Type} (better : V -> V -> bool).
Hypothesis better_irrefl : forall x, better x x = false.
Hypothesis better_trans :
  forall x y z, better x y = true -> better y z = true -> better x z = true.

(** The scan returns an entry that none of the entries beats. *)
Lemma select_optimal (rest : dict V) :
  forall (bk : string) (bv : V),
  exists v : V,
    In (select better bk bv rest, v) ((bk, bv) :: rest) /\
    (v = bv \/ better v bv = true) /\
    forall k' v', In (k', v') ((bk, bv) :: rest) -> better v' v = false.
Proof.
  induction rest as [|[k v] rest IH]; intros bk bv; cbn [select].
  - exists bv. split; [now left|]. split; [now left|].
    intros k' v' [[= <- <-]|[]]. apply better_irrefl.
  - destruct (better v bv) eqn:E.
    + destruct (IH k v) as (s & Hin & Hrel & Hopt).
      exists s. split; [now right|]. split.
      * right. destruct Hrel as [->|Hrel]; [exact E | exact (better_trans _ _ _ Hrel E)].
      * intros k' v' [[= <- <-]|Hin']; [|now apply (Hopt k' v')].
        destruct (better bv s) eqn:Ebs; [|reflexivity].
        destruct Hrel as [->|Hrel].
        -- pose proof (better_trans _ _ _ Ebs E) as C.
           now rewrite better_irrefl in C.
        -- pose proof (better_trans _ _ _ (better_trans _ _ _ Ebs Hrel) E) as C.
           now rewrite better_irrefl in C.
    + destruct (IH bk bv) as (s & Hin & Hrel & Hopt).
      exists s. split; [|split; [exact Hrel|]].
      * destruct Hin as [Hin|Hin]; [now left | now right; right].
      * intros k' v' [[= <- <-]|[[= <- <-]|Hin']].
        -- apply (Hopt bk bv). now left.
        -- destruct (better v s) eqn:Evs; [|reflexivity].
           destruct Hrel as [->|Hrel]; [congruence|].
           now rewrite (better_trans _ _ _ Evs Hrel) in E.
        -- apply (Hopt k' v'). now right.
Qed.

Lemma arg_best_optimal (d : dict V) :
  d <> [] ->
  exists (k : string) (v : V),
    arg_best better d = Some k /\ In (k, v) d /\
    forall k' v', In (k', v') d -> better v' v = false.
Proof.
  destruct d as [|[bk bv] rest]; [congruence|]. intros _.
  destruct (select_optimal rest bk bv) as (v & Hin & _ & Hopt).
  exists (select better bk bv rest), v. repeat split; assumption.
Qed.

End Selection.

Section WellFormed.
Context {V : Type}.

Lemma get_In (d : dict V) (k : string) (v : V) : get d k = Some v -> In (k, v) d.
Proof.
  induction d as [|[k' v'] d IH]; cbn [get]; [discriminate|].
  destruct (String.eqb_spec k k') as [->|Hne].
  - intros [= ->]. now left.
  - intros H. right. now apply IH.
Qed.

Lemma In_keys (d : dict V) (k : string) (v : V) : In (k, v) d -> In k (keys d).
Proof. intros H. apply (in_map fst) in H. exact H. Qed.

(** In a well-formed dictionary an entry is what [get] returns. *)
Lemma In_get (d : dict V) (k : string) (v : V) :
  well_formed d -> In (k, v) d -> get d k = Some v.
Proof.
  unfold well_formed, keys. induction d as [|[k' v'] d IH]; [intros _ []|].
  cbn [map fst get]. intros Hnd [[= -> ->]|Hin].
  - now rewrite String.eqb_refl.
  - inversion Hnd as [|? ? Hnotin Hnd']; subst.
    destruct (String.eqb_spec k k') as [->|Hne].
    + exfalso. apply Hnotin. exact (In_keys d k' v Hin).
    + now apply IH.
Qed.

Lemma keys_set (d : dict V) (k : string) (v : V) :
  keys (set d k v) = if mem k d then keys d else (keys d ++ [k])%list.
Proof.
  unfold keys, mem. induction d as [|[k' v'] d IH]; cbn [set get map fst app]; [reflexivity|].
  destruct (String.eqb_spec k k') as [->|Hne]; cbn [map fst]; [reflexivity|].
  rewrite IH. now destruct (get d k).
Qed.

Lemma mem_In_keys (d : dict V) (k : string) : mem k d = true <-> In k (keys d).
Proof.
  unfold mem, keys. induction d as [|[k' v'] d IH]; cbn [get map fst In].
  - split; [discriminate | intros []].
  - destruct (String.eqb_spec k k') as [->|Hne].
    + split; auto.
    + rewrite IH. split; [now right | intros [E|H]; [congruence | exact H]].
Qed.

Lemma well_formed_set (d : dict V) (k : string) (v : V) :
  well_formed d -> well_formed (set d k v).
Proof.
  unfold well_formed. intros H. rewrite keys_set.
  destruct (mem k d) eqn:E; [exact H|].
  apply NoDup_app; [exact H | repeat constructor; intros [] |].
  intros x Hx [<-|[]]. apply mem_In_keys in Hx. congruence.
Qed.

Lemma pop_keys (d d' : dict V) (k : string) :
  pop d k = Some d' -> incl (keys d') (keys d) /\ (well_formed d -> well_formed d').
Proof.
  unfold well_formed, keys. revert d'.
  induction d as [|[k' v'] d IH]; intros d'; cbn [pop]; [discriminate|].
  destruct (String.eqb k k').
  - intros [= <-]. cbn [map fst]. split; [now apply incl_tl, incl_refl|].
    intros H. now inversion H.
  - destruct (pop d k) as [d''|]; cbn [option_map]; [|discriminate].
    intros [= <-]. destruct (IH d'' eq_refl) as [Hincl Hwf]. cbn [map fst]. split.
    + intros x [<-|Hx]; [now left | right; now apply Hincl].
    + intros H. inversion H as [|? ? Hnotin Hnd]; subst. constructor; [|now apply Hwf].
      intros Hin. apply Hnotin. now apply Hincl.
Qed.

(** A key of the dictionary can be popped. *)
Lemma pop_mem (d : dict V) (k : string) :
  mem k d = true -> exists d', pop d k = Some d'.
Proof.
  unfold mem. induction d as [|[k' v'] d IH]; cbn [get pop]; [discriminate|].
  destruct (String.eqb k k'); [eauto|].
  intros H. destruct (IH H) as [d' ->]. cbn. eauto.
Qed.

Lemma set_nonempty (d : dict V) (k : string) (v : V) : set d k v <> [].
Proof. destruct d as [|[k' v'] d]; cbn [set]; [discriminate|]. now destruct (String.eqb k k'). Qed.

End WellFormed.

(** ** The bookkeeping of [_do_check_save] *)

Lemma best_key_optimal (m : mode_t) (d : dict float) :
  d <> [] ->
  exists (k : string) (v : float),
    best_key m d = Some k /\ In (k, v) d /\
    forall k' v', In (k', v') d -> monitor_op m v' v = false.
Proof.
  intros Hd.
  destruct (arg_best_optimal (monitor_op m) (monitor_op_irrefl m) (monitor_op_trans m) d Hd)
    as (k & v & Hk & Hin & Hopt).
  exists k, v. repeat split; try assumption. now destruct m.
Qed.

Lemma worst_key_optimal (m : mode_t) (d : dict float) :
  d <> [] ->
  exists (k : string) (v : float),
    worst_key m d = Some k /\ In (k, v) d /\
    forall k' v', In (k', v') d -> monitor_op m v v' = false.
Proof.
  intros Hd.
  assert (Hirr : forall x, (fun a b => monitor_op m b a) x x = false)
    by (intros x; apply monitor_op_irrefl).
  assert (Htr : forall x y z, (fun a b => monitor_op m b a) x y = true ->
                              (fun a b => monitor_op m b a) y z = true ->
                              (fun a b => monitor_op m b a) x z = true).
  { intros x y z H1 H2. cbv beta in *. exact (monitor_op_trans m _ _ _ H2 H1). }
  destruct (arg_best_optimal _ Hirr Htr d Hd) as (k & v & Hk & Hin & Hopt).
  exists k, v. repeat split; try assumption. now destruct m.
Qed.

Lemma In_get_some {V : Type} (d : dict V) (k : string) (v : V) :
  In (k, v) d -> exists v', get d k = Some v'.
Proof.
  intros H. apply In_keys, mem_In_keys in H. unfold mem in H.
  destruct (get d k) as [v'|]; [eauto | discriminate].
Qed.

Lemma bind_bind {A B C : Type} (m : M A) (k1 : A -> M B) (k2 : B -> M C) (w : World) :
  bind (bind m k1) k2 w = bind m (fun a => bind (k1 a) k2) w.
Proof. unfold bind. destruct (m w) as [w' [a| | |]]; reflexivity. Qed.

(** One step of a run: the head of the bind chain is executed. *)
Ltac peel :=
  lazymatch goal with
  | |- bind get_self ?k ?w = _ =>
      change (bind get_self k w) with (k (obj w) w); cbv beta
  | |- bind (modify_self ?f) ?k ?w = _ =>
      change (bind (modify_self f) k w)
        with (k tt {| obj := f (obj w); heap := heap w; fs := fs w; log := log w |});
      cbv beta
  | |- bind (ret ?a) ?k ?w = _ =>
      change (bind (ret a) k w) with (k a w); cbv beta
  | |- bind (or_raise (Some ?a) ?e) ?k ?w = _ =>
      change (bind (or_raise (Some a) e) k w) with (k a w); cbv beta
  | |- bind (bind ?m ?k1) ?k2 ?w = _ =>
      rewrite (bind_bind m k1 k2 w)
  end.

(** Reduces the attributes read off a world written as a record. *)
Ltac fields :=
  cbn [obj heap fs log
       monitor verbose save_last save_top_k save_weights_only period epoch_last_check
       prefix best_k_models kth_best_model_path best_model_score best_model_path
       last_model_path save_function warned_result_obj kth_value mode dirpath filename
       with_monitor with_epoch_last_check with_best_k_models with_kth_best_model_path
       with_best_model_score with_best_model_path with_last_model_path
       with_save_function with_kth_value with_mode with_dirpath with_filename].

Ltac rundown := repeat first [peel | progress fields | progress cbv zeta].

Section DoCheckSave.
Variables (filepath : string) (current : float) (epoch : Z) (trainer : Trainer).

(** [_do_check_save] up to the point where the file is written: the
    bookkeeping is done, nothing has been stored or logged. *)
Lemma do_check_save_books (w : World) (d : dict float) :
  recorded (obj w) filepath current = Some d ->
  exists w3 : World,
    _do_check_save filepath current epoch trainer w =
    persist_and_evict filepath epoch trainer
      (if at_capacity (obj w) then [kth_best_model_path (obj w)] else []) w3 /\
    heap w3 = heap w /\ fs w3 = fs w /\ log w3 = log w /\
    save_function (obj w3) = save_function (obj w) /\
    save_weights_only (obj w3) = save_weights_only (obj w) /\
    verbose (obj w3) = verbose (obj w) /\
    save_top_k (obj w3) = save_top_k (obj w) /\
    best_k_models (obj w3) = d /\
    best_key (mode (obj w)) d = Some (best_model_path (obj w3)) /\
    (exists s, get d (best_model_path (obj w3)) = Some s /\
               best_model_score (obj w3) = Tensor s) /\
    (if (len d =? save_top_k (obj w))%Z
     then worst_key (mode (obj w)) d = Some (kth_best_model_path (obj w3)) /\
          get d (kth_best_model_path (obj w3)) = Some (kth_value (obj w3))
     else kth_best_model_path (obj w3) = kth_best_model_path (obj w) /\
          kth_value (obj w3) = kth_value (obj w)).
Proof.
  intros Hrec.
  assert (Hne : d <> []).
  { unfold recorded in Hrec. destruct (at_capacity (obj w)).
    - destruct (pop _ _); [|discriminate]. injection Hrec as <-. apply set_nonempty.
    - injection Hrec as <-. apply set_nonempty. }
  destruct (best_key_optimal (mode (obj w)) d Hne) as (b & bv & Hb & Hbin & _).
  destruct (In_get_some d b bv Hbin) as [s Hs].
  destruct (worst_key_optimal (mode (obj w)) d Hne) as (kw & kv & Hkw & Hkin & _).
  destruct (In_get_some d kw kv Hkin) as [ks Hks].
  assert (Hb' := Hb). assert (Hkw' := Hkw).
  unfold best_key in Hb'. unfold worst_key in Hkw'.
  unfold recorded in Hrec.
  assert (Hrun : forall (d1 : dict float) (K : M unit),
             d = set d1 filepath current ->
             exists w3,
               (self <- get_self ;;
                set_best_k_models (set (best_k_models self) filepath current) ;;
                self <- get_self ;;
                when (len (best_k_models self) =? save_top_k self)%Z
                  (let _op := match mode self with Min => py_max | Max => py_min end in
                   kth <- or_raise (_op (best_k_models self)) ValueError ;;
                   set_kth_best_model_path kth ;;
                   self <- get_self ;;
                   value <- or_raise (get (best_k_models self) (kth_best_model_path self))
                              KeyError ;;
                   set_kth_value value) ;;
                self <- get_self ;;
                let _op := match mode self with Min => py_min | Max => py_max end in
                best <- or_raise (_op (best_k_models self)) ValueError ;;
                set_best_model_path best ;;
                self <- get_self ;;
                score <- or_raise (get (best_k_models self) (best_model_path self)) KeyError ;;
                set_best_model_score (Tensor score) ;;
                K)
                 {| obj := with_best_k_models d1 (obj w); heap := heap w; fs := fs w;
                    log := log w |}
               = K w3 /\
               heap w3 = heap w /\ fs w3 = fs w /\ log w3 = log w /\
               save_function (obj w3) = save_function (obj w) /\
               save_weights_only (obj w3) = save_weights_only (obj w) /\
               verbose (obj w3) = verbose (obj w) /\
               save_top_k (obj w3) = save_top_k (obj w) /\
               best_k_models (obj w3) = d /\
               best_key (mode (obj w)) d = Some (best_model_path (obj w3)) /\
               (exists s, get d (best_model_path (obj w3)) = Some s /\
                          best_model_score (obj w3) = Tensor s) /\
               (if (len d =? save_top_k (obj w))%Z
                then worst_key (mode (obj w)) d = Some (kth_best_model_path (obj w3)) /\
                     get d (kth_best_model_path (obj w3)) = Some (kth_value (obj w3))
                else kth_best_model_path (obj w3) = kth_best_model_path (obj w) /\
                     kth_value (obj w3) = kth_value (obj w))).
  { intros d1 K Hd.
    unfold set_best_k_models, set_kth_best_model_path, set_kth_value,
      set_best_model_path, set_best_model_score.
    destruct (len d =? save_top_k (obj w))%Z eqn:Efull.
    - eexists. split.
      + rundown. rewrite <- Hd, Efull. cbn [when].
        rundown. rewrite Hkw'. rundown. rewrite Hks. rundown.
        rewrite Hb'. rundown. rewrite Hs. rundown. reflexivity.
      + fields. repeat split; eauto.
    - eexists. split.
      + rundown. rewrite <- Hd, Efull. cbn [when].
        rundown. rewrite Hb'. rundown. rewrite Hs. rundown. reflexivity.
      + fields. repeat split; eauto. }
  destruct (at_capacity (obj w)) eqn:Ecap.
  - destruct (pop (best_k_models (obj w)) (kth_best_model_path (obj w))) as [popped|] eqn:Epop;
      [|discriminate].
    cbn [option_map] in Hrec. injection Hrec as Hrec.
    destruct (Hrun popped
                (persist_and_evict filepath epoch trainer [kth_best_model_path (obj w)])
                (eq_sym Hrec)) as (w3 & Heq & Hrest).
    exists w3. split; [|exact Hrest].
    rewrite <- Heq. unfold _do_check_save, set_best_k_models. peel.
    fold (at_capacity (obj w)). rewrite Ecap, Epop. cbv zeta. repeat peel. reflexivity.
  - injection Hrec as Hrec.
    destruct (Hrun (best_k_models (obj w)) (persist_and_evict filepath epoch trainer [])
                (eq_sym Hrec)) as (w3 & Heq & Hrest).
    exists w3. split; [|exact Hrest].
    rewrite <- Heq. unfold _do_check_save, set_best_k_models. peel.
    fold (at_capacity (obj w)). rewrite Ecap. repeat peel. fields. reflexivity.
Qed.

End DoCheckSave.

Section AfterBookkeeping.
Variables (filepath : string) (epoch : Z) (trainer : Trainer).

(** Writing and removing files leaves [self] alone. *)
Lemma persist_and_evict_obj (del_list : list string) (w : World) :
  obj (fst (persist_and_evict filepath epoch trainer del_list w)) = obj w.
Proof.
  assert (P : preserves (fun w' => obj w' = obj w)
                (persist_and_evict filepath epoch trainer del_list))
    by step_all frame.
  now apply P.
Qed.

(** The end of [_do_check_save] with a delegate in place. *)
Lemma persist_and_evict_run (del_list : list string) (w : World) (save : delegate) :
  save_function (obj w) = Some save ->
  let written := save filepath (save_weights_only (obj w))
                      (Storage.makedirs (fs w) (PyStr.dirname filepath)) in
  let saved := {| obj := obj w; heap := heap w; fs := written;
                  log := ((log w ++ (if verbose (obj w)
                                     then [InfoSavingTopK epoch filepath] else []))
                            ++ [TrackCheckpointing filepath;
                                Saved filepath (save_weights_only (obj w))])%list |} in
  persist_and_evict filepath epoch trainer del_list w = del_listed filepath del_list saved.
Proof.
  intros Hsave written saved. unfold persist_and_evict. peel.
  assert (Hinfo : when (verbose (obj w)) (emit (InfoSavingTopK epoch filepath)) w
                  = ({| obj := obj w; heap := heap w; fs := fs w;
                        log := (log w ++ (if verbose (obj w)
                                          then [InfoSavingTopK epoch filepath] else []))%list |},
                     Ok tt)).
  { destruct (verbose (obj w)); cbn; [reflexivity|]. rewrite app_nil_r. now destruct w. }
  rewrite (bind_eq _ _ _ _ _ Hinfo).
  match goal with
  | |- bind (_save_model _ _) _ ?w1 = _ =>
      now rewrite (bind_eq _ _ _ _ _ (save_model_world filepath trainer w1 save Hsave))
  end.
Qed.

End AfterBookkeeping.

Lemma recorded_well_formed (self : checkpoint) (filepath : string) (current : float)
      (d : dict float) :
  well_formed (best_k_models self) ->
  recorded self filepath current = Some d -> well_formed d.
Proof.
  intros Hwf. unfold recorded. destruct (at_capacity self).
  - destruct (pop (best_k_models self) (kth_best_model_path self)) as [popped|] eqn:E;
      [|discriminate].
    intros [= <-]. apply well_formed_set. now apply (pop_keys _ _ _ E).
  - intros [= <-]. now apply well_formed_set.
Qed.

(** X1.  Ranking after [_do_check_save].  Once the new entry is recorded,
    [best_model_path] is a key of the dictionary whose score no entry
    strictly beats under the active mode, and [best_model_score] is that
    score; when the dictionary is full, [kth_best_model_path] is a key
    whose score, held in [kth_value], strictly beats no entry.  This holds
    whether or not the file could then be written. *)
Theorem do_check_save_ranks
        (filepath : string) (current : float) (epoch : Z) (trainer : Trainer)
        (w : World) (d : dict float) :
  well_formed (best_k_models (obj w)) ->
  recorded (obj w) filepath current = Some d ->
  let w' := fst (_do_check_save filepath current epoch trainer w) in
  let m := mode (obj w) in
  best_k_models (obj w') = d /\
  (exists s : float,
      get d (best_model_path (obj w')) = Some s /\
      best_model_score (obj w') = Tensor s /\
      forall k v, get d k = Some v -> monitor_op m v s = false) /\
  (len d = save_top_k (obj w) ->
   exists s : float,
     get d (kth_best_model_path (obj w')) = Some s /\
     kth_value (obj w') = s /\
     forall k v, get d k = Some v -> monitor_op m s v = false).
Proof.
  intros Hwf Hrec w' m.
  pose proof (recorded_well_formed _ _ _ _ Hwf Hrec) as Hwfd.
  destruct (do_check_save_books filepath current epoch trainer w d Hrec)
    as (w3 & Heq & _ & _ & _ & _ & _ & _ & _ & Hd & Hbest & (s & Hs & Hscore) & Hkth).
  assert (Hobj : obj w' = obj w3).
  { subst w'. rewrite Heq. apply persist_and_evict_obj. }
  rewrite Hobj. split; [exact Hd|]. split.
  - exists s. repeat split; try assumption.
    assert (Hne : d <> []) by (intros ->; discriminate).
    destruct (best_key_optimal m d Hne) as (b & bv & Hb & Hbin & Hopt).
    subst m. rewrite Hbest in Hb. injection Hb as <-.
    rewrite (In_get d _ bv Hwfd Hbin) in Hs. injection Hs as <-.
    intros k v Hget. apply (Hopt k v). now apply get_In.
  - intros Hfull. apply Z.eqb_eq in Hfull. rewrite Hfull in Hkth.
    destruct Hkth as [Hworst Hget].
    exists (kth_value (obj w3)). repeat split; try assumption.
    assert (Hne : d <> []) by (intros ->; discriminate).
    destruct (worst_key_optimal m d Hne) as (b & bv & Hb & Hbin & Hopt).
    subst m. rewrite Hworst in Hb. injection Hb as <-.
    rewrite (In_get d _ bv Hwfd Hbin) in Hget. injection Hget as <-.
    intros k v Hg. apply (Hopt k v). now apply get_In.
Qed.

Lemma do_check_save_ranks_witness :
  let w' := fst (_do_check_save "ckpts/epoch=1.ckpt" 0.3 1 (Scenario.trainer_at 1)
                   Scenario.top1_after_one_cycle) in
  best_k_models (obj w') = [("ckpts/epoch=1.ckpt", 0.3%float)].
Proof.
  assert (Hwf : well_formed (best_k_models (obj Scenario.top1_after_one_cycle))).
  { vm_compute. constructor; [intros [] | constructor]. }
  assert (Hrec : recorded (obj Scenario.top1_after_one_cycle) "ckpts/epoch=1.ckpt" 0.3
                 = Some [("ckpts/epoch=1.ckpt", 0.3%float)]) by (vm_compute; reflexivity).
  exact (proj1 (do_check_save_ranks "ckpts/epoch=1.ckpt" 0.3 1 (Scenario.trainer_at 1)
                  Scenario.top1_after_one_cycle _ Hwf Hrec)).
Defined.

Lemma exists_rm_other (fs : Storage.filesystem) (p q : string) :
  p <> q -> Storage.exists_ (Storage.rm fs q) p = Storage.exists_ fs p.
Proof.
  intros Hne. unfold Storage.exists_, Storage.rm.
  induction fs as [|x fs IH]; cbn [filter existsb]; [reflexivity|].
  destruct (String.eqb_spec q x) as [->|Hqx]; cbn [negb existsb].
  - apply String.eqb_neq in Hne. now rewrite Hne.
  - now rewrite IH.
Qed.

(** X2.  Eviction.  With a delegate in place, and the entry to pop in
    the dictionary when it is full, [_do_check_save] returns normally:
    the delegate writes the new file and, when the dictionary was full,
    the file of the popped entry is removed afterwards, unless its path
    is the one just written; so the call does not remove the file just
    written. *)
Theorem do_check_save_storage
        (filepath : string) (current : float) (epoch : Z) (trainer : Trainer)
        (w : World) (d : dict float) (save : delegate) :
  save_function (obj w) = Some save ->
  recorded (obj w) filepath current = Some d ->
  let evicted := kth_best_model_path (obj w) in
  let evict := at_capacity (obj w) && negb (String.eqb evicted filepath) in
  let written := save filepath (save_weights_only (obj w))
                      (Storage.makedirs (fs w) (PyStr.dirname filepath)) in
  let w' := fst (_do_check_save filepath current epoch trainer w) in
  snd (_do_check_save filepath current epoch trainer w) = Ok tt /\
  fs w' = (if evict then Storage.rm written evicted else written) /\
  log w' = (log w ++ (if verbose (obj w) then [InfoSavingTopK epoch filepath] else [])
                  ++ [TrackCheckpointing filepath; Saved filepath (save_weights_only (obj w))]
                  ++ (if evict && Storage.exists_ written evicted
                      then [Removed evicted] else []))%list /\
  Storage.exists_ (fs w') filepath = Storage.exists_ written filepath.
Proof.
  intros Hsave Hrec evicted evict written w'.
  destruct (do_check_save_books filepath current epoch trainer w d Hrec)
    as (w3 & Heq & _ & Hfs & Hlog & Hsf & Hwo & Hverb & _).
  rewrite <- Hsf in Hsave.
  pose proof (persist_and_evict_run filepath epoch trainer
                (if at_capacity (obj w) then [evicted] else []) w3 save Hsave) as Hrun.
  cbv zeta in Hrun. rewrite Hfs, Hlog, Hwo, Hverb in Hrun. fold written in Hrun.
  fold evicted in Heq.
  subst w'. rewrite Heq, Hrun. clear Heq Hrun.
  subst evict. destruct (at_capacity (obj w)); cbn [andb del_listed].
  - destruct (String.eqb_spec evicted filepath) as [E|E]; cbn [negb when].
    + cbn. rewrite ?app_nil_r, <- ?app_assoc. repeat split.
    + rewrite (bind_eq _ _ _ _ _ (del_model_world evicted _)). cbn [ret fst snd fs log].
      rewrite <- ?app_assoc. repeat split.
      apply exists_rm_other. congruence.
  - cbn. rewrite ?app_nil_r, <- ?app_assoc. repeat split.
Qed.

Lemma do_check_save_storage_witness :
  snd (_do_check_save "ckpts/epoch=1.ckpt" 0.3 1 (Scenario.trainer_at 1)
         Scenario.top1_after_one_cycle) = Ok tt.
Proof.
  assert (Hsave : save_function (obj Scenario.top1_after_one_cycle) = Some Scenario.to_disk)
    by (vm_compute; reflexivity).
  assert (Hrec : recorded (obj Scenario.top1_after_one_cycle) "ckpts/epoch=1.ckpt" 0.3
                 = Some [("ckpts/epoch=1.ckpt", 0.3%float)]) by (vm_compute; reflexivity).
  exact (proj1 (do_check_save_storage "ckpts/epoch=1.ckpt" 0.3 1 (Scenario.trainer_at 1)
                  Scenario.top1_after_one_cycle _ _ Hsave Hrec)).
Defined.

(** X3.  No delegate.  When [save_function] is not set (and the entry
    to pop is in the dictionary when it is full), [_do_check_save] raises
    [ValueError], and it does so after the bookkeeping: the new entry is
    in [best_k_models] although no file has been written, and nothing
    has been removed. *)
Theorem do_check_save_without_delegate
        (filepath : string) (current : float) (epoch : Z) (trainer : Trainer)
        (w : World) (d : dict float) :
  save_function (obj w) = None ->
  recorded (obj w) filepath current = Some d ->
  let w' := fst (_do_check_save filepath current epoch trainer w) in
  snd (_do_check_save filepath current epoch trainer w) = Raise ValueError /\
  best_k_models (obj w') = d /\
  get d filepath = Some current /\
  fs w' = Storage.makedirs (fs w) (PyStr.dirname filepath) /\
  log w' = (log w ++ (if verbose (obj w) then [InfoSavingTopK epoch filepath] else [])
                  ++ [TrackCheckpointing filepath])%list.
Proof.
  intros Hsave Hrec w'.
  destruct (do_check_save_books filepath current epoch trainer w d Hrec)
    as (w3 & Heq & _ & Hfs & Hlog & Hsf & _ & Hverb & _ & Hd & _).
  rewrite <- Hsf in Hsave.
  assert (Hget : get d filepath = Some current).
  { unfold recorded in Hrec. destruct (at_capacity (obj w)).
    - destruct (pop _ _); [|discriminate]. injection Hrec as <-. apply get_set_same.
    - injection Hrec as <-. apply get_set_same. }
  subst w'. rewrite Heq.
  unfold persist_and_evict, _save_model, bind, get_self, when, emit, modify_fs.
  rewrite Hverb. destruct (verbose (obj w)); cbn [fst snd obj heap fs log ret];
    rewrite Hsave; cbn [fst snd obj heap fs log raise];
    rewrite Hd, Hfs, Hlog, <- ?app_assoc, ?app_nil_r; repeat split; assumption.
Qed.

Lemma do_check_save_without_delegate_witness :
  snd (_do_check_save "ckpts/epoch=0.ckpt" 0.5 0 (Scenario.trainer_at 0)
         (Scenario.callback (Some "loss") 1 "min")) = Raise ValueError.
Proof.
  assert (Hsave : save_function (obj (Scenario.callback (Some "loss") 1 "min")) = None)
    by (vm_compute; reflexivity).
  assert (Hrec : recorded (obj (Scenario.callback (Some "loss") 1 "min"))
                   "ckpts/epoch=0.ckpt" 0.5
                 = Some [("ckpts/epoch=0.ckpt", 0.5%float)]) by (vm_compute; reflexivity).
  exact (proj1 (do_check_save_without_delegate "ckpts/epoch=0.ckpt" 0.5 0
                  (Scenario.trainer_at 0) (Scenario.callback (Some "loss") 1 "min")
                  _ Hsave Hrec)).
Defined.

(** ** Consistency of the bookkeeping over a run *)

Lemma at_capacity_spec (self : checkpoint) :
  1 <= save_top_k self ->
  at_capacity self = true <-> len (best_k_models self) = save_top_k self.
Proof.
  intros Hk. unfold at_capacity. rewrite andb_true_iff, Z.eqb_eq, Z.gtb_ltb, Z.ltb_lt. lia.
Qed.

(** In a consistent world [_do_check_save] finds the entry it pops. *)
Lemma consistent_recorded (w : World) (filepath : string) (current : float) :
  consistent w ->
  exists d, recorded (obj w) filepath current = Some d /\
            well_formed d /\ len d <= save_top_k (obj w).
Proof.
  intros (Hk & Hwf & Hlen & Hkth). unfold recorded.
  destruct (at_capacity (obj w)) eqn:Ecap.
  - apply (at_capacity_spec _ Hk) in Ecap.
    destruct (pop_mem _ _ (Hkth Ecap)) as [popped Hpop]. rewrite Hpop. cbn [option_map].
    eexists. split; [reflexivity|]. split.
    + apply well_formed_set. now apply (pop_keys _ _ _ Hpop).
    + apply pop_length in Hpop. pose proof (set_length popped filepath current).
      unfold len in *. lia.
  - eexists. split; [reflexivity|]. split; [now apply well_formed_set|].
    assert (len (best_k_models (obj w)) <> save_top_k (obj w)).
    { intros E. apply (at_capacity_spec _ Hk) in E. congruence. }
    pose proof (set_length (best_k_models (obj w)) filepath current).
    unfold len in *. lia.
Qed.

Lemma consistent_do_check_save (filepath : string) (current : float) (epoch : Z)
      (trainer : Trainer) :
  preserves consistent (_do_check_save filepath current epoch trainer).
Proof.
  intros w Hw.
  destruct (consistent_recorded w filepath current Hw) as (d & Hrec & Hwfd & Hlen).
  destruct (do_check_save_books filepath current epoch trainer w d Hrec)
    as (w3 & Heq & _ & _ & _ & _ & _ & _ & Hk & Hd & _ & _ & Hkth).
  unfold consistent. rewrite Heq, persist_and_evict_obj, Hk, Hd.
  destruct Hw as (Hk1 & _). repeat split; try assumption.
  intros Hfull. apply Z.eqb_eq in Hfull. rewrite Hfull in Hkth.
  destruct Hkth as [_ Hget]. unfold mem. now rewrite Hget.
Qed.

#[local] Hint Resolve consistent_do_check_save : inv.

Lemma consistent_run (acts : list action) (w : World) :
  consistent w -> consistent (run acts w).
Proof.
  revert w. induction acts as [|a acts IH]; intros w H; cbn [run]; [exact H|].
  apply IH. revert w H. change (preserves consistent (perform a)).
  destruct a; cbn [perform]; step_all frame.
Qed.

(** X4.  The bookkeeping stays consistent.  In every world reachable from
    the constructor with [save_top_k >= 1], the keys of [best_k_models]
    are pairwise distinct and, when the dictionary is full,
    [kth_best_model_path] is one of them.  Hence [check_monitor_top_k]
    answers for every tensor and every Python float (for a Python int
    the comparison of the [int64] tensor made of it is left out), and
    [_do_check_save] always finds the entry it has to pop: neither
    raises [KeyError]. *)
Theorem bookkeeping_never_raises
        (dir name monitor0 : option string) (verbose0 save_last0 : bool)
        (k : Z) (weights_only0 : bool) (mode0 : string) (period0 : Z)
        (prefix0 : string) (heap0 : list (dict pyval)) (fs0 : Storage.filesystem)
        (acts : list action) :
  1 <= k ->
  let w := run acts (fst (__init__ dir name monitor0 verbose0 save_last0 k weights_only0
                            mode0 period0 prefix0 heap0 fs0)) in
  well_formed (best_k_models (obj w)) /\
  (len (best_k_models (obj w)) = k ->
   mem (kth_best_model_path (obj w)) (best_k_models (obj w)) = true) /\
  (forall current : pyval,
      (forall z : Z, current <> PyInt z) ->
      exists answer : bool, snd (check_monitor_top_k current w) = Ok answer) /\
  (forall (filepath : string) (current : float), exists d : dict float,
      recorded (obj w) filepath current = Some d).
Proof.
  intros Hk w.
  pose proof (init_attributes dir name monitor0 verbose0 save_last0 k weights_only0
                mode0 period0 prefix0 heap0 fs0) as (_ & _ & _ & Hsave & _ & _ & _ & Hnil & _).
  set (built := fst (__init__ dir name monitor0 verbose0 save_last0 k weights_only0
                       mode0 period0 prefix0 heap0 fs0)) in *.
  assert (H0 : consistent built).
  { unfold consistent, well_formed. rewrite Hsave, Hnil. cbn.
    repeat split; try lia. constructor. }
  pose proof (consistent_run acts built H0) as Hc. fold w in Hc.
  assert (Hsame : save_top_k (obj w) = k).
  { assert (C0 : config_kept (obj built) built).
    { unfold config_kept. repeat split. destruct (monitor (obj built)); auto. }
    destruct (config_kept_run (obj built) acts built C0) as (_ & E & _).
    fold w in E. congruence. }
  destruct Hc as (Hk' & Hwf & Hlen & Hkth). rewrite Hsame in *.
  split; [exact Hwf|]. split; [exact Hkth|]. split.
  - intros current Hint.
    unfold check_monitor_top_k, bind, get_self. cbn [fst snd]. rewrite Hsame.
    destruct (len (best_k_models (obj w)) <? k)%Z eqn:E; [now exists true|].
    apply Z.ltb_ge in E. assert (Hfull : len (best_k_models (obj w)) = k) by lia.
    specialize (Hkth Hfull). unfold mem in Hkth.
    destruct (get (best_k_models (obj w)) (kth_best_model_path (obj w))) as [s|] eqn:G;
      [|discriminate].
    destruct current as [z|f|x].
    + now destruct (Hint z).
    + exists (monitor_op (mode (obj w)) (to_float32 f) s). reflexivity.
    + exists (monitor_op (mode (obj w)) x s). reflexivity.
  - intros filepath current.
    assert (Hc : consistent w) by (unfold consistent; rewrite Hsame; auto).
    destruct (consistent_recorded w filepath current Hc) as (d & Hd & _). now exists d.
Qed.

Lemma bookkeeping_never_raises_witness :
  let w := run Scenario.three_cycles (Scenario.callback (Some "loss") 1 "min") in
  well_formed (best_k_models (obj w)) /\
  exists answer : bool, snd (check_monitor_top_k (PyFloat 0.3) w) = Ok answer.
Proof.
  pose proof (bookkeeping_never_raises (Some "ckpts") None (Some "loss") false false 1
                false "min" 1 "" Scenario.dictionaries [] Scenario.three_cycles
                (Z.le_refl 1)) as (Hwf & _ & Hcheck & _).
  split; [exact Hwf|]. apply Hcheck. intros z. discriminate.
Defined.

(** ** The gate and the constructor *)

(** X5.  The gate.  A cycle for which one of the four conditions of the
    gate fails (another rank, [save_top_k = 0], the sanity check, or a
    period that has not elapsed) returns at once: nothing is validated,
    copied, logged, stored or assigned. *)
Theorem closed_gate_is_no_op (trainer : Trainer) (w : World) :
  global_rank trainer <> 0 \/
  save_top_k (obj w) = 0 \/
  running_sanity_check trainer = true \/
  (exists last, epoch_last_check (obj w) = Some last /\
                current_epoch trainer - last < period (obj w)) ->
  save_checkpoint trainer w = (w, Ok tt).
Proof.
  intros H. unfold save_checkpoint, rank_zero_only.
  destruct (Z.eqb_spec (global_rank trainer) 0) as [Hr|Hr]; [|reflexivity].
  cbn [negb]. peel.
  destruct (Z.eqb_spec (save_top_k (obj w)) 0) as [Hk|Hk]; [reflexivity|].
  destruct (running_sanity_check trainer) eqn:Hs; [reflexivity|].
  destruct H as [H|[H|[H|(last & Hlast & Hlt)]]]; try congruence.
  unfold _should_skip_epoch. rewrite Hlast.
  apply Z.ltb_lt in Hlt. now rewrite Hlt.
Qed.

Lemma closed_gate_is_no_op_witness :
  save_checkpoint (Scenario.trainer_at 0) Scenario.top1_after_one_cycle
  = (Scenario.top1_after_one_cycle, Ok tt).
Proof.
  apply closed_gate_is_no_op. right. right. right. exists 0.
  split; vm_compute; reflexivity.
Defined.

(** X6.  The constructor.  [__init__] raises [MisconfigurationException]
    exactly when no monitor key is given and [save_top_k] is not 1;
    otherwise it returns normally, whatever the mode string. *)
Theorem init_validates_configuration
        (dir name monitor0 : option string) (verbose0 save_last0 : bool)
        (k : Z) (weights_only0 : bool) (mode0 : string) (period0 : Z)
        (prefix0 : string) (heap0 : list (dict pyval)) (fs0 : Storage.filesystem) :
  snd (__init__ dir name monitor0 verbose0 save_last0 k weights_only0 mode0 period0
         prefix0 heap0 fs0)
  = match monitor0 with
    | None => if (k =? 1)%Z then Ok tt else Raise MisconfigurationException
    | Some _ => Ok tt
    end.
Proof.
  assert (Hmode : forall w, exists kv md,
             __init_monitor_mode monitor0 mode0 w =
             ({| obj := with_mode md (with_kth_value kv (obj w)); heap := heap w; fs := fs w;
                 log := (log w ++ match mode_dict monitor0 mode0 with
                                  | None => [WarnUnknownMode mode0]
                                  | Some _ => []
                                  end)%list |}, Ok tt)).
  { intros w. unfold __init_monitor_mode.
    destruct (mode_dict monitor0 mode0) as [[kv md]|] eqn:E.
    - exists kv, md. peel. rewrite E. repeat peel.
      unfold set_kth_value, set_mode. repeat peel. rewrite app_nil_r. reflexivity.
    - exists (fst (auto_mode monitor0)), (snd (auto_mode monitor0)).
      unfold bind, emit, ret, or_raise, set_kth_value, set_mode, modify_self.
      cbn. reflexivity. }
  assert (Hrest : forall w,
             snd ((__init_ckpt_dir dir name ;; __validate_init_configuration) w)
             = match monitor (obj w) with
               | None => if (save_top_k (obj w) =? 1)%Z then Ok tt
                         else Raise MisconfigurationException
               | Some _ => Ok tt
               end).
  { intros w.
    assert (E : exists w', __init_ckpt_dir dir name w = (w', Ok tt) /\
                           monitor (obj w') = monitor (obj w) /\
                           save_top_k (obj w') = save_top_k (obj w)).
    { unfold __init_ckpt_dir, set_dirpath, set_filename. destruct dir.
      - eexists. split; [repeat peel; reflexivity|]. now fields.
      - eexists. split; [repeat peel; reflexivity|]. now fields. }
    destruct E as (w' & Hrun & Hmon & Hk).
    rewrite (bind_eq _ _ _ _ _ Hrun). unfold __validate_init_configuration, bind, get_self.
    cbn [fst snd]. rewrite Hmon, Hk.
    destruct (monitor (obj w)); [reflexivity|].
    now destruct (save_top_k (obj w) =? 1)%Z. }
  unfold __init__.
  match goal with |- snd (bind _ _ ?w0) = _ => destruct (Hmode w0) as (kv & md & Hrun) end.
  rewrite (bind_eq _ _ _ _ _ Hrun), Hrest. fields. reflexivity.
Qed.

(** ** A score that is not in the top k *)

(** X7.  No save.  Let [c] be the monitored value as a tensor: its own
    value when the metrics hold a tensor, its rounding to [float32] when
    they hold a Python float.  When the dictionary is full and [c] is not
    strictly better than the score of [kth_best_model_path],
    [_save_top_k_checkpoints] returns without saving: [self], the
    dictionaries and the backend are unchanged, and the log gains at most
    the verbose notice. *)
Theorem not_in_top_k_changes_nothing
        (metrics : loc) (trainer : Trainer) (epoch : Z) (filepath : string)
        (w : World) (m : string) (d : dict pyval) (v : pyval) (c kth : float) :
  monitor (obj w) = Some m ->
  nth_error (heap w) metrics = Some d ->
  get d m = Some v ->
  v = Tensor c \/ (exists f, v = PyFloat f /\ c = to_float32 f) ->
  save_top_k (obj w) <= len (best_k_models (obj w)) ->
  get (best_k_models (obj w)) (kth_best_model_path (obj w)) = Some kth ->
  monitor_op (mode (obj w)) c kth = false ->
  _save_top_k_checkpoints metrics trainer epoch filepath w =
  ({| obj := obj w; heap := heap w; fs := fs w;
      log := (log w ++ (if verbose (obj w) then [InfoNotInTopK epoch] else []))%list |},
   Ok tt).
Proof.
  intros Hm Hd Hv Hc Hfull Hkth Hop.
  assert (Hconv : torch_tensor v = Ok c).
  { destruct Hc as [->|(f & -> & ->)]; reflexivity. }
  unfold _save_top_k_checkpoints. peel. unfold bind at 1, read. rewrite Hd. cbn [fst snd].
  rewrite Hm, Hv. cbv zeta. rewrite Hconv.
  change (bind (lift (Ok c)) ?k w) with (k c w). cbv beta.
  assert (Hcheck : check_monitor_top_k (Tensor c) w = (w, Ok false)).
  { unfold check_monitor_top_k. peel. apply Z.ltb_ge in Hfull. rewrite Hfull.
    cbn [is_tensor negb when torch_tensor]. peel.
    change (bind (lift (Ok c)) ?k w) with (k c w). cbv beta.
    rewrite Hkth. peel. unfold ret. now rewrite Hop. }
  rewrite (bind_eq _ _ _ _ _ Hcheck). peel.
  destruct (verbose (obj w)); cbn; [reflexivity|]. rewrite app_nil_r. now destruct w.
Qed.

Lemma not_in_top_k_changes_nothing_witness :
  let w := Cases.float_logged in
  (get (best_k_models (obj w)) (kth_best_model_path (obj w)) = Some 0.100000001%float /\
   PrimFloat.ltb 0.1 0.100000001 = true /\
   PrimFloat.ltb (to_float32 0.1) 0.100000001 = false) /\
  _save_top_k_checkpoints 1%nat (Scenario.trainer_at 1) 1 "ckpts/epoch=1.ckpt" w =
  ({| obj := obj w; heap := heap w; fs := fs w;
      log := (log w ++ (if verbose (obj w) then [InfoNotInTopK 1] else []))%list |},
   Ok tt).
Proof.
  split; [repeat split; vm_compute; reflexivity|].
  apply (not_in_top_k_changes_nothing 1%nat (Scenario.trainer_at 1) 1 "ckpts/epoch=1.ckpt"
           Cases.float_logged "loss" [("loss", PyFloat 0.1)] (PyFloat 0.1)
           (to_float32 0.1) 0.100000001).
  - vm_compute; reflexivity.
  - vm_compute; reflexivity.
  - vm_compute; reflexivity.
  - right. exists 0.1%float. split; reflexivity.
  - vm_compute; discriminate.
  - vm_compute; reflexivity.
  - vm_compute; reflexivity.
Defined.

(** ** Save-all mode *)

Lemma preserves_bind_self {B : Type} (I : World -> Prop) (P : checkpoint -> Prop)
      (k : checkpoint -> M B) :
  (forall w, I w -> P (obj w)) ->
  (forall self, P self -> preserves I (k self)) ->
  preserves I (bind get_self k).
Proof. intros HIP Hk w Hw. exact (Hk (obj w) (HIP w Hw) w Hw). Qed.

Section SaveAll.
Variables (m : string) (d0 : dict float) (best kth : string) (log0 : list event).

(** Save-all mode with a monitor key and without [save_last]; the
    bookkeeping is what it was and no removal has been added to the
    log. *)
Let save_all (self : checkpoint) : Prop :=
  save_top_k self = -1 /\ monitor self = Some m /\ save_last self = false.

Let untouched (w : World) : Prop :=
  save_all (obj w) /\
  best_k_models (obj w) = d0 /\
  best_model_path (obj w) = best /\
  kth_best_model_path (obj w) = kth /\
  forall p, In (Removed p) (log w) -> In (Removed p) log0.

Lemma untouched_emit (e : event) :
  (forall p, e <> Removed p) -> preserves untouched (emit e).
Proof.
  intros He w (Hs & Hd & Hb & Hk & Hlog).
  split; [exact Hs|]. split; [exact Hd|]. split; [exact Hb|]. split; [exact Hk|].
  intros p Hin. cbn in Hin. apply in_app_or in Hin as [Hin|[Hin|[]]]; [now apply Hlog|].
  now destruct (He p).
Qed.

Lemma untouched_save_checkpoint (trainer : Trainer) :
  preserves untouched (save_checkpoint trainer).
Proof.
  assert (HIP : forall w, untouched w -> save_all (obj w)) by (now intros w [H _]).
  step_all_with
    ltac:(idtac;
          first
            [ apply (preserves_bind_self untouched save_all _ HIP);
              intros ? (? & ? & ?);
              repeat match goal with
                     | H : ?f ?s = _ |- context [?f ?s] => rewrite H
                     end;
              cbn [negb andb orb when Z.eqb Pos.eqb]; cbv beta iota
            | apply untouched_emit; intros ?; discriminate ])
    frame.
Qed.

End SaveAll.

(** X8.  Save-all mode.  With [save_top_k = -1], a monitor key and
    [save_last] unset, a cycle never touches the ranking
    ([best_k_models], [best_model_path] and [kth_best_model_path] keep
    their values, so [best_model_path] is never set by the cycles) and
    never removes a file. *)
Theorem save_all_cycle_keeps_everything (trainer : Trainer) (w : World) (m : string) :
  save_top_k (obj w) = -1 ->
  monitor (obj w) = Some m ->
  save_last (obj w) = false ->
  let w' := fst (save_checkpoint trainer w) in
  best_k_models (obj w') = best_k_models (obj w) /\
  best_model_path (obj w') = best_model_path (obj w) /\
  kth_best_model_path (obj w') = kth_best_model_path (obj w) /\
  forall p, In (Removed p) (log w') -> In (Removed p) (log w).
Proof.
  intros Hk Hm Hlast w'.
  pose proof (untouched_save_checkpoint m (best_k_models (obj w)) (best_model_path (obj w))
                (kth_best_model_path (obj w)) (log w) trainer w) as H.
  destruct H as (_ & Hd & Hb & Hkth & Hlog); [repeat split; auto|].
  repeat split; assumption.
Qed.

Lemma save_all_cycle_keeps_everything_witness :
  best_k_models (obj (fst (save_checkpoint (Scenario.trainer_at 0) Cases.keeps_all)))
  = best_k_models (obj Cases.keeps_all).
Proof.
  refine (proj1 (save_all_cycle_keeps_everything (Scenario.trainer_at 0) Cases.keeps_all
                   "loss" _ _ _)); vm_compute; reflexivity.
Defined.

(** ** The files the callback removes *)

Section Removals.

Lemma removes_only_tracked_other (l : list event) (e : event) :
  removes_only_tracked l -> (forall p, e <> Removed p) -> removes_only_tracked (l ++ [e]).
Proof.
  intros H He before after p E.
  destruct (@exists_last _ (Removed p :: after)) as (l' & a & El'); [discriminate|].
  rewrite El', app_assoc in E. apply app_inj_tail in E as [E ->].
  destruct l' as [|x l']; cbn [app] in El'.
  - injection El' as El' _. now destruct (He p).
  - injection El' as <- _. exact (H before l' p E).
Qed.

Lemma removes_only_tracked_removed (l : list event) (q : string) :
  removes_only_tracked l -> tracked l q -> removes_only_tracked (l ++ [Removed q]).
Proof.
  intros H Hq before after p E.
  destruct (@exists_last _ (Removed p :: after)) as (l' & a & El'); [discriminate|].
  rewrite El', app_assoc in E. apply app_inj_tail in E as [E Ea].
  destruct l' as [|x l']; cbn [app] in El'.
  - injection El' as El' _. rewrite app_nil_r in E. subst. now injection El' as ->.
  - injection El' as <- _. exact (H before l' p E).
Qed.

Lemma tracked_app (l l' : list event) (p : string) : tracked l p -> tracked (l ++ l') p.
Proof. intros H. apply in_or_app. now left. Qed.

Lemma pop_some_mem {V : Type} (d d' : dict V) (k : string) :
  pop d k = Some d' -> mem k d = true.
Proof.
  unfold mem. revert d'. induction d as [|[k' v'] d IH]; intros d'; cbn [pop get];
    [discriminate|].
  destruct (String.eqb k k'); [reflexivity|].
  destruct (pop d k) as [d''|]; [|discriminate]. intros _. exact (IH d'' eq_refl).
Qed.

Lemma mem_set_inv {V : Type} (d : dict V) (k p : string) (v : V) :
  mem p (set d k v) = true -> p = k \/ mem p d = true.
Proof.
  intros H. destruct (String.eqb_spec p k) as [->|Hne]; [now left|right].
  unfold mem in *. now rewrite get_set_other in H.
Qed.

Variables (pending : option string) (ps : list string).

Lemma owned_but_emit (e : event) :
  (forall p, e <> Removed p) -> preserves (owned_but pending ps) (emit e).
Proof.
  intros He w (Hlog & Hkeys & Hlast & Hps). unfold owned_but. cbn [emit fst obj log].
  split; [now apply removes_only_tracked_other|].
  split; [intros p Hp; destruct (Hkeys p Hp); [now left | right; now apply tracked_app]|].
  split; [intros Ht; now apply tracked_app, Hlast|].
  intros p Hp. now apply tracked_app, Hps.
Qed.

Lemma owned_but_del_model (p : string) :
  In p ps -> preserves (owned_but pending ps) (_del_model p).
Proof.
  intros Hin w H. unfold _del_model, bind, get_fs, when. cbn [fst snd].
  destruct (Storage.exists_ (fs w) p); [|exact H].
  destruct H as (Hlog & Hkeys & Hlast & Hps). unfold owned_but. cbn [emit modify_fs fst obj log].
  split; [apply removes_only_tracked_removed; auto|].
  split; [intros q Hq; destruct (Hkeys q Hq); [now left | right; now apply tracked_app]|].
  split; [intros Ht; now apply tracked_app, Hlast|].
  intros q Hq. now apply tracked_app, Hps.
Qed.

Lemma owned_but_del_listed (filepath : string) (l : list string) :
  incl l ps -> preserves (owned_but pending ps) (del_listed filepath l).
Proof.
  induction l as [|p l IH]; intros Hincl; cbn [del_listed]; [apply preserves_ret|].
  apply preserves_bind.
  - apply preserves_when, owned_but_del_model, Hincl. now left.
  - intros _. apply IH. intros x Hx. apply Hincl. now right.
Qed.

End Removals.

Section Leads.
Context {A B : Type}.

Lemma leads_bind (I J K : World -> Prop) (m : M A) (k : A -> M B) :
  leads I m J -> (forall w, J w -> K w) -> (forall a, leads J (k a) K) ->
  leads I (bind m k) K.
Proof.
  intros Hm HJK Hk w H. unfold bind. specialize (Hm w H).
  destruct (m w) as [w' [a| | |]]; cbn [fst] in *; auto. now apply Hk.
Qed.

Lemma leads_get_self (I K : World -> Prop) (k : checkpoint -> M B) :
  (forall self, leads I (k self) K) -> leads I (bind get_self k) K.
Proof. intros Hk w H. exact (Hk (obj w) w H). Qed.

Lemma leads_of_preserves (I K : World -> Prop) (m : M A) :
  preserves I m -> (forall w, I w -> K w) -> leads I m K.
Proof. intros Hm HIK w H. apply HIK, Hm, H. Qed.

End Leads.

Lemma owned_but_weaken (pending : option string) (ps qs : list string) (w : World) :
  incl qs ps -> owned_but None ps w -> owned_but pending qs w.
Proof.
  intros Hincl (Hlog & Hkeys & Hlast & Hps). repeat split; auto.
  intros p Hp. destruct (Hkeys p Hp); [discriminate | now right].
Qed.

Lemma owned_but_del_model_at (pending : option string) (ps : list string) (p : string)
      (w : World) :
  owned_but pending ps w -> tracked (log w) p ->
  owned_but pending ps (fst (_del_model p w)).
Proof.
  intros H Hp.
  assert (H' : owned_but pending (p :: ps) w).
  { destruct H as (Hlog & Hkeys & Hlast & Hps). repeat split; auto.
    intros q [<-|Hq]; auto. }
  apply (owned_but_del_model pending (p :: ps) p (or_introl eq_refl)) in H'.
  destruct H' as (Hlog & Hkeys & Hlast & Hps). repeat split; auto.
  intros q Hq. apply Hps. now right.
Qed.

(** Once [_save_model] has started, the path is on record. *)
Lemma save_model_tracks (filepath : string) (trainer : Trainer) (ps : list string) :
  leads (owned_but (Some filepath) ps) (_save_model filepath trainer)
        (owned_but None (filepath :: ps)).
Proof.
  intros w (Hlog & Hkeys & Hlast & Hps).
  assert (H1 : owned_but None (filepath :: ps)
                 (fst (emit (TrackCheckpointing filepath) w))).
  { unfold owned_but, tracked. cbn [emit fst obj log].
    split; [apply removes_only_tracked_other; [exact Hlog | intros ?; discriminate]|].
    split.
    { intros p Hp. right. apply in_or_app.
      destruct (Hkeys p Hp) as [[= ->]|Ht]; [right; now left | now left]. }
    split; [intros Ht; now apply tracked_app, Hlast|].
    intros p [<-|Hp]; apply in_or_app; [right; now left | left; now apply Hps]. }
  revert H1. unfold _save_model.
  match goal with
  | |- _ -> _ (fst (bind (emit ?e) ?k w)) =>
      change (fst (bind (emit e) k w)) with (fst (k tt (fst (emit e w))));
      generalize (fst (emit e w))
  end.
  cbv beta.
  match goal with
  | |- forall w1, ?I w1 -> ?I (fst (?m w1)) => change (preserves I m)
  end.
  step_all_with ltac:(idtac; apply owned_but_emit; intros ?; discriminate) frame.
Qed.

Lemma owned_save_model (filepath : string) (trainer : Trainer) :
  preserves owned (_save_model filepath trainer).
Proof.
  intros w H. apply (owned_but_weaken None (filepath :: []) []); [intros ? []|].
  apply save_model_tracks. now apply owned_but_weaken with (ps := []).
Qed.

Lemma persist_and_evict_owned (filepath : string) (epoch : Z) (trainer : Trainer)
      (del_list : list string) :
  leads (owned_but (Some filepath) del_list)
        (persist_and_evict filepath epoch trainer del_list) owned.
Proof.
  assert (T : leads (owned_but (Some filepath) del_list)
                (_save_model filepath trainer ;; del_listed filepath del_list) owned).
  { apply leads_bind with (J := owned_but None (filepath :: del_list)).
    - apply save_model_tracks.
    - intros w. apply owned_but_weaken. intros ? [].
    - intros _. apply leads_of_preserves.
      + apply owned_but_del_listed. now apply incl_tl, incl_refl.
      + intros w. apply owned_but_weaken. intros ? []. }
  unfold persist_and_evict. apply leads_get_self. intros self w H.
  unfold bind at 1. destruct (verbose self); cbn [when emit ret fst snd]; apply T; [|exact H].
  apply (owned_but_emit (Some filepath) del_list (InfoSavingTopK epoch filepath));
    [intros ?; discriminate | exact H].
Qed.

(** Without the entry to pop, [_do_check_save] raises before it has
    changed anything. *)
Lemma do_check_save_key_error (filepath : string) (current : float) (epoch : Z)
      (trainer : Trainer) (w : World) :
  recorded (obj w) filepath current = None ->
  _do_check_save filepath current epoch trainer w = (w, Raise KeyError).
Proof.
  unfold recorded. intros H. unfold _do_check_save. peel.
  fold (at_capacity (obj w)). destruct (at_capacity (obj w)); [|discriminate].
  destruct (pop (best_k_models (obj w)) (kth_best_model_path (obj w))); [discriminate|].
  reflexivity.
Qed.

Lemma owned_do_check_save (filepath : string) (current : float) (epoch : Z)
      (trainer : Trainer) :
  preserves owned (_do_check_save filepath current epoch trainer).
Proof.
  intros w H.
  destruct (recorded (obj w) filepath current) as [d|] eqn:Hrec;
    [|now rewrite do_check_save_key_error].
  assert (Plast : preserves (fun w' => last_model_path (obj w') = last_model_path (obj w))
                    (_do_check_save filepath current epoch trainer)) by step_all frame.
  specialize (Plast w eq_refl).
  destruct (do_check_save_books filepath current epoch trainer w d Hrec)
    as (w3 & Heq & _ & _ & Hlog & _ & _ & _ & _ & Hd & _).
  rewrite Heq in Plast |- *. rewrite persist_and_evict_obj in Plast.
  apply persist_and_evict_owned.
  destruct H as (Hrm & Hkeys & Hlast & _).
  unfold owned_but. rewrite Hlog, Hd, Plast. split; [exact Hrm|].
  unfold recorded in Hrec. split; [|split; [exact Hlast|]].
  - intros p Hp. destruct (at_capacity (obj w)).
    + destruct (pop (best_k_models (obj w)) (kth_best_model_path (obj w))) as [popped|] eqn:E;
        [|discriminate].
      injection Hrec as <-. apply mem_set_inv in Hp as [->|Hp]; [now left|].
      apply mem_In_keys, (proj1 (pop_keys _ _ _ E)), mem_In_keys, Hkeys in Hp.
      destruct Hp; [discriminate | now right].
    + injection Hrec as <-. apply mem_set_inv in Hp as [->|Hp]; [now left|].
      destruct (Hkeys p Hp); [discriminate | now right].
  - intros p Hp. destruct (at_capacity (obj w)); [|destruct Hp].
    destruct Hp as [<-|[]].
    destruct (pop (best_k_models (obj w)) (kth_best_model_path (obj w))) as [popped|] eqn:E;
      [|discriminate].
    apply pop_some_mem, Hkeys in E. destruct E; [discriminate | assumption].
Qed.

Lemma owned_save_last_checkpoint (trainer : Trainer) (epoch : Z) (metrics : loc)
      (filepath : string) :
  preserves owned (_save_last_checkpoint trainer epoch metrics filepath).
Proof.
  unfold _save_last_checkpoint. apply leads_get_self. intros self. cbv zeta.
  destruct (negb _); [apply preserves_ret|].
  apply leads_bind with (J := owned).
  { match goal with |- leads ?I ?m ?I => change (preserves I m) end. step_all frame. }
  { intros w H; exact H. }
  intros last_filepath.
  apply leads_bind with (J := owned_but None [last_filepath]).
  { intros w H. apply save_model_tracks. now apply owned_but_weaken with (ps := []). }
  { intros w. apply owned_but_weaken. intros ? []. }
  intros _ w H. unfold bind at 1, get_self. cbv beta iota.
  set (c := PyStr.truthy (last_model_path (obj w)) &&
            negb (String.eqb (last_model_path (obj w)) last_filepath)).
  assert (Hrun : exists w2, when c (_del_model (last_model_path (obj w))) w = (w2, Ok tt) /\
                            owned_but None [last_filepath] w2).
  { destruct c eqn:Ec; cbn [when]; [|now exists w].
    exists (fst (_del_model (last_model_path (obj w)) w)).
    split; [now rewrite del_model_world|].
    apply owned_but_del_model_at; [exact H|].
    subst c. apply andb_true_iff in Ec as [Ht _].
    destruct H as (_ & _ & Hlast & _). exact (Hlast Ht). }
  destruct Hrun as (w2 & Hrun & H2). rewrite (bind_eq _ _ _ _ _ Hrun).
  clear Hrun. revert w2 H2.
  match goal with
  | |- forall w2, ?I w2 -> ?K (fst (?m w2)) => change (leads I m K)
  end.
  apply leads_bind with (J := owned).
  - intros w' (Hlog & Hkeys & Hlast & Hps). unfold set_last_model_path. repeat split; auto.
    + intros _. apply Hps. now left.
    + intros ? [].
  - intros w' H'; exact H'.
  - intros _. match goal with |- leads ?I ?m ?I => change (preserves I m) end.
    step_all frame.
Qed.

(** The calls that save or remove files are taken from the lemmas
    above; the notices and warnings are no removals. *)
Ltac owned_call :=
  first
    [ apply owned_save_last_checkpoint
    | apply owned_do_check_save
    | apply owned_save_model
    | apply owned_but_emit; intros ?;
      repeat match goal with
             | |- context [if ?c then _ else _] => destruct c
             end;
      discriminate ].

Lemma owned_perform (a : action) : preserves owned (perform a).
Proof.
  destruct a; cbn [perform]; step_all_with owned_call frame.
Qed.

Lemma owned_run (acts : list action) (w : World) : owned w -> owned (run acts w).
Proof.
  revert w. induction acts as [|a acts IH]; intros w H; cbn [run]; [exact H|].
  apply IH, owned_perform, H.
Qed.

(** X9.  The callback removes only paths it has handed to [_save_model].
    In every run from the constructor, whatever the configuration, the
    metrics, the delegate and the state restored by [on_load_checkpoint],
    a path is removed from the backend only after [_save_model] has been
    called on the same path, that is, after a [TrackCheckpointing] record
    of it.  (The record is made before the delegate is looked up, so it
    does not say that the file was written.) *)
Theorem removes_only_tracked_paths
        (dir name monitor0 : option string) (verbose0 save_last0 : bool)
        (k : Z) (weights_only0 : bool) (mode0 : string) (period0 : Z)
        (prefix0 : string) (heap0 : list (dict pyval)) (fs0 : Storage.filesystem)
        (acts : list action) (before after : list event) (p : string) :
  log (run acts (fst (__init__ dir name monitor0 verbose0 save_last0 k weights_only0
                        mode0 period0 prefix0 heap0 fs0)))
  = (before ++ Removed p :: after)%list ->
  In (TrackCheckpointing p) before.
Proof.
  assert (H0 : owned (fst (__init__ dir name monitor0 verbose0 save_last0 k weights_only0
                             mode0 period0 prefix0 heap0 fs0))).
  { unfold __init__.
    match goal with
    | |- ?I (fst (?m ?w)) => assert (P : preserves I m) by step_all_with owned_call frame;
                             apply P
    end.
    repeat split; cbn; try discriminate; try tauto.
    intros l1 l2 q E. now destruct l1. }
  apply (owned_run acts) in H0. destruct H0 as (Hlog & _).
  intros E. exact (Hlog before after p E).
Qed.

Lemma removes_only_tracked_paths_witness :
  In (TrackCheckpointing "ckpts/epoch=0.ckpt")
     [TrackCheckpointing "ckpts/epoch=0.ckpt"; Saved "ckpts/epoch=0.ckpt" false;
      TrackCheckpointing "ckpts/epoch=1.ckpt"; Saved "ckpts/epoch=1.ckpt" false].
Proof.
  refine (removes_only_tracked_paths (Some "ckpts") None (Some "loss") false false 1 false
            "min" 1 "" Scenario.dictionaries [] Scenario.three_cycles _ [] _ _).
  vm_compute; reflexivity.
Defined.

(** ** The candidates *)

Section Update.
Context {V : Type}.

Lemma get_absent (d : dict V) (k : string) : ~ In k (keys d) -> get d k = None.
Proof.
  intros H. destruct (get d k) eqn:E; [|reflexivity].
  exfalso. apply H, mem_In_keys. unfold mem. now rewrite E.
Qed.

(** [d.update(other)]: the entries of [other] win. *)
Lemma get_update (d o : dict V) (k : string) :
  well_formed o ->
  get (update d o) k = match get o k with Some v => Some v | None => get d k end.
Proof.
  unfold update, well_formed, keys. revert d.
  induction o as [|[k1 v1] o IH]; intros d Hwf; cbn [fold_left get fst snd]; [reflexivity|].
  cbn [map fst] in Hwf. inversion Hwf as [|? ? Hnotin Hwf']; subst.
  rewrite (IH _ Hwf').
  destruct (String.eqb_spec k k1) as [->|Hne].
  - rewrite (get_absent o k1 Hnotin). apply get_set_same.
  - rewrite get_set_other by congruence. reflexivity.
Qed.

End Update.

Lemma list_set_last {T : Type} (xs : list T) (a b : T) :
  list_set (xs ++ [a]) (List.length xs) b = (xs ++ [b])%list.
Proof. induction xs as [|x xs IH]; cbn [list_set app List.length]; [reflexivity|]. now rewrite IH. Qed.

Lemma nth_error_grown {T : Type} (xs : list T) (a x : T) (l : nat) :
  nth_error xs l = Some x -> nth_error (xs ++ [a]) l = Some x.
Proof.
  intros H. rewrite nth_error_app1; [exact H|]. apply nth_error_Some. congruence.
Qed.

Lemma nth_error_last {T : Type} (xs : list T) (a : T) :
  nth_error (xs ++ [a]) (List.length xs) = Some a.
Proof. rewrite nth_error_app2, Nat.sub_diag; [reflexivity | lia]. Qed.

(** X10.  Precedence among the trainer's metrics.  [_monitor_candidates]
    returns a new dictionary, allocated after every dictionary in
    existence, in which a key holds its progress-bar value if it has one,
    else its callback value if it has one, else its logged value; nothing
    else changes. *)
Theorem monitor_candidates_precedence
        (trainer : Trainer) (w : World) (logged callback progress_bar : dict pyval) :
  nth_error (heap w) (logged_metrics trainer) = Some logged ->
  nth_error (heap w) (callback_metrics trainer) = Some callback ->
  nth_error (heap w) (progress_bar_metrics trainer) = Some progress_bar ->
  well_formed callback ->
  well_formed progress_bar ->
  exists merged : dict pyval,
    _monitor_candidates trainer w =
    ({| obj := obj w; heap := (heap w ++ [merged])%list; fs := fs w; log := log w |},
     Ok (List.length (heap w))) /\
    forall k,
      get merged k =
      match get progress_bar k with
      | Some v => Some v
      | None => match get callback k with
                | Some v => Some v
                | None => get logged k
                end
      end.
Proof.
  intros Hl Hc Hp Hwc Hwp.
  exists (update (update logged callback) progress_bar). split.
  - unfold _monitor_candidates, bind, read, alloc, write, ret.
    rewrite Hl. cbn [fst snd obj heap fs log].
    rewrite nth_error_last, (nth_error_grown _ _ _ _ Hc). cbn [fst snd obj heap fs log].
    rewrite list_set_last, nth_error_last, (nth_error_grown _ _ _ _ Hp).
    cbn [fst snd obj heap fs log]. now rewrite list_set_last.
  - intros k. now rewrite !get_update.
Qed.

Lemma monitor_candidates_precedence_witness :
  exists merged : dict pyval,
    _monitor_candidates (Scenario.trainer_at 0) Cases.layered =
    ({| obj := obj Cases.layered; heap := (heap Cases.layered ++ [merged])%list;
        fs := fs Cases.layered; log := log Cases.layered |},
     Ok (List.length (heap Cases.layered))) /\
    get merged "loss" = Some (Tensor 0.7) /\
    get merged "lr" = Some (PyFloat 0.1).
Proof.
  destruct (monitor_candidates_precedence (Scenario.trainer_at 0) Cases.layered
              [("loss", Tensor 0.9); ("lr", PyFloat 0.1)] [("loss", Tensor 0.5)]
              [("loss", Tensor 0.7); ("step", PyInt 3)])
    as (merged & Hrun & Hget).
  - vm_compute; reflexivity.
  - vm_compute; reflexivity.
  - vm_compute; reflexivity.
  - vm_compute. constructor; [intros [] | constructor].
  - vm_compute. constructor; [intros [H|[]]; discriminate|].
    constructor; [intros [] | constructor].
  - exists merged. split; [exact Hrun|]. split; [exact (Hget "loss") | exact (Hget "lr")].
Defined.

(** ** The default file name *)

Lemma append_empty (s : string) : s ++ "" = s.
Proof. induction s as [|c s IH]; cbn [String.append]; [reflexivity | now rewrite IH]. Qed.

Lemma default_base_name (epoch : Z) (d : dict pyval) (prefix0 : string) :
  0 <= epoch ->
  base_name None epoch d prefix0 =
  Ok (PyStr.join CHECKPOINT_JOIN_CHAR
        (filter PyStr.truthy [prefix0; "epoch=" ++ PyStr.of_int epoch])).
Proof.
  intros He. unfold base_name, formatted_metrics, template_of.
  change (PyStr.findall "{epoch}") with ["{epoch"].
  cbn [fold_left map PyStr.tail].
  change (fst (format_group ("{epoch}", set d "epoch" (PyInt epoch)) "{epoch"))
    with "epoch={epoch}".
  unfold add_default, mem. rewrite get_set_same.
  unfold PyFormat.format.
  change (PyFormat.parse_template "epoch={epoch}" PyFormat.Text)
    with (Ok [PyFormat.Lit "e"; PyFormat.Lit "p"; PyFormat.Lit "o"; PyFormat.Lit "c";
              PyFormat.Lit "h"; PyFormat.Lit "="; PyFormat.Field "epoch" ""]).
  cbn [rbind PyFormat.render PyFormat.render_piece].
  change (PyFormat.all_digits "epoch") with false. cbv iota.
  rewrite get_set_same.
  change (PyFormat.format_value (PyInt epoch) "")
    with (Ok (PyFormat.format_int_d
                {| PyFormat.zero_pad := false; PyFormat.width := 0;
                   PyFormat.precision := None; PyFormat.ty := None |} epoch)).
  unfold PyFormat.format_int_d, PyFormat.pad.
  destruct (Z.ltb_spec epoch 0) as [Hlt|_]; [lia|].
  rewrite Z.abs_eq by exact He.
  cbn [rbind PyFormat.zero_pad PyFormat.width Nat.sub PyStr.repeat String.append].
  now rewrite append_empty.
Qed.

(** X11.  The default name.  Without a template the file is named after the
    epoch alone, [epoch=N.ckpt], behind the prefix and before the version
    if there are any, whatever the metrics hold (an entry ["epoch"] of
    theirs is overwritten); the dictionary handed in has the epoch
    assigned under ["epoch"]. *)
Theorem default_checkpoint_name
        (epoch : Z) (m : loc) (ver : option Z) (w : World) (d : dict pyval) :
  0 <= epoch ->
  filename (obj w) = None ->
  nth_error (heap w) m = Some d ->
  format_checkpoint_name epoch m ver w =
  ({| obj := obj w; heap := list_set (heap w) m (set d "epoch" (PyInt epoch));
      fs := fs w; log := log w |},
   Ok (candidate (obj w)
         (PyStr.join CHECKPOINT_JOIN_CHAR
            (filter PyStr.truthy [prefix (obj w); "epoch=" ++ PyStr.of_int epoch]))
         ver)).
Proof.
  intros He Hname Hd.
  pose proof (format_name_with (filename (obj w)) epoch m (prefix (obj w)) w d Hd) as Hrun.
  rewrite (format_checkpoint_name_bind _ _ _ _ _ _ Hrun eq_refl).
  rewrite Hname, (default_base_name epoch d _ He). cbn [rbind].
  unfold formatted_metrics, template_of.
  change (PyStr.findall "{epoch}") with ["{epoch"].
  cbn [fold_left map PyStr.tail]. unfold add_default, mem. now rewrite get_set_same.
Qed.

Lemma default_checkpoint_name_witness :
  snd (format_checkpoint_name 3 1%nat None (Scenario.callback (Some "loss") 1 "min"))
  = Ok "ckpts/epoch=3.ckpt".
Proof.
  assert (He : 0 <= 3) by lia.
  assert (Hname : filename (obj (Scenario.callback (Some "loss") 1 "min")) = None)
    by (vm_compute; reflexivity).
  assert (Hd : nth_error (heap (Scenario.callback (Some "loss") 1 "min")) 1 = Some [])
    by (vm_compute; reflexivity).
  rewrite (default_checkpoint_name 3 1%nat None _ _ He Hname Hd).
  vm_compute; reflexivity.
Defined.

(** ** The directory resolved at run time *)

Lemma exists_makedirs_same (fs : Storage.filesystem) (d : string) :
  Storage.exists_ (Storage.makedirs fs d) d = true.
Proof.
  unfold Storage.makedirs. destruct (Storage.exists_ fs d) eqn:E; [exact E|].
  unfold Storage.exists_. cbn [existsb]. now rewrite String.eqb_refl.
Qed.

Lemma exists_makedirs_kept (fs : Storage.filesystem) (d p : string) :
  Storage.exists_ fs p = true -> Storage.exists_ (Storage.makedirs fs d) p = true.
Proof.
  intros H. unfold Storage.makedirs. destruct (Storage.exists_ fs d); [exact H|].
  unfold Storage.exists_ in *. cbn [existsb]. rewrite H. apply orb_true_r.
Qed.

Lemma path_join_relative (a b : string) :
  PyStr.startswith b "/" = false -> exists pre, PyStr.path_join a b = pre ++ b.
Proof.
  intros H. unfold PyStr.path_join. rewrite H.
  destruct (negb (PyStr.truthy a) || PyStr.ends_with_slash a).
  - now exists a.
  - exists (a ++ "/"). now rewrite append_assoc.
Qed.

(** X12.  The directory is resolved once.  On the process of rank zero, a
    callback built without a directory gets one from the first
    [on_pretrain_routine_start]: a path that ends in [checkpoints], which
    exists on the backend afterwards, while every path that existed still
    does; the file name template is dropped.  From then on the hook
    changes nothing, whatever the trainer and its logger. *)
Theorem resolve_ckpt_dir_once (trainer : Trainer) (paths : TrainerPaths) (w : World) :
  global_rank trainer = 0 ->
  dirpath (obj w) = None ->
  let w1 := fst (on_pretrain_routine_start trainer paths w) in
  snd (on_pretrain_routine_start trainer paths w) = Ok tt /\
  dirpath (obj w1) = Some (ckpt_path paths) /\
  filename (obj w1) = None /\
  (exists pre, ckpt_path paths = pre ++ "checkpoints") /\
  Storage.exists_ (fs w1) (ckpt_path paths) = true /\
  (forall p, Storage.exists_ (fs w) p = true -> Storage.exists_ (fs w1) p = true) /\
  (forall trainer' paths', on_pretrain_routine_start trainer' paths' w1 = (w1, Ok tt)).
Proof.
  intros Hrank Hdir w1.
  assert (Hrun : on_pretrain_routine_start trainer paths w =
                 ({| obj := with_dirpath (Some (ckpt_path paths)) (with_filename None (obj w));
                     heap := heap w; fs := Storage.makedirs (fs w) (ckpt_path paths);
                     log := log w |}, Ok tt)).
  { unfold on_pretrain_routine_start, __resolve_ckpt_dir, rank_zero_only.
    rewrite Hrank. cbn [Z.eqb]. peel. rewrite Hdir.
    unfold set_filename, set_dirpath. repeat peel. fields. reflexivity. }
  subst w1. rewrite Hrun. cbn [fst snd]. fields.
  split; [reflexivity|]. split; [reflexivity|]. split; [reflexivity|]. split.
  { unfold ckpt_path. destruct (logger paths); now apply path_join_relative. }
  split; [apply exists_makedirs_same|]. split; [intros p; apply exists_makedirs_kept|].
  intros trainer' paths'.
  unfold on_pretrain_routine_start, __resolve_ckpt_dir, rank_zero_only.
  destruct (global_rank trainer' =? 0)%Z; reflexivity.
Qed.

Lemma resolve_ckpt_dir_once_witness :
  dirpath (obj (fst (on_pretrain_routine_start (Scenario.trainer_at 0) Cases.with_logger
                       Cases.undirected)))
  = Some "logs/default/version_3/checkpoints".
Proof.
  assert (Hrank : global_rank (Scenario.trainer_at 0) = 0) by reflexivity.
  assert (Hdir : dirpath (obj Cases.undirected) = None) by (vm_compute; reflexivity).
  exact (proj1 (proj2 (resolve_ckpt_dir_once (Scenario.trainer_at 0) Cases.with_logger
                         Cases.undirected Hrank Hdir))).
Defined.

(** ** The state restored from a checkpoint *)

(** X13.  What a restart forgets.  [on_load_checkpoint] restores
    [best_model_score] and [best_model_path], which [on_save_checkpoint]
    then reports again, and nothing of the ranking.  On a callback just
    built with [save_top_k >= 1], the first score after the restart
    therefore passes [check_monitor_top_k] whatever it is, and
    [_do_check_save] then overwrites the restored pair with that score
    and its path. *)
Theorem restart_forgets_the_ranking
        (dir name monitor0 : option string) (verbose0 save_last0 : bool)
        (k : Z) (weights_only0 : bool) (mode0 : string) (period0 : Z)
        (prefix0 : string) (heap0 : list (dict pyval)) (fs0 : Storage.filesystem)
        (score : pyval) (path : string) :
  1 <= k ->
  let built := fst (__init__ dir name monitor0 verbose0 save_last0 k weights_only0
                      mode0 period0 prefix0 heap0 fs0) in
  let w := fst (on_load_checkpoint score path built) in
  on_save_checkpoint w = (w, Ok (score, path)) /\
  best_k_models (obj w) = [] /\
  (forall current : pyval, check_monitor_top_k current w = (w, Ok true)) /\
  (forall (filepath : string) (current : float) (epoch : Z) (trainer : Trainer),
      let w' := fst (_do_check_save filepath current epoch trainer w) in
      best_k_models (obj w') = [(filepath, current)] /\
      best_model_path (obj w') = filepath /\
      best_model_score (obj w') = Tensor current).
Proof.
  intros Hk built w.
  pose proof (init_attributes dir name monitor0 verbose0 save_last0 k weights_only0
                mode0 period0 prefix0 heap0 fs0) as (_ & _ & _ & Hsave & _ & _ & _ & Hnil & _).
  fold built in Hsave, Hnil.
  assert (Hd : best_k_models (obj w) = []) by exact Hnil.
  assert (Hk' : save_top_k (obj w) = k) by exact Hsave.
  split; [reflexivity|]. split; [exact Hd|]. split.
  - intros current. unfold check_monitor_top_k. peel. rewrite Hd, Hk'.
    destruct (Z.ltb_spec (len (@nil (string * float))) k) as [_|Hge]; [reflexivity|].
    cbn in Hge. lia.
  - intros filepath current epoch trainer w'.
    assert (Hrec : recorded (obj w) filepath current = Some [(filepath, current)]).
    { unfold recorded, at_capacity. rewrite Hd, Hk'.
      destruct (Z.eqb_spec (len (@nil (string * float))) k) as [E|_]; [cbn in E; lia|].
      reflexivity. }
    destruct (do_check_save_books filepath current epoch trainer w _ Hrec)
      as (w3 & Heq & _ & _ & _ & _ & _ & _ & _ & Hd3 & Hbest & (s & Hs & Hscore) & _).
    assert (Hobj : obj w' = obj w3) by (subst w'; rewrite Heq; apply persist_and_evict_obj).
    rewrite Hobj.
    assert (Hpath : best_model_path (obj w3) = filepath).
    { destruct (mode (obj w)); cbn in Hbest; congruence. }
    rewrite Hpath in Hs. cbn [get] in Hs. rewrite String.eqb_refl in Hs.
    injection Hs as <-. repeat split; assumption.
Qed.

Lemma restart_forgets_the_ranking_witness :
  let w := fst (on_load_checkpoint (Tensor 0.25) "ckpts/epoch=7.ckpt"
                  (Scenario.callback (Some "loss") 1 "min")) in
  check_monitor_top_k (Tensor 0.9) w = (w, Ok true).
Proof.
  exact (proj1 (proj2 (proj2 (restart_forgets_the_ranking (Some "ckpts") None (Some "loss")
                                false false 1 false "min" 1 "" Scenario.dictionaries []
                                (Tensor 0.25) "ckpts/epoch=7.ckpt" (Z.le_refl 1))))
           (Tensor 0.9)).
Defined.

(** ** The entry to evict *)

Lemma ranked_do_check_save (filepath : string) (current : float) (epoch : Z)
      (trainer : Trainer) :
  preserves ranked (_do_check_save filepath current epoch trainer).
Proof.
  intros w [Hc _]. split; [now apply consistent_do_check_save|].
  destruct (consistent_recorded w filepath current Hc) as (d & Hrec & Hwfd & _).
  assert (Pmode : preserves (fun w' => mode (obj w') = mode (obj w))
                    (_do_check_save filepath current epoch trainer)) by step_all frame.
  specialize (Pmode w eq_refl).
  destruct (do_check_save_books filepath current epoch trainer w d Hrec)
    as (w3 & Heq & _ & _ & _ & _ & _ & _ & Hk & Hd & _ & _ & Hkth).
  rewrite Heq in Pmode |- *. rewrite persist_and_evict_obj in Pmode |- *.
  rewrite Hd, Hk, Pmode. intros Hfull.
  apply Z.eqb_eq in Hfull. rewrite Hfull in Hkth. destruct Hkth as [Hworst Hget].
  assert (Hne : d <> []) by (intros ->; discriminate).
  destruct (worst_key_optimal (mode (obj w)) d Hne) as (b & bv & Hb & Hbin & Hopt).
  rewrite Hworst in Hb. injection Hb as <-.
  exists bv. split; [now apply In_get|].
  intros key v Hg. apply (Hopt key v). now apply get_In.
Qed.

#[local] Hint Resolve ranked_do_check_save : inv.



